(** * FurSight SDK (python/fursight): request executor and adoption form

    A shallow embedding of [client.py], [forms.py], [exceptions.py] and the
    field tables of [models.py], with the properties of the SDK's
    specification stated and proved (or refuted) against it.

    Conventions of the embedding:
    - Python values are the inductive [pyval]; a [dict] is an association
      list in insertion order with first-match lookup, which is what
      iteration over [dict.items()] observes.  Its extensional content is the
      [gmap] given by [to_map].
    - Exceptions are a closed tagged union [exn]; [isinstance] follows the
      class hierarchy of [exceptions.py].
    - Effects (the clock, [time.sleep], the HTTP session, assignments to
      [last_request_time]) are threaded through a state-and-error monad over
      a [World]; every effect is appended to the world's [log].
    - Wall-clock time is a rational number of seconds.  [time.sleep] takes
      every duration that is not negative; CPython's upper limit on a
      duration, [max_sleep], is not part of the model, so a run of the model
      is a run of the code as long as each sleep in it is [sleepable].
    - What the SDK takes from libraries is a parameter where its result is
      not fixed by the SDK's code: [urljoin], and pydantic's validation of
      the fields of a [PredictionResponse]. *)

From Stdlib Require Import ZArith QArith Lqa String Ascii DecimalString.
From stdpp Require Import gmap strings list fin_maps sorting.

Open Scope string_scope.
Open Scope Z_scope.

(** ** Python values *)

#[local] Set Warnings "-register-all".

Inductive pyval : Type :=
| PyNone
| PyBool (b : bool)
| PyInt (z : Z)
| PyFloat (repr : string)   (* a float, identified with its [repr] text *)
| PyStr (s : string)
| PyList (l : list pyval)
| PyDict (d : list (string * pyval)).

(** A Python [dict] with string keys, in insertion order. *)
Abbreviation dict := (list (string * pyval)).

Definition is_none (v : pyval) : bool :=
  match v with PyNone => true | _ => false end.

(** *** Text helpers: [str(int)], [repr(str)], [str(list)] *)

Definition string_of_Z (z : Z) : string := NilZero.string_of_int (Z.to_int z).

Definition hex_digit (n : N) : ascii :=
  match n with
  | 0%N => "0" | 1%N => "1" | 2%N => "2" | 3%N => "3" | 4%N => "4"
  | 5%N => "5" | 6%N => "6" | 7%N => "7" | 8%N => "8" | 9%N => "9"
  | 10%N => "a" | 11%N => "b" | 12%N => "c" | 13%N => "d" | 14%N => "e"
  | _ => "f"
  end%char.

Fixpoint contains_char (c : ascii) (s : string) : bool :=
  match s with
  | EmptyString => false
  | String d s' => if Ascii.eqb c d then true else contains_char c s'
  end.

(** One character of [repr(s)] for the chosen quote character.  Text is held
    as UTF-8: a byte above 127 is part of a non-ASCII character, and those
    are taken to be printable ones, which [repr] keeps as they are (it
    escapes the others, such as U+00A0). *)
Definition repr_char (quote c : ascii) : string :=
  let n := N_of_ascii c in
  if Ascii.eqb c quote then String "\" (String c "")
  else if Ascii.eqb c "\" then "\\"
  else if N.eqb n 10 then "\n"
  else if N.eqb n 13 then "\r"
  else if N.eqb n 9 then "\t"
  else if (N.ltb n 32 || N.eqb n 127)%bool
       then String "\" (String "x" (String (hex_digit (N.div n 16))
                                      (String (hex_digit (N.modulo n 16)) "")))
  else String c "".

Fixpoint repr_chars (quote : ascii) (s : string) : string :=
  match s with
  | EmptyString => ""
  | String c s' => repr_char quote c ++ repr_chars quote s'
  end.

(** The double-quote character. *)
Definition dquote : ascii := ascii_of_N 34.

(** [repr] of a [str]: single quotes, unless the text holds a single quote
    and no double quote. *)
Definition repr_str (s : string) : string :=
  let quote : ascii :=
    if (contains_char "'" s && negb (contains_char dquote s))%bool
    then dquote else "'"%char in
  String quote (repr_chars quote s ++ String quote "").

Fixpoint join (sep : string) (l : list string) : string :=
  match l with
  | [] => ""
  | [x] => x
  | x :: l' => x ++ sep ++ join sep l'
  end.

(** [repr(v)] and [str(v)]; they differ on strings only. *)
Fixpoint py_repr (v : pyval) : string :=
  match v with
  | PyNone => "None"
  | PyBool true => "True"
  | PyBool false => "False"
  | PyInt z => string_of_Z z
  | PyFloat r => r
  | PyStr s => repr_str s
  | PyList l => "[" ++ join ", " (map py_repr l) ++ "]"
  | PyDict d =>
      "{" ++ join ", " (map (fun kv => repr_str (fst kv) ++ ": " ++ py_repr (snd kv)) d) ++ "}"
  end.

Definition py_str (v : pyval) : string :=
  match v with
  | PyStr s => s
  | _ => py_repr v
  end.

(** [str(l)] for a list of strings, as an f-string renders [allowed_values[:5]]. *)
Definition str_list (l : list string) : string :=
  "[" ++ join ", " (map repr_str l) ++ "]".

(** *** [int(text)] on decimal text

    For ASCII text: surrounding white space (the space and the characters
    9 to 13) is stripped, one sign is accepted, single underscores may
    separate digits, and text of more than [max_str_digits] digits is
    refused. *)

Definition is_space (c : ascii) : bool :=
  let n := N_of_ascii c in
  (N.eqb n 32 || (N.leb 9 n && N.leb n 13))%bool.

Definition digit_val (c : ascii) : option Z :=
  let n := N_of_ascii c in
  if (N.leb 48 n && N.leb n 57)%bool then Some (Z.of_N (n - 48)) else None.

Fixpoint lstrip (s : list ascii) : list ascii :=
  match s with
  | c :: s' => if is_space c then lstrip s' else s
  | [] => []
  end.

Definition strip (s : list ascii) : list ascii :=
  rev (lstrip (rev (lstrip s))).

(** [digits acc after_digit s]: the value of the digit string [s] continuing
    [acc]; an underscore is legal only directly after a digit and before one. *)
Fixpoint digits (acc : Z) (after_digit : bool) (s : list ascii) : option Z :=
  match s with
  | [] => if after_digit then Some acc else None
  | c :: s' =>
      match digit_val c with
      | Some d => digits (10 * acc + d) true s'
      | None =>
          if (Ascii.eqb c "_" && after_digit)%bool
          then match s' with
               | c' :: _ =>
                   match digit_val c' with
                   | Some _ => digits acc false s'
                   | None => None
                   end
               | [] => None
               end
          else None
      end
  end.

(** [sys.get_int_max_str_digits()], at its default. *)
Definition max_str_digits : nat := 4300.

Definition digit_count (s : string) : nat :=
  length (List.filter (fun c => bool_decide (is_Some (digit_val c)))
            (list_ascii_of_string s)).

(** The value the text denotes, whatever its length. *)
Definition int_literal (s : string) : option Z :=
  match strip (list_ascii_of_string s) with
  | "-"%char :: s' => Z.opp <$> digits 0 false s'
  | "+"%char :: s' => digits 0 false s'
  | s' => digits 0 false s'
  end.

Definition int_of_text (s : string) : option Z :=
  if (max_str_digits <? digit_count s)%nat then None else int_literal s.

(** The message of the [ValueError] that [int(text)] raises. *)
Definition int_error_text (s : string) : string :=
  match int_literal s with
  | Some _ =>
      "Exceeds the limit (4300 digits) for integer string conversion: value has "
      ++ string_of_Z (Z.of_nat (digit_count s))
      ++ " digits; use sys.set_int_max_str_digits() to increase the limit"
  | None => "invalid literal for int() with base 10: " ++ repr_str s
  end.

(** ** Dictionaries *)

Fixpoint dict_get (d : dict) (k : string) : option pyval :=
  match d with
  | [] => None
  | (k', v) :: d' => if String.eqb k k' then Some v else dict_get d' k
  end.

(** [d[k] = v]: an existing key keeps its position, a new key goes last. *)
Fixpoint dict_set (d : dict) (k : string) (v : pyval) : dict :=
  match d with
  | [] => [(k, v)]
  | (k', v') :: d' =>
      if String.eqb k k' then (k', v) :: d' else (k', v') :: dict_set d' k v
  end.

(** [d.update(other)]: the entries of [other] are assigned in order. *)
Definition dict_update (d other : dict) : dict :=
  fold_left (fun acc kv => dict_set acc (fst kv) (snd kv)) other d.

(** [{**a, **b}]: a fresh dictionary receiving [a] and then [b]. *)
Definition dict_merge (a b : dict) : dict :=
  dict_update (dict_update [] a) b.

(** The mapping a dictionary denotes; Python's [==] on dictionaries compares
    exactly this. *)
Definition to_map (d : dict) : gmap string pyval := list_to_map d.

(** ** Exceptions ([exceptions.py]) *)

(** The exception classes of Python and its libraries that the SDK's code
    can meet. *)
Inductive builtin_error : Type :=
| AttributeError      (* a missing attribute or method *)
| ValueError          (* [int] of non-numeric text, negative [time.sleep] *)
| JSONDecodeError     (* [response.json()] on a body that is not JSON *)
| PydanticValidationError  (* pydantic's [ValidationError]: a model refuses its input *)
| OverflowError       (* a number beyond what an operation can take *)
| KeyError            (* a missing dictionary key *)
| TypeError.          (* an operation the value's type does not support *)

(** The exception classes, each constructor holding what the class's
    [__init__] stores.  [APIError.status_code] and
    [RateLimitError.retry_after] default to [None]. *)
Inductive exn : Type :=
| FurSightError (message : pyval)
| ValidationError (message : pyval)
| APIError (message : pyval) (status_code : option Z)
| RateLimitError (message : pyval) (retry_after : option Z)
| AuthenticationError (message : pyval)
| InsufficientCreditsError (message : pyval)
| Builtin (kind : builtin_error) (message : string).

Inductive exn_class : Type :=
| cFurSightError | cValidationError | cAPIError | cRateLimitError
| cAuthenticationError | cInsufficientCreditsError | cBuiltin (kind : builtin_error).

Definition class_of (e : exn) : exn_class :=
  match e with
  | FurSightError _ => cFurSightError
  | ValidationError _ => cValidationError
  | APIError _ _ => cAPIError
  | RateLimitError _ _ => cRateLimitError
  | AuthenticationError _ => cAuthenticationError
  | InsufficientCreditsError _ => cInsufficientCreditsError
  | Builtin k _ => cBuiltin k
  end.

(** The direct base class, among the classes above: of an SDK class as
    [exceptions.py] declares it; [JSONDecodeError] and pydantic's
    [ValidationError] are subclasses of [ValueError].  (Every class is,
    beyond these, a subclass of [Exception].) *)
Definition base (c : exn_class) : option exn_class :=
  match c with
  | cFurSightError => None
  | cValidationError => Some cFurSightError
  | cAPIError => Some cFurSightError
  | cRateLimitError => Some cAPIError
  | cAuthenticationError => Some cAPIError
  | cInsufficientCreditsError => Some cAPIError
  | cBuiltin JSONDecodeError => Some (cBuiltin ValueError)
  | cBuiltin PydanticValidationError => Some (cBuiltin ValueError)
  | cBuiltin _ => None
  end.

#[global] Instance builtin_error_eq_dec : EqDecision builtin_error.
Proof. solve_decision. Defined.
#[global] Instance exn_class_eq_dec : EqDecision exn_class.
Proof. solve_decision. Defined.

(** [issubclass c d]; the hierarchy is three levels deep. *)
Definition issubclass (c d : exn_class) : bool :=
  bool_decide (c = d)
  || match base c with
     | Some b => bool_decide (b = d)
                 || match base b with Some b' => bool_decide (b' = d) | None => false end
     | None => false
     end.

(** [isinstance(e, d)]: would [except d] catch [e]. *)
Definition isinstance (e : exn) (d : exn_class) : bool := issubclass (class_of e) d.

Definition exn_message (e : exn) : pyval :=
  match e with
  | FurSightError m | ValidationError m | APIError m _ | RateLimitError m _
  | AuthenticationError m | InsufficientCreditsError m => m
  | Builtin _ m => PyStr m
  end.

(** The [status_code] attribute, for the classes that have one. *)
Definition exn_status_code (e : exn) : option (option Z) :=
  match e with
  | APIError _ sc => Some sc
  | RateLimitError _ _ => Some (Some 429)
  | AuthenticationError _ => Some (Some 401)
  | InsufficientCreditsError _ => Some (Some 402)
  | _ => None
  end.

(** The [retry_after] attribute; only [RateLimitError] has one. *)
Definition exn_retry_after (e : exn) : option (option Z) :=
  match e with
  | RateLimitError _ ra => Some ra
  | _ => None
  end.

Inductive result (A : Type) : Type :=
| Ok (a : A)
| Raise (e : exn).
Arguments Ok {A} a.
Arguments Raise {A} e.

(** ** The outside world: clock, network, effect log *)

(** An HTTP response as [requests] hands it over.  [body_json] is what
    [response.json()] returns, [None] when the body is not JSON. *)
Record Response : Type := {
  status_code : Z;
  headers : list (string * string);
  body_json : option pyval;
  text : string
}.

(** How [session.request] ends: with a response, with
    [requests.exceptions.Timeout], or with another
    [requests.exceptions.RequestException] whose [str] is [msg]. *)
Inductive outcome : Type :=
| Responded (response : Response)
| TimedOut
| Failed (msg : string).

(** One dispatched attempt: the time it takes and how it ends. *)
Record attempt_result : Type := {
  took : Q;
  ended : outcome
}.

(** The keyword arguments the SDK passes on to [session.request]. *)
Record kwargs : Type := {
  kw_json : option dict;
  kw_params : option dict
}.

Record request : Type := {
  req_method : string;
  req_url : string;
  req_timeout : Z;
  req_headers : list (string * string);
  req_kwargs : kwargs
}.

Inductive event : Type :=
| EvSleep (seconds : Q)          (* [time.sleep(seconds)] *)
| EvRequest (req : request)      (* one attempt dispatched to the network *)
| EvMarker (t : Q).              (* [self.last_request_time = t] *)

(** [net k] is the fate of the [k]-th attempt ever dispatched; [sent] counts
    the attempts dispatched so far; [log] holds the effects, oldest first. *)
Record World : Type := {
  now : Q;
  net : nat -> attempt_result;
  sent : nat;
  log : list event
}.

Definition emit (ev : event) (w : World) : World :=
  {| now := now w; net := net w; sent := sent w; log := log w ++ [ev] |}.

Definition advance (d : Q) (w : World) : World :=
  {| now := (now w + d)%Q; net := net w; sent := sent w; log := log w |}.

Definition count_sent (w : World) : World :=
  {| now := now w; net := net w; sent := S (sent w); log := log w |}.

(** ** A state-and-error monad

    [M S A]: a computation on an object of type [S] (the [self] of a
    method) in a world, ending in a value or a raised exception. *)

Definition M (S A : Type) : Type := S -> World -> result A * S * World.

Definition ret {S A} (a : A) : M S A := fun s w => (Ok a, s, w).

Definition raise {S A} (e : exn) : M S A := fun s w => (Raise e, s, w).

Definition bind {S A B} (c : M S A) (k : A -> M S B) : M S B :=
  fun s w =>
    match c s w with
    | (Ok a, s', w') => k a s' w'
    | (Raise e, s', w') => (Raise e, s', w')
    end.

Notation "x <-- c ;; k" := (bind c (fun x => k))
  (at level 100, c at next level, right associativity).
Notation "c ;;; k" := (bind c (fun _ => k))
  (at level 100, right associativity).

Definition get_self {S} : M S S := fun s w => (Ok s, s, w).
Definition set_self {S} (s' : S) : M S unit := fun _ w => (Ok tt, s', w).

Definition outcome_of {S A} (r : result A * S * World) : result A := fst (fst r).
Definition self_of {S A} (r : result A * S * World) : S := snd (fst r).
Definition world_of {S A} (r : result A * S * World) : World := snd r.

(** [time.time()] *)
Definition time_time {S} : M S Q := fun s w => (Ok (now w), s, w).

Definition Qltb (a b : Q) : bool := negb (Qle_bool b a).

(** The longest duration [time.sleep] takes: CPython keeps a duration as a
    signed 64-bit count of nanoseconds. *)
Definition max_sleep : Q := 9223372036854775807 # 1000000000.

Definition sleepable (d : Q) : bool := Qle_bool d max_sleep.

(** The longest whole number of seconds among them. *)
Definition max_sleep_seconds : Z := 9223372036.

(** [time.sleep(d)]: a negative duration is a [ValueError].  CPython also
    refuses a duration beyond [max_sleep], some 292 years, with
    [OverflowError]; the model takes every duration that is not negative,
    so a run of the model is a run of the code as long as each sleep in it
    is [sleepable]. *)
Definition time_sleep {S} (d : Q) : M S unit :=
  fun s w =>
    if Qltb d 0
    then (Raise (Builtin ValueError "sleep length must be non-negative"), s, w)
    else (Ok tt, s, advance d (emit (EvSleep d) w)).

(** [self.session.request(...)]: the next attempt is dispatched. *)
Definition session_request {S} (req : request) : M S outcome :=
  fun s w =>
    let a := net w (sent w) in
    (Ok (ended a), s, advance (took a) (count_sent (emit (EvRequest req) w))).

(** ** The client ([client.py]) *)

Record FurSightClient : Type := {
  api_key : string;
  base_url : string;
  timeout : Z;
  max_retries : Z;
  session_headers : list (string * string);
  last_request_time : Q;
  min_request_interval : Q
}.

(** [s.rstrip('/')] *)
Fixpoint rstrip_slash (s : string) : string :=
  match s with
  | EmptyString => ""
  | String c s' =>
      match rstrip_slash s' with
      | EmptyString => if Ascii.eqb c "/" then "" else String c ""
      | t => String c t
      end
  end.

(** [FurSightClient.__init__]; the defaults of the optional arguments are
    [default_base_url], [default_timeout] and [default_max_retries].
    [session_headers] holds the headers the SDK sets on its session. *)
Definition default_base_url : string := "https://api.fursight.ai".
Definition default_timeout : Z := 30.
Definition default_max_retries : Z := 3.

Definition FurSightClient_init (api_key base_url : string) (timeout max_retries : Z)
  : FurSightClient :=
  {| api_key := api_key;
     base_url := rstrip_slash base_url;
     timeout := timeout;
     max_retries := max_retries;
     session_headers :=
       [("Authorization", "Bearer " ++ api_key);
        ("Content-Type", "application/json");
        ("User-Agent", "FurSight-SDK-Python/1.0.0")];
     last_request_time := 0;
     min_request_interval := 1 # 10 |}.

(** The names [FurSightClient] defines: its methods and the attributes set
    by [__init__].  The methods for the disabled endpoints were removed
    from the class (client.py, lines 183-207). *)
Definition FurSightClient_dir : list string :=
  ["__init__"; "_wait_for_rate_limit"; "_make_request"; "predict_single";
   "get_sample_data"; "get_health"; "get_model_info"; "get_prediction_bands";
   "api_key"; "base_url"; "timeout"; "max_retries"; "session";
   "last_request_time"; "min_request_interval"].

(** [self.last_request_time = t] *)
Definition set_last_request_time (t : Q) : M FurSightClient unit :=
  fun self w =>
    (Ok tt,
     {| api_key := api_key self; base_url := base_url self;
        timeout := timeout self; max_retries := max_retries self;
        session_headers := session_headers self;
        last_request_time := t;
        min_request_interval := min_request_interval self |},
     emit (EvMarker t) w).

Definition _wait_for_rate_limit : M FurSightClient unit :=
  self <-- get_self ;;
  t <-- time_time ;;
  let elapsed := (t - last_request_time self)%Q in
  (if Qltb elapsed (min_request_interval self)
   then time_sleep (min_request_interval self - elapsed)%Q
   else ret tt) ;;;
  t' <-- time_time ;;
  set_last_request_time t'.

(** [response.ok]: [requests] reports every status outside 400..599 as ok. *)
Definition ok (response : Response) : bool :=
  negb ((400 <=? status_code response) && (status_code response <? 600)).

Definition lower_char (c : ascii) : ascii :=
  let n := N_of_ascii c in
  if (N.leb 65 n && N.leb n 90)%bool then ascii_of_N (n + 32) else c.

Fixpoint lower (s : string) : string :=
  match s with
  | EmptyString => ""
  | String c s' => String (lower_char c) (lower s')
  end.

(** [response.headers.get(name)]: header names compare without case. *)
Fixpoint headers_get (h : list (string * string)) (name : string) : option string :=
  match h with
  | [] => None
  | (k, v) :: h' =>
      if String.eqb (lower k) (lower name) then Some v else headers_get h' name
  end.

(** [int(response.headers.get('Retry-After', 60))] *)
Definition retry_after_of {S} (response : Response) : M S Z :=
  match headers_get (headers response) "Retry-After" with
  | None => ret 60
  | Some v =>
      match int_of_text v with
      | Some z => ret z
      | None =>
          raise (Builtin ValueError (int_error_text v))
      end
  end.

(** The message built for a response that is not ok: the [detail] entry of
    a JSON object body, else [HTTP <code>]; when the body is not a JSON
    object, [HTTP <code>: <text>]. *)
Definition error_message_of (response : Response) : pyval :=
  let code := string_of_Z (status_code response) in
  match body_json response with
  | Some (PyDict error_data) =>
      match dict_get error_data "detail" with
      | Some detail => detail
      | None => PyStr ("HTTP " ++ code)
      end
  | _ => PyStr ("HTTP " ++ code ++ ": " ++ text response)
  end.

Section Executor.

(** [urllib.parse.urljoin], which the SDK takes from the standard library. *)
Variable urljoin : string -> string -> string.

(** One iteration of the retry loop of [_make_request]; [continue] is the
    rest of the loop. *)
Definition attempt_body (method url : string) (kw : kwargs) (attempt : Z)
    (continue : M FurSightClient Response) : M FurSightClient Response :=
  self <-- get_self ;;
  out <-- session_request
            {| req_method := method; req_url := url;
               req_timeout := timeout self;
               req_headers := session_headers self;
               req_kwargs := kw |} ;;
  match out with
  | Responded response =>
      if status_code response =? 429 then
        retry_after <-- retry_after_of response ;;
        if attempt =? max_retries self - 1 then
          raise (RateLimitError
                   (PyStr ("Rate limit exceeded. Retry after "
                           ++ string_of_Z retry_after ++ " seconds."))
                   None)
        else
          time_sleep (inject_Z retry_after) ;;;
          continue
      else if negb (ok response) then
        let error_message := error_message_of response in
        if status_code response =? 400 then
          raise (ValidationError error_message)
        else if status_code response =? 401 then
          raise (APIError (PyStr "Invalid API key") None)
        else if status_code response =? 402 then
          raise (APIError (PyStr "Insufficient credits") None)
        else
          raise (APIError error_message None)
      else
        ret response
  | TimedOut =>
      if attempt =? max_retries self - 1 then
        raise (FurSightError
                 (PyStr ("Request timeout after "
                         ++ string_of_Z (timeout self) ++ " seconds")))
      else
        time_sleep (inject_Z (2 ^ attempt)) ;;;
        continue
  | Failed msg =>
      if attempt =? max_retries self - 1 then
        raise (FurSightError (PyStr ("Request failed: " ++ msg)))
      else
        time_sleep (inject_Z (2 ^ attempt)) ;;;
        continue
  end.

(** [for attempt in range(self.max_retries)], with [n] iterations left;
    leaving the loop raises [Max retries exceeded]. *)
Fixpoint retry_loop (method url : string) (kw : kwargs) (n : nat) (attempt : Z)
  : M FurSightClient Response :=
  match n with
  | O => raise (FurSightError (PyStr "Max retries exceeded"))
  | S n' =>
      attempt_body method url kw attempt
        (retry_loop method url kw n' (attempt + 1))
  end.

Definition _make_request (method endpoint : string) (kw : kwargs)
  : M FurSightClient Response :=
  _wait_for_rate_limit ;;;
  self <-- get_self ;;
  let url := urljoin (base_url self) endpoint in
  retry_loop method url kw (Z.to_nat (max_retries self)) 0.

End Executor.

(** ** The profile models ([models.py])

    Every field of both models is optional with default [None].  A model
    instance is given by the value of each declared field. *)

Definition AdopterProfile_fields : list string :=
  ["adopter_housing_type"; "adopter_home_ownership_status";
   "adopter_landlord_permission"; "adopter_yard_type"; "adopter_fence_type";
   "adopter_fence_height_ft"; "adopter_household_members";
   "adopter_has_kids"; "adopter_num_kids"; "adopter_kids_ages";
   "adopter_kids_dog_experience"; "adopter_household_allergies";
   "adopter_allergy_severity"; "adopter_hypoallergenic_preference";
   "adopter_hours_dog_left_alone"; "adopter_daytime_presence";
   "adopter_move_plan_within_6mo"; "adopter_monthly_dog_budget_usd";
   "adopter_can_afford_vet_grooming"; "adopter_preferred_breed";
   "adopter_preferred_breed_status"; "adopter_preferred_age";
   "adopter_preferred_size"; "adopter_preferred_energy_level";
   "adopter_desired_temperament"; "adopter_preferred_sex";
   "adopter_preferred_housetraining_status";
   "adopter_okay_with_medical_needs"; "adopter_okay_with_behavior_issues";
   "adopter_reason_for_adoption"; "adopter_exercise_routine";
   "adopter_exercise_frequency_per_week"; "adopter_discipline_method";
   "adopter_training_plan"; "adopter_leash_behavior";
   "adopter_dog_sleeping_area"; "adopter_previous_dog_experience";
   "adopter_pitbull_experience"; "adopter_owned_dogs_last_5yrs";
   "adopter_previous_pet_outcome"; "adopter_has_other_pets";
   "adopter_other_pets_info"; "adopter_pets_adjustment_expectation";
   "adopter_experience_with_issues"; "adopter_surrender_risks";
   "adopter_long_term_commitment"; "adopter_pet_loss_plan";
   "adopter_preparation_confidence"; "adopter_adopter_breed_restrictions";
   "adopter_rewritten_adopter_letter"].

Definition DogProfile_fields : list string :=
  ["dog_breed"; "dog_primaryBreed"; "dog_secondaryBreed"; "dog_sex";
   "dog_mixed"; "dog_age"; "dog_birthdate"; "dog_altered"; "dog_dogs";
   "dog_cats"; "dog_kids"; "dog_oKWithAdults"; "dog_oKForSeniors";
   "dog_oKWithFarmAnimals"; "dog_size"; "dog_sizeCurrent";
   "dog_sizePotential"; "dog_sizeUOM"; "dog_color"; "dog_coatLength";
   "dog_pattern"; "dog_earType"; "dog_eyeColor"; "dog_tailType";
   "dog_housetrained"; "dog_obedienceTraining"; "dog_leashtrained";
   "dog_cratetrained"; "dog_ownerExperience"; "dog_exerciseNeeds";
   "dog_energyLevel"; "dog_activityLevel"; "dog_yardRequired"; "dog_fence";
   "dog_groomingNeeds"; "dog_shedding"; "dog_hypoallergenic";
   "dog_specialNeeds"; "dog_uptodate"; "dog_declawed"; "dog_hasAllergies";
   "dog_specialDiet"; "dog_ongoingMedical"; "dog_hearingImpaired";
   "dog_sightImpaired"; "dog_obedient"; "dog_playful"; "dog_timid";
   "dog_skittish"; "dog_independent"; "dog_affectionate";
   "dog_eagerToPlease"; "dog_intelligent"; "dog_eventempered"; "dog_gentle";
   "dog_goofy"; "dog_newPeople"; "dog_vocal"; "dog_goodInCar";
   "dog_fetches"; "dog_playsToys"; "dog_swims"; "dog_lap"; "dog_drools";
   "dog_protective"; "dog_escapes"; "dog_predatory"; "dog_apartment";
   "dog_noHeat"; "dog_noCold"; "dog_combined_breeds"; "dog_enriched_profile"].

Record AdopterProfile : Type := { adopter_field : string -> pyval }.
Record DogProfile : Type := { dog_field : string -> pyval }.

(** [pydantic.BaseModel.model_dump()] with its default arguments: one entry
    per declared field, in declaration order, unset fields included with
    the value [None]. *)
Definition model_dump (fields : list string) (value : string -> pyval) : dict :=
  map (fun name => (name, value name)) fields.

Definition AdopterProfile_model_dump (p : AdopterProfile) : dict :=
  model_dump AdopterProfile_fields (adopter_field p).

Definition DogProfile_model_dump (p : DogProfile) : dict :=
  model_dump DogProfile_fields (dog_field p).

(** The two forms an argument of [predict_single] can take. *)
Inductive adopter_arg : Type :=
| AdopterDict (d : dict)
| AdopterModel (p : AdopterProfile).

Inductive dog_arg : Type :=
| DogDict (d : dict)
| DogModel (p : DogProfile).

(** [if isinstance(adopter_data, AdopterProfile): adopter_data = adopter_data.model_dump()] *)
Definition adopter_as_dict (a : adopter_arg) : dict :=
  match a with
  | AdopterDict d => d
  | AdopterModel p => AdopterProfile_model_dump p
  end.

Definition dog_as_dict (a : dog_arg) : dict :=
  match a with
  | DogDict d => d
  | DogModel p => DogProfile_model_dump p
  end.

(** [prediction_data = {**adopter_data, **dog_data}] *)
Definition prediction_data (adopter_data : adopter_arg) (dog_data : dog_arg) : dict :=
  dict_merge (adopter_as_dict adopter_data) (dog_as_dict dog_data).

(** [response.json()] *)
Definition response_json {S} (response : Response) : M S pyval :=
  match body_json response with
  | Some v => ret v
  | None => raise (Builtin JSONDecodeError "Expecting value")
  end.

(** [PredictionResponse] ([models.py]): five required fields and three
    optional ones, [None] by default.  A float is given by its [repr]. *)
Record PredictionResponse : Type := {
  recommendation : string;
  adoption_probability : string;
  confidence_score : string;
  model_version : string;
  timestamp : string;
  simplified_band_info : option dict;
  volunteer_guidance : option dict;
  transaction_info : option dict
}.

(** [type(v).__name__] *)
Definition type_name (v : pyval) : string :=
  match v with
  | PyNone => "NoneType"
  | PyBool _ => "bool"
  | PyInt _ => "int"
  | PyFloat _ => "float"
  | PyStr _ => "str"
  | PyList _ => "list"
  | PyDict _ => "dict"
  end.

Section ClientMethods.

Variable urljoin : string -> string -> string.

(** [PredictionResponse.__init__], which the class inherits from pydantic's
    [BaseModel]: the keyword arguments are validated against the declared
    fields, and the call ends with the instance or, where pydantic refuses
    them, with its [ValidationError], given here by its [str]. *)
Variable PredictionResponse_init : dict -> PredictionResponse + string.

(** The last statement of [predict_single], which passes the entries of
    the parsed body [result] to [PredictionResponse] as keyword arguments:
    only a mapping can be unpacked into keyword arguments. *)
Definition PredictionResponse_of {S} (result : pyval) : M S PredictionResponse :=
  match result with
  | PyDict fields =>
      match PredictionResponse_init fields with
      | inl prediction => ret prediction
      | inr msg => raise (Builtin PydanticValidationError msg)
      end
  | _ =>
      raise (Builtin TypeError
               ("fursight.models.PredictionResponse() argument after ** must be a mapping, not "
                ++ type_name result))
  end.

Definition predict_single (adopter_data : adopter_arg) (dog_data : dog_arg)
    (include_explanation : bool) : M FurSightClient PredictionResponse :=
  let prediction_data := prediction_data adopter_data dog_data in
  response <-- _make_request urljoin "POST" "/predict/single"
                 {| kw_json := Some prediction_data;
                    kw_params := Some [("include_explanation", PyBool include_explanation)] |} ;;
  result <-- response_json response ;;
  PredictionResponse_of result.

Definition no_kwargs : kwargs := {| kw_json := None; kw_params := None |}.

(** [get_sample_data]: [response.json()['sample_data']] *)
Definition get_sample_data : M FurSightClient pyval :=
  response <-- _make_request urljoin "GET" "/form/sample-data" no_kwargs ;;
  result <-- response_json response ;;
  match result with
  | PyDict d =>
      match dict_get d "sample_data" with
      | Some v => ret v
      | None => raise (Builtin KeyError "'sample_data'")
      end
  | PyList _ => raise (Builtin TypeError "list indices must be integers or slices, not str")
  | PyStr _ => raise (Builtin TypeError "string indices must be integers, not 'str'")
  | _ => raise (Builtin TypeError ("'" ++ type_name result ++ "' object is not subscriptable"))
  end.

Definition get_health : M FurSightClient pyval :=
  response <-- _make_request urljoin "GET" "/health" no_kwargs ;;
  response_json response.

Definition get_model_info : M FurSightClient pyval :=
  response <-- _make_request urljoin "GET" "/model/info" no_kwargs ;;
  response_json response.

Definition get_prediction_bands : M FurSightClient pyval :=
  response <-- _make_request urljoin "GET" "/prediction/bands" no_kwargs ;;
  response_json response.

End ClientMethods.

(** [self.client.<name>(...)]: Python looks [name] up on the client and
    runs the method found; a name the class does not define raises
    [AttributeError] before anything else happens. *)
Definition FurSightClient_getattr {A} (name : string) (found : M FurSightClient A)
  : M FurSightClient A :=
  if bool_decide (name ∈ FurSightClient_dir) then found
  else raise (Builtin AttributeError
                ("'FurSightClient' object has no attribute '" ++ name ++ "'")).

(** The operations whose endpoints the service has disabled. *)
Definition disabled_operations : list string :=
  ["predict_batch"; "get_dropdown_values"; "generate_adopter_letter";
   "generate_dog_profile"].

(** ** The adoption form ([forms.py]) *)

(** The allowed-values table, [Dict[str, List[str]]]. *)
Abbreviation table := (list (string * list string)).

Fixpoint table_get (t : table) (k : string) : option (list string) :=
  match t with
  | [] => None
  | (k', l) :: t' => if String.eqb k k' then Some l else table_get t' k
  end.

(** The two caches start as [None].  [_sample_data] holds whatever the
    client's [get_sample_data] returned, which may be Python's [None]. *)
Record AdoptionForm : Type := {
  client : FurSightClient;
  _adopter_data : dict;
  _dog_data : dict;
  _dropdown_values : option table;
  _sample_data : option pyval
}.

Definition AdoptionForm_init (client : FurSightClient) : AdoptionForm :=
  {| client := client; _adopter_data := []; _dog_data := [];
     _dropdown_values := None; _sample_data := None |}.

Definition with_client (self : AdoptionForm) (c : FurSightClient) : AdoptionForm :=
  {| client := c; _adopter_data := _adopter_data self; _dog_data := _dog_data self;
     _dropdown_values := _dropdown_values self; _sample_data := _sample_data self |}.

Definition with_adopter_data (self : AdoptionForm) (d : dict) : AdoptionForm :=
  {| client := client self; _adopter_data := d; _dog_data := _dog_data self;
     _dropdown_values := _dropdown_values self; _sample_data := _sample_data self |}.

Definition with_dog_data (self : AdoptionForm) (d : dict) : AdoptionForm :=
  {| client := client self; _adopter_data := _adopter_data self; _dog_data := d;
     _dropdown_values := _dropdown_values self; _sample_data := _sample_data self |}.

Definition with_dropdown_values (self : AdoptionForm) (t : option table) : AdoptionForm :=
  {| client := client self; _adopter_data := _adopter_data self;
     _dog_data := _dog_data self;
     _dropdown_values := t; _sample_data := _sample_data self |}.

Definition with_sample_data (self : AdoptionForm) (v : option pyval) : AdoptionForm :=
  {| client := client self; _adopter_data := _adopter_data self;
     _dog_data := _dog_data self;
     _dropdown_values := _dropdown_values self; _sample_data := v |}.

(** A method of the form's client, run on [self.client]. *)
Definition on_client {A} (c : M FurSightClient A) : M AdoptionForm A :=
  fun self w =>
    match c (client self) w with
    | (r, c', w') => (r, with_client self c', w')
    end.

Definition modify {S} (f : S -> S) : M S unit := fun s w => (Ok tt, f s, w).

(** The text of the error [validate_field] raises. *)
Definition violation_message (field_name : string) (allowed_values : list string)
    (value : pyval) : string :=
  "Field '" ++ field_name ++ "' must be one of: "
  ++ str_list (take 5 allowed_values)
  ++ (if (5 <? length allowed_values)%nat then "..." else "")
  ++ ". Received: '" ++ py_str value ++ "'".

Definition no_data_message : string :=
  "Form must contain at least some adopter and dog data".

Section Form.

Variable urljoin : string -> string -> string.
Variable PredictionResponse_init : dict -> PredictionResponse + string.

(** What a client method that [forms.py] calls, but [client.py] no longer
    defines, would do with its arguments if the class defined it. *)
Variable removed_method : forall A : Type, string -> list pyval -> M FurSightClient A.

Definition get_dropdown_values : M AdoptionForm table :=
  self <-- get_self ;;
  match _dropdown_values self with
  | None =>
      v <-- on_client (FurSightClient_getattr "get_dropdown_values"
                         (removed_method table "get_dropdown_values" [])) ;;
      modify (fun self => with_dropdown_values self (Some v)) ;;;
      ret v
  | Some v => ret v
  end.

(** The value of an attribute, unless the attribute is [None]: a stored
    [None] and an attribute never assigned read alike. *)
Definition unless_none (attribute : option pyval) : option pyval :=
  match attribute with
  | Some v => if is_none v then None else Some v
  | None => None
  end.

(** [AdoptionForm.get_sample_data]: fetched when [self._sample_data is None],
    then stored and returned. *)
Definition form_get_sample_data : M AdoptionForm pyval :=
  self <-- get_self ;;
  match unless_none (_sample_data self) with
  | None =>
      v <-- on_client (FurSightClient_getattr "get_sample_data"
                         (get_sample_data urljoin)) ;;
      modify (fun self => with_sample_data self (Some v)) ;;;
      ret v
  | Some v => ret v
  end.

Definition set_adopter_field (field_name : string) (value : pyval) : M AdoptionForm unit :=
  modify (fun self => with_adopter_data self (dict_set (_adopter_data self) field_name value)).

Definition set_dog_field (field_name : string) (value : pyval) : M AdoptionForm unit :=
  modify (fun self => with_dog_data self (dict_set (_dog_data self) field_name value)).

Definition set_adopter_data (data : dict) : M AdoptionForm unit :=
  modify (fun self => with_adopter_data self (dict_update (_adopter_data self) data)).

Definition set_dog_data (data : dict) : M AdoptionForm unit :=
  modify (fun self => with_dog_data self (dict_update (_dog_data self) data)).

(** The loop shared by [load_sample_data] and [from_dict]: entries go to
    the partition their name's prefix selects, others are skipped. *)
Fixpoint split_by_prefix (items : dict) : M AdoptionForm unit :=
  match items with
  | [] => ret tt
  | (field_name, value) :: rest =>
      (if String.prefix "adopter_" field_name then set_adopter_field field_name value
       else if String.prefix "dog_" field_name then set_dog_field field_name value
       else ret tt) ;;;
      split_by_prefix rest
  end.

Definition load_sample_data : M AdoptionForm unit :=
  sample <-- form_get_sample_data ;;
  match sample with
  | PyDict items => split_by_prefix items
  | _ => raise (Builtin AttributeError
                  ("'" ++ type_name sample ++ "' object has no attribute 'items'"))
  end.

Definition validate_field (field_name : string) (value : pyval) : M AdoptionForm bool :=
  dropdown_values <-- get_dropdown_values ;;
  match table_get dropdown_values field_name with
  | Some allowed_values =>
      if (negb (bool_decide (allowed_values = []))
          && negb (bool_decide (py_str value ∈ allowed_values)))%bool
      then raise (ValidationError
                    (PyStr (violation_message field_name allowed_values value)))
      else ret true
  | None => ret true
  end.

(** [for field_name, value in items: if value is not None: self.validate_field(...)] *)
Fixpoint validate_items (items : dict) : M AdoptionForm unit :=
  match items with
  | [] => ret tt
  | (field_name, value) :: rest =>
      (if is_none value then ret tt
       else validate_field field_name value ;;; ret tt) ;;;
      validate_items rest
  end.

Definition is_empty (d : dict) : bool :=
  match d with [] => true | _ => false end.

Definition validate : M AdoptionForm bool :=
  self <-- get_self ;;
  validate_items (_adopter_data self) ;;;
  self <-- get_self ;;
  validate_items (_dog_data self) ;;;
  self <-- get_self ;;
  if (is_empty (_adopter_data self) && is_empty (_dog_data self))%bool
  then raise (ValidationError (PyStr no_data_message))
  else ret true.

Definition submit (include_explanation : bool) : M AdoptionForm PredictionResponse :=
  validate ;;;
  self <-- get_self ;;
  on_client (FurSightClient_getattr "predict_single"
               (predict_single urljoin PredictionResponse_init (AdopterDict (_adopter_data self))
                  (DogDict (_dog_data self)) include_explanation)).

Definition generate_adopter_letter : M AdoptionForm pyval :=
  self <-- get_self ;;
  let combined_data := dict_merge (_adopter_data self) (_dog_data self) in
  on_client (FurSightClient_getattr "generate_adopter_letter"
               (removed_method pyval "generate_adopter_letter" [PyDict combined_data])).

Definition generate_dog_profile : M AdoptionForm pyval :=
  self <-- get_self ;;
  let combined_data := dict_merge (_adopter_data self) (_dog_data self) in
  on_client (FurSightClient_getattr "generate_dog_profile"
               (removed_method pyval "generate_dog_profile" [PyDict combined_data])).

Definition clear : M AdoptionForm unit :=
  modify (fun self => with_dog_data (with_adopter_data self []) []).

Definition to_dict : M AdoptionForm dict :=
  self <-- get_self ;;
  ret (dict_merge (_adopter_data self) (_dog_data self)).

Definition from_dict (data : dict) : M AdoptionForm unit :=
  clear ;;;
  split_by_prefix data.

End Form.

(** ** Derived notions used to state the properties *)

(** The [AttributeError] Python raises for a name the client lacks. *)
Definition no_attribute (name : string) : exn :=
  Builtin AttributeError ("'FurSightClient' object has no attribute '" ++ name ++ "'").

(** The check [validate_field] applies once the table [t] is at hand. *)
Definition violates (t : table) (field_name : string) (value : pyval) : bool :=
  match table_get t field_name with
  | Some allowed_values =>
      negb (bool_decide (allowed_values = []))
      && negb (bool_decide (py_str value ∈ allowed_values))
  | None => false
  end.

(** What one field contributes to a validation pass, given the cache. *)
Definition check_field (cache : option table) (field_name : string) (value : pyval)
  : result bool :=
  match cache with
  | None => Raise (no_attribute "get_dropdown_values")
  | Some t =>
      if violates t field_name value
      then Raise (ValidationError
                    (PyStr (violation_message field_name
                              (default [] (table_get t field_name)) value)))
      else Ok true
  end.

(** The first failure among the non-null entries of [items], if any. *)
Fixpoint check_items (cache : option table) (items : dict) : result unit :=
  match items with
  | [] => Ok tt
  | (field_name, value) :: rest =>
      if is_none value then check_items cache rest
      else match check_field cache field_name value with
           | Ok _ => check_items cache rest
           | Raise e => Raise e
           end
  end.

(** The whole of [validate], as a function of the form. *)
Definition validate_result (f : AdoptionForm) : result bool :=
  match check_items (_dropdown_values f) (_adopter_data f) with
  | Raise e => Raise e
  | Ok _ =>
      match check_items (_dropdown_values f) (_dog_data f) with
      | Raise e => Raise e
      | Ok _ =>
          if (is_empty (_adopter_data f) && is_empty (_dog_data f))%bool
          then Raise (ValidationError (PyStr no_data_message))
          else Ok true
      end
  end.

(** ** Sample inputs *)

(** A stand-in for the body of a removed client method. *)
Definition absent_method : forall A : Type, string -> list pyval -> M FurSightClient A :=
  fun A name _ => raise (no_attribute name).

(** A client built with the default arguments. *)
Definition sample_client : FurSightClient :=
  FurSightClient_init "key" default_base_url default_timeout default_max_retries.

Definition reply (code : Z) (hdrs : list (string * string)) : attempt_result :=
  {| took := 0;
     ended := Responded {| status_code := code; headers := hdrs;
                           body_json := None; text := "" |} |}.

(** A world at time 5 whose network answers the [k]-th attempt with [answers k]. *)
Definition world_with (answers : nat -> attempt_result) : World :=
  {| now := 5; net := answers; sent := 0; log := [] |}.

Definition quiet_world : World := world_with (fun _ => reply 200 []).

Definition size_table : table := [("dog_size", ["Small"; "Medium"; "Large"])].

(** A form holding [dog_size = value], with [t] as its cached table. *)
Definition sized_form (t : option table) (value : pyval) : AdoptionForm :=
  {| client := sample_client; _adopter_data := [];
     _dog_data := [("dog_size", value)];
     _dropdown_values := t; _sample_data := None |}.

(** ** Reading the effect log *)

Definition is_request (ev : event) : bool :=
  match ev with EvRequest _ => true | _ => false end.

Definition is_marker (ev : event) : bool :=
  match ev with EvMarker _ => true | _ => false end.

(** The attempts dispatched to the network in a stretch of the log. *)
Definition dispatches (evs : list event) : nat := length (List.filter is_request evs).

(** The assignments to [last_request_time] in a stretch of the log. *)
Definition marker_updates (evs : list event) : nat := length (List.filter is_marker evs).

(** The durations slept, in order. *)
Definition sleeps (evs : list event) : list Q :=
  omap (fun ev => match ev with EvSleep d => Some d | _ => None end) evs.

(** Every sleep in a stretch of the log is one [time.sleep] takes. *)
Definition within_sleep_range (evs : list event) : bool := forallb sleepable (sleeps evs).

(** What a computation appended to the log of the world it started in. *)
Definition new_events (before after : World) : list event :=
  drop (length (log before)) (log after).

(** The request every attempt of one call dispatches. *)
Definition request_of (self : FurSightClient) (method url : string) (kw : kwargs)
  : request :=
  {| req_method := method; req_url := url; req_timeout := timeout self;
     req_headers := session_headers self; req_kwargs := kw |}.

(** The fate of the [i]-th attempt dispatched from world [w] on. *)
Definition attempt_outcome (w : World) (i : nat) : outcome := ended (net w (sent w + i)).

(** The world and the client after the pacing step, and what it logs. *)
Definition pacing_sleep (self : FurSightClient) (w : World) : list event :=
  let elapsed := (now w - last_request_time self)%Q in
  if Qltb elapsed (min_request_interval self)
  then [EvSleep (min_request_interval self - elapsed)%Q] else [].

Definition paced_at (self : FurSightClient) (w : World) : Q :=
  let elapsed := (now w - last_request_time self)%Q in
  if Qltb elapsed (min_request_interval self)
  then (now w + (min_request_interval self - elapsed))%Q else now w.

Definition pacing_events (self : FurSightClient) (w : World) : list event :=
  (pacing_sleep self w ++ [EvMarker (paced_at self w)])%list.

Definition paced_client (self : FurSightClient) (w : World) : FurSightClient :=
  {| api_key := api_key self; base_url := base_url self;
     timeout := timeout self; max_retries := max_retries self;
     session_headers := session_headers self;
     last_request_time := paced_at self w;
     min_request_interval := min_request_interval self |}.

Definition paced_world (self : FurSightClient) (w : World) : World :=
  {| now := paced_at self w; net := net w; sent := sent w;
     log := (log w ++ pacing_events self w)%list |}.

(** ** One iteration of the retry loop, as a verdict on the attempt's fate *)

(** The number [int(response.headers.get('Retry-After', 60))] yields, when
    it yields one. *)
Definition retry_after_hint (response : Response) : option Z :=
  match headers_get (headers response) "Retry-After" with
  | None => Some 60
  | Some v => int_of_text v
  end.

Definition rate_limit_message (retry_after : Z) : string :=
  "Rate limit exceeded. Retry after " ++ string_of_Z retry_after ++ " seconds.".

Definition timeout_message (self : FurSightClient) : string :=
  "Request timeout after " ++ string_of_Z (timeout self) ++ " seconds".

Definition sleep_error : exn :=
  Builtin ValueError "sleep length must be non-negative".

Definition int_error (response : Response) : exn :=
  Builtin ValueError
    (int_error_text (default "" (headers_get (headers response) "Retry-After"))).

(** An iteration either ends the call or sleeps and goes round again. *)
Inductive verdict : Type :=
| Done (r : result Response)
| Again (delay : Q).

Definition backoff (d : Q) : verdict :=
  if Qltb d 0 then Done (Raise sleep_error) else Again d.

Definition verdict_of (self : FurSightClient) (attempt : Z) (o : outcome) : verdict :=
  let last := attempt =? max_retries self - 1 in
  match o with
  | Responded response =>
      if status_code response =? 429 then
        match retry_after_hint response with
        | None => Done (Raise (int_error response))
        | Some retry_after =>
            if last then Done (Raise (RateLimitError (PyStr (rate_limit_message retry_after)) None))
            else backoff (inject_Z retry_after)
        end
      else if negb (ok response) then
        if status_code response =? 400 then
          Done (Raise (ValidationError (error_message_of response)))
        else if status_code response =? 401 then
          Done (Raise (APIError (PyStr "Invalid API key") None))
        else if status_code response =? 402 then
          Done (Raise (APIError (PyStr "Insufficient credits") None))
        else Done (Raise (APIError (error_message_of response) None))
      else Done (Ok response)
  | TimedOut =>
      if last then Done (Raise (FurSightError (PyStr (timeout_message self))))
      else backoff (inject_Z (2 ^ attempt))
  | Failed msg =>
      if last then Done (Raise (FurSightError (PyStr ("Request failed: " ++ msg))))
      else backoff (inject_Z (2 ^ attempt))
  end.

Definition after_dispatch (req : request) (w : World) : World :=
  advance (took (net w (sent w))) (count_sent (emit (EvRequest req) w)).

Definition after_sleep (d : Q) (w : World) : World :=
  advance d (emit (EvSleep d) w).

(** The log of [k] attempts that each slept [delay i] and retried, followed
    by the attempt that ended the call. *)
Fixpoint retry_trace (req : request) (delay : nat -> Q) (start k : nat) : list event :=
  match k with
  | O => [EvRequest req]
  | S k' => EvRequest req :: EvSleep (delay start) :: retry_trace req delay (S start) k'
  end.

Definition timed_out : attempt_result := {| took := 0; ended := TimedOut |}.

(** Two timeouts, then success. *)
Definition flaky_world : World :=
  world_with (fun k => match k with
                       | 0%nat | 1%nat => timed_out
                       | _ => reply 200 []
                       end).

(** [urljoin] on a base without path and an absolute path. *)
Definition join_plain (base endpoint : string) : string := base ++ endpoint.

(** A world whose first attempt is answered with status [code]. *)
Definition answering (code : Z) : World := world_with (fun _ => reply code []).

Definition sample_request : request :=
  request_of sample_client "GET" (join_plain default_base_url "/health") no_kwargs.

(** A world in which every attempt is answered 429 with the given
    [Retry-After] header value. *)
Definition rate_limited (retry_after : string) : World :=
  world_with (fun _ => reply 429 [("Retry-After", retry_after)]).

(** A world in which no attempt gets through. *)
Definition dead_world : World := world_with (fun _ => timed_out).

(** A well-formed dictionary holds each key once. *)
Definition valid_dict (d : dict) : Prop := NoDup d.*1.

(** The JSON bodies of the attempts in a stretch of the log. *)
Definition payloads (evs : list event) : list (option dict) :=
  omap (fun ev => match ev with
                  | EvRequest req => Some (kw_json (req_kwargs req))
                  | _ => None
                  end) evs.

(** Profiles on which no field was set. *)
Definition unset_adopter : AdopterProfile := {| adopter_field := fun _ => PyNone |}.
Definition unset_dog : DogProfile := {| dog_field := fun _ => PyNone |}.

(** ** The forms a program can build *)

(** A call of one of the form's methods. *)
Inductive invocation : Type :=
| call_get_dropdown_values
| call_get_sample_data
| call_set_adopter_field (field_name : string) (value : pyval)
| call_set_dog_field (field_name : string) (value : pyval)
| call_set_adopter_data (data : dict)
| call_set_dog_data (data : dict)
| call_load_sample_data
| call_validate_field (field_name : string) (value : pyval)
| call_validate
| call_submit (include_explanation : bool)
| call_generate_adopter_letter
| call_generate_dog_profile
| call_clear
| call_to_dict
| call_from_dict (data : dict).

Definition ending {A} (r : result A * AdoptionForm * World) : AdoptionForm * World :=
  (self_of r, world_of r).

Section Invocation.

Variable urljoin : string -> string -> string.
Variable PredictionResponse_init : dict -> PredictionResponse + string.
Variable removed_method : forall A : Type, string -> list pyval -> M FurSightClient A.

(** The form and the world a call leaves behind, whether it returned or
    raised. *)
Definition invoke (i : invocation) (f : AdoptionForm) (w : World) : AdoptionForm * World :=
  match i with
  | call_get_dropdown_values => ending (get_dropdown_values removed_method f w)
  | call_get_sample_data => ending (form_get_sample_data urljoin f w)
  | call_set_adopter_field k v => ending (set_adopter_field k v f w)
  | call_set_dog_field k v => ending (set_dog_field k v f w)
  | call_set_adopter_data d => ending (set_adopter_data d f w)
  | call_set_dog_data d => ending (set_dog_data d f w)
  | call_load_sample_data => ending (load_sample_data urljoin f w)
  | call_validate_field k v => ending (validate_field removed_method k v f w)
  | call_validate => ending (validate removed_method f w)
  | call_submit b => ending (submit urljoin PredictionResponse_init removed_method b f w)
  | call_generate_adopter_letter => ending (generate_adopter_letter removed_method f w)
  | call_generate_dog_profile => ending (generate_dog_profile removed_method f w)
  | call_clear => ending (clear f w)
  | call_to_dict => ending (to_dict f w)
  | call_from_dict d => ending (from_dict d f w)
  end.

(** The forms reachable from [AdoptionForm(client)] by calls of its methods,
    in any worlds. *)
Inductive reachable : AdoptionForm -> Prop :=
| reachable_init client : reachable (AdoptionForm_init client)
| reachable_call f i w : reachable f -> reachable (fst (invoke i f w)).

End Invocation.

(** A computation that leaves the cached table of the form as it found it. *)
Definition keeps_cache {A} (m : M AdoptionForm A) : Prop :=
  forall f w, _dropdown_values (self_of (m f w)) = _dropdown_values f.

(** ** Further sample inputs *)


(** A client without any attempt to spend. *)
Definition spent_client : FurSightClient :=
  FurSightClient_init "key" default_base_url default_timeout 0.

(** Rate limited twice with [Retry-After: 5], then answered 200. *)
Definition throttled_world : World :=
  world_with (fun k => match k with
                       | 0%nat | 1%nat => reply 429 [("Retry-After", "5")]
                       | _ => reply 200 []
                       end).

(** [n] slashes. *)
Fixpoint slashes (n : nat) : string :=
  match n with
  | O => ""
  | S n' => String "/" (slashes n')
  end.

Fixpoint last_char (s : string) : option ascii :=
  match s with
  | EmptyString => None
  | String c EmptyString => Some c
  | String _ s' => last_char s'
  end.

(** ** Derived notions for the form's data *)

Definition has_adopter_prefix (kv : string * pyval) : bool :=
  String.prefix "adopter_" (fst kv).

Definition has_dog_prefix (kv : string * pyval) : bool :=
  String.prefix "dog_" (fst kv).

(** The entries [split_by_prefix] sends to each partition. *)
Definition adopter_entries (items : dict) : dict := List.filter has_adopter_prefix items.

Definition dog_entries (items : dict) : dict :=
  List.filter (fun kv => negb (has_adopter_prefix kv) && has_dog_prefix kv) items.

Definition sample_record : dict :=
  [("adopter_x", PyInt 1); ("dog_y", PyInt 2); ("other_z", PyInt 3)].

(** A world that answers every attempt with the sample record as its
    [sample_data]. *)
Definition sample_world : World :=
  world_with (fun _ =>
    {| took := 0;
       ended := Responded
                  {| status_code := 200; headers := [];
                     body_json := Some (PyDict [("sample_data", PyDict sample_record)]);
                     text := "" |} |}).

(** ** Field listings and the form builder ([forms.py]) *)

(** The order of [sorted] on strings: code point by code point, which on
    UTF-8 text is byte by byte. *)
Definition str_le (a b : string) : Prop := String.leb a b = true.

#[global] Instance str_le_dec : RelDecision str_le.
Proof. intros a b. unfold str_le. apply _. Defined.

(** [sorted(list(set(xs) | set(ys)))] *)
Definition sorted_union (xs ys : list string) : list string :=
  merge_sort str_le (remove_dups (xs ++ ys)).

Section Listings.

Variable urljoin : string -> string -> string.
Variable removed_method : forall A : Type, string -> list pyval -> M FurSightClient A.

Definition get_all_fields : M AdoptionForm (list string) :=
  dropdown_values <-- get_dropdown_values removed_method ;;
  sample_data <-- form_get_sample_data urljoin ;;
  match sample_data with
  | PyDict d => ret (sorted_union dropdown_values.*1 d.*1)
  | _ => raise (Builtin AttributeError
                  ("'" ++ type_name sample_data ++ "' object has no attribute 'keys'"))
  end.

Definition get_adopter_fields : M AdoptionForm (list string) :=
  all_fields <-- get_all_fields ;;
  ret (List.filter (String.prefix "adopter_") all_fields).

Definition get_dog_fields : M AdoptionForm (list string) :=
  all_fields <-- get_all_fields ;;
  ret (List.filter (String.prefix "dog_") all_fields).

(** [FormBuilder]: a static method makes a form for [client], calls the
    form's methods on it and returns it; an exception of a method ends the
    construction. *)
Definition build (client : FurSightClient) (steps : M AdoptionForm unit) (w : World)
  : result AdoptionForm * World :=
  match steps (AdoptionForm_init client) w with
  | (Ok _, form, w') => (Ok form, w')
  | (Raise e, _, w') => (Raise e, w')
  end.

Definition create_basic_form (client : FurSightClient) : World -> result AdoptionForm * World :=
  build client
    (set_adopter_data
       [("adopter_housing_type", PyStr "Suburban Home");
        ("adopter_has_kids", PyStr "No");
        ("adopter_previous_dog_experience", PyStr "Moderate");
        ("adopter_long_term_commitment", PyStr "Yes")] ;;;
     set_dog_data
       [("dog_age", PyStr "Adult");
        ("dog_size", PyStr "Medium");
        ("dog_energyLevel", PyStr "Moderate")]).

Definition create_from_template (client : FurSightClient) (template_name : string)
  : World -> result AdoptionForm * World :=
  build client
    (if String.eqb template_name "family_with_kids" then
       set_adopter_data
         [("adopter_housing_type", PyStr "Suburban Home");
          ("adopter_has_kids", PyStr "Yes");
          ("adopter_num_kids", PyInt 2);
          ("adopter_kids_ages", PyStr "8, 12");
          ("adopter_kids_dog_experience", PyStr "Good");
          ("adopter_yard_type", PyStr "Fenced");
          ("adopter_preferred_size", PyStr "Medium");
          ("adopter_previous_dog_experience", PyStr "Moderate")] ;;;
       set_dog_data
         [("dog_kids", PyStr "Yes");
          ("dog_size", PyStr "Medium");
          ("dog_energyLevel", PyStr "Moderate");
          ("dog_housetrained", PyStr "Yes")]
     else if String.eqb template_name "apartment_dweller" then
       set_adopter_data
         [("adopter_housing_type", PyStr "Apartment");
          ("adopter_has_kids", PyStr "No");
          ("adopter_yard_type", PyStr "Shared");
          ("adopter_preferred_size", PyStr "Small");
          ("adopter_exercise_routine", PyStr "Walks")] ;;;
       set_dog_data
         [("dog_size", PyStr "Small");
          ("dog_apartment", PyStr "Yes");
          ("dog_energyLevel", PyStr "Low");
          ("dog_vocal", PyStr "Quiet")]
     else if String.eqb template_name "senior_adopter" then
       set_adopter_data
         [("adopter_housing_type", PyStr "Condo");
          ("adopter_has_kids", PyStr "No");
          ("adopter_preferred_age", PyStr "Senior");
          ("adopter_preferred_energy_level", PyStr "Low");
          ("adopter_exercise_routine", PyStr "Walks")] ;;;
       set_dog_data
         [("dog_age", PyStr "Senior");
          ("dog_energyLevel", PyStr "Low");
          ("dog_oKForSeniors", PyStr "Yes");
          ("dog_gentle", PyStr "Yes")]
     else
       load_sample_data urljoin).

End Listings.

Definition template_names : list string :=
  ["family_with_kids"; "apartment_dweller"; "senior_adopter"].

(** A form with a cached table and cached sample data. *)
Definition stocked_form : AdoptionForm :=
  {| client := sample_client; _adopter_data := []; _dog_data := [];
     _dropdown_values := Some size_table;
     _sample_data := Some (PyDict sample_record) |}.

(** ** Field information ([forms.py]) *)

(** Truth value of a Python value, as [or] tests it. *)
Definition py_truthy (v : pyval) : bool :=
  match v with
  | PyNone => false
  | PyBool b => b
  | PyInt z => negb (z =? 0)
  | PyFloat r => negb (String.eqb r "0.0" || String.eqb r "-0.0")
  | PyStr s => negb (String.eqb s "")
  | PyList l => match l with [] => false | _ => true end
  | PyDict d => match d with [] => false | _ => true end
  end.

(** [d.get(k)] *)
Definition dict_get_or_none (d : dict) (k : string) : pyval :=
  match dict_get d k with Some v => v | None => PyNone end.

(** The dictionary [get_field_info] returns, entry by entry. *)
Record FieldInfo : Type := {
  info_field_name : string;
  info_is_dropdown : bool;
  info_allowed_values : list string;
  info_current_value : pyval;
  info_category : string
}.

Section FieldInfoMethod.

Variable removed_method : forall A : Type, string -> list pyval -> M FurSightClient A.

Definition get_field_info (field_name : string) : M AdoptionForm FieldInfo :=
  dropdown_values <-- get_dropdown_values removed_method ;;
  self <-- get_self ;;
  ret {| info_field_name := field_name;
         info_is_dropdown :=
           match table_get dropdown_values field_name with
           | Some _ => true
           | None => false
           end;
         info_allowed_values :=
           match table_get dropdown_values field_name with
           | Some allowed => allowed
           | None => []
           end;
         info_current_value :=
           (let adopter_value := dict_get_or_none (_adopter_data self) field_name in
            if py_truthy adopter_value then adopter_value
            else dict_get_or_none (_dog_data self) field_name);
         info_category :=
           if String.prefix "adopter_" field_name then "adopter"
           else if String.prefix "dog_" field_name then "dog"
           else "unknown" |}.

End FieldInfoMethod.

(** A form whose adopter partition holds a zero under a name the dog
    partition holds too. *)
Definition masked_form : AdoptionForm :=
  {| client := sample_client;
     _adopter_data := [("count", PyInt 0)];
     _dog_data := [("count", PyInt 7)];
     _dropdown_values := Some size_table; _sample_data := None |}.

(** A [PredictionResponse.__init__] that takes the five required fields
    when each has its declared type, and the optional ones when they are
    dictionaries. *)
Definition optional_dict (fields : dict) (k : string) : option dict :=
  match dict_get fields k with
  | Some (PyDict d) => Some d
  | _ => None
  end.

Definition sample_init (fields : dict) : PredictionResponse + string :=
  match dict_get fields "recommendation", dict_get fields "adoption_probability",
        dict_get fields "confidence_score", dict_get fields "model_version",
        dict_get fields "timestamp" with
  | Some (PyStr r), Some (PyFloat p), Some (PyFloat c), Some (PyStr m), Some (PyStr t) =>
      inl {| recommendation := r; adoption_probability := p; confidence_score := c;
             model_version := m; timestamp := t;
             simplified_band_info := optional_dict fields "simplified_band_info";
             volunteer_guidance := optional_dict fields "volunteer_guidance";
             transaction_info := optional_dict fields "transaction_info" |}
  | _, _, _, _, _ => inr "validation error for PredictionResponse"
  end.

(** Whatever the client and the world, the exceptions a computation lets
    out are [allowed]. *)
Definition lets_out {A} (m : M FurSightClient A) (allowed : exn -> Prop) : Prop :=
  forall self w e, outcome_of (m self w) = Raise e -> allowed e.

(** A world that answers every attempt with a JSON list. *)
Definition listing_world : World :=
  world_with (fun _ =>
    {| took := 0;
       ended := Responded
                  {| status_code := 200; headers := [];
                     body_json := Some (PyList [PyInt 1]);
                     text := "[1]" |} |}).

(** * Properties *)

(** ** The monad *)

Lemma bind_ok {S A B} (c : M S A) (k : A -> M S B) s w a s' w' :
  c s w = (Ok a, s', w') -> bind c k s w = k a s' w'.
Proof. unfold bind. intros ->. reflexivity. Qed.

Lemma bind_raise {S A B} (c : M S A) (k : A -> M S B) s w e s' w' :
  c s w = (Raise e, s', w') -> bind c k s w = (Raise e, s', w').
Proof. unfold bind. intros ->. reflexivity. Qed.

Lemma with_client_same f : with_client f (client f) = f.
Proof. destruct f; reflexivity. Qed.

(** A client method that changes neither client nor world leaves the form
    as it is. *)
Lemma on_client_pure {A} (c : M FurSightClient A) f w r :
  c (client f) w = (r, client f, w) -> on_client c f w = (r, f, w).
Proof. unfold on_client. intros ->. by rewrite with_client_same. Qed.

(** ** Method lookup on the client *)

Lemma getattr_undefined {A} name (found : M FurSightClient A) c w :
  name ∉ FurSightClient_dir ->
  FurSightClient_getattr name found c w = (Raise (no_attribute name), c, w).
Proof.
  intros Hn. unfold FurSightClient_getattr.
  rewrite bool_decide_eq_false_2 by exact Hn. reflexivity.
Qed.

Lemma getattr_defined {A} name (found : M FurSightClient A) :
  name ∈ FurSightClient_dir -> FurSightClient_getattr name found = found.
Proof.
  intros Hn. unfold FurSightClient_getattr.
  by rewrite bool_decide_eq_true_2.
Qed.

Lemma disabled_not_defined name :
  name ∈ disabled_operations -> name ∉ FurSightClient_dir.
Proof.
  unfold disabled_operations. intros Hin.
  repeat (apply elem_of_cons in Hin as [-> | Hin]);
    [ | | | | by apply elem_of_nil in Hin ];
    apply (bool_decide_unpack _); vm_compute; exact I.
Qed.

(** ** The form: lookups of the allowed-values table *)

Section FormFacts.

Variable removed_method : forall A : Type, string -> list pyval -> M FurSightClient A.

(** With a cached table the getter returns it; without one, the fetch
    from the client fails at the method lookup and nothing is stored. *)
Lemma get_dropdown_values_run f w :
  get_dropdown_values removed_method f w =
  match _dropdown_values f with
  | Some t => (Ok t, f, w)
  | None => (Raise (no_attribute "get_dropdown_values"), f, w)
  end.
Proof.
  unfold get_dropdown_values, bind, get_self.
  destruct (_dropdown_values f) as [t|]; [reflexivity|].
  rewrite (on_client_pure _ f w (Raise (no_attribute "get_dropdown_values"))).
  - reflexivity.
  - apply getattr_undefined, disabled_not_defined.
    unfold disabled_operations. set_solver.
Qed.

Lemma validate_field_run f w field_name value :
  validate_field removed_method field_name value f w =
  match _dropdown_values f with
  | None => (Raise (no_attribute "get_dropdown_values"), f, w)
  | Some t =>
      if violates t field_name value
      then (Raise (ValidationError
                     (PyStr (violation_message field_name
                               (default [] (table_get t field_name)) value))), f, w)
      else (Ok true, f, w)
  end.
Proof.
  unfold validate_field, bind. rewrite get_dropdown_values_run.
  destruct (_dropdown_values f) as [t|]; [|reflexivity].
  unfold violates. destruct (table_get t field_name) as [allowed|]; [|reflexivity].
  simpl. by destruct (_ && _).
Qed.

Lemma validate_field_check f w field_name value :
  validate_field removed_method field_name value f w =
  (check_field (_dropdown_values f) field_name value, f, w).
Proof.
  rewrite validate_field_run. unfold check_field.
  destruct (_dropdown_values f); [destruct (violates _ _ _)|]; reflexivity.
Qed.

(** The loop over a partition changes neither form nor world. *)
Lemma validate_items_run items f w :
  validate_items removed_method items f w =
  (check_items (_dropdown_values f) items, f, w).
Proof.
  induction items as [|[k v] rest IH]; [reflexivity|].
  cbn [validate_items check_items]. unfold bind at 1.
  destruct (is_none v).
  - cbn. exact IH.
  - unfold bind at 1. rewrite validate_field_check.
    destruct (check_field _ k v); [cbn; exact IH | reflexivity].
Qed.

Lemma validate_run f w :
  validate removed_method f w = (validate_result f, f, w).
Proof.
  unfold validate, validate_result, bind, get_self.
  rewrite validate_items_run.
  destruct (check_items _ (_adopter_data f)); [|reflexivity].
  rewrite validate_items_run.
  destruct (check_items _ (_dog_data f)); [|reflexivity].
  by destruct (_ && _).
Qed.

Lemma check_items_app cache xs ys :
  check_items cache (xs ++ ys) =
  match check_items cache xs with
  | Ok _ => check_items cache ys
  | Raise e => Raise e
  end.
Proof.
  induction xs as [|[k v] xs IH]; [reflexivity|].
  cbn [app check_items]. destruct (is_none v); [exact IH|].
  destruct (check_field cache k v); [exact IH | reflexivity].
Qed.

End FormFacts.

(** ** The form: [validate] *)

Section Validate.

Variable removed_method : forall A : Type, string -> list pyval -> M FurSightClient A.

Lemma is_empty_nil (d : dict) : is_empty d = true <-> d = [].
Proof. destruct d; cbn; split; congruence. Qed.

Lemma is_none_true v : is_none v = true <-> v = PyNone.
Proof. destruct v; cbn; split; congruence. Qed.

(** Entries that are null or pass their check do not stop the loop. *)
Lemma check_items_pass cache (items : dict) :
  (forall k v, (k, v) ∈ items -> v <> PyNone -> check_field cache k v = Ok true) ->
  check_items cache items = Ok tt.
Proof.
  induction items as [|[k v] rest IH]; intros Hall; [reflexivity|].
  cbn [check_items]. destruct (is_none v) eqn:Hv.
  - apply IH. intros k' v' Hin. apply Hall. by right.
  - rewrite (Hall k v); [| by left |].
    + apply IH. intros k' v' Hin. apply Hall. by right.
    + intros ->. discriminate Hv.
Qed.

(** The loop stops at the first entry whose check raises. *)
Lemma check_items_first_failure cache (pre post : dict) k v e :
  (forall k' v', (k', v') ∈ pre -> v' <> PyNone -> check_field cache k' v' = Ok true) ->
  v <> PyNone -> check_field cache k v = Raise e ->
  check_items cache (pre ++ (k, v) :: post) = Raise e.
Proof.
  intros Hpre Hv He. rewrite check_items_app, (check_items_pass _ _ Hpre).
  cbn [check_items]. destruct (is_none v) eqn:Hn.
  - by apply is_none_true in Hn.
  - by rewrite He.
Qed.

Lemma violation_is_not_no_data k allowed v :
  violation_message k allowed v <> no_data_message.
Proof. unfold violation_message, no_data_message. cbn. discriminate. Qed.

Lemma check_items_not_no_data cache items :
  check_items cache items <> Raise (ValidationError (PyStr no_data_message)).
Proof.
  induction items as [|[k v] rest IH]; [discriminate|].
  cbn [check_items]. destruct (is_none v); [exact IH|].
  destruct (check_field cache k v) as [b|e] eqn:Hc; [exact IH|].
  unfold check_field in Hc. destruct cache as [t|].
  - destruct (violates t k v); [|discriminate].
    injection Hc as <-. intros H.
    apply (violation_is_not_no_data k (default [] (table_get t k)) v).
    congruence.
  - injection Hc as <-. discriminate.
Qed.

(** C10 -- [validate()] leaves the form unchanged: the adopter partition,
    the dog partition, the cached dropdown values and the cached sample data
    are the same after the call as before it, whether the call returns
    [True] or raises; the form as a whole, its client included, and the
    world are untouched as well. *)
Theorem validate_leaves_form_unchanged f w :
  _adopter_data (self_of (validate removed_method f w)) = _adopter_data f
  /\ _dog_data (self_of (validate removed_method f w)) = _dog_data f
  /\ _dropdown_values (self_of (validate removed_method f w)) = _dropdown_values f
  /\ _sample_data (self_of (validate removed_method f w)) = _sample_data f
  /\ self_of (validate removed_method f w) = f
  /\ world_of (validate removed_method f w) = w.
Proof. rewrite validate_run. cbn. repeat split. Qed.

(** C7 -- [validate()] on a form whose two partitions are both empty raises
    the "no data" validation error; on a form with a non-empty partition
    whose field checks all pass it returns [True]; and a form with a
    non-empty partition never raises the "no data" error. *)
Theorem validate_no_data_rule f w :
  (_adopter_data f = [] -> _dog_data f = [] ->
   outcome_of (validate removed_method f w)
   = Raise (ValidationError (PyStr no_data_message)))
  /\ (_adopter_data f <> [] \/ _dog_data f <> [] ->
      (forall k v, (k, v) ∈ (_adopter_data f ++ _dog_data f)%list -> v <> PyNone ->
         outcome_of (validate_field removed_method k v f w) = Ok true) ->
      outcome_of (validate removed_method f w) = Ok true)
  /\ (_adopter_data f <> [] \/ _dog_data f <> [] ->
      outcome_of (validate removed_method f w)
      <> Raise (ValidationError (PyStr no_data_message))).
Proof.
  rewrite validate_run. unfold outcome_of. cbn [fst]. unfold validate_result.
  split; [|split].
  - intros -> ->. reflexivity.
  - intros Hne Hall.
    assert (Hc : forall k v, (k, v) ∈ (_adopter_data f ++ _dog_data f)%list -> v <> PyNone ->
                   check_field (_dropdown_values f) k v = Ok true).
    { intros k v Hin Hv. specialize (Hall k v Hin Hv).
      by rewrite validate_field_check in Hall. }
    rewrite !check_items_pass.
    + destruct (is_empty _ && is_empty _)%bool eqn:He; [|reflexivity].
      apply andb_prop in He as [Ha Hd].
      apply is_empty_nil in Ha, Hd. by destruct Hne.
    + intros k v Hin. apply Hc, elem_of_app. by right.
    + intros k v Hin. apply Hc, elem_of_app. by left.
  - intros Hne.
    destruct (check_items _ (_adopter_data f)) eqn:Ha;
      [|intros H; injection H as ->; exact (check_items_not_no_data _ _ Ha)].
    destruct (check_items _ (_dog_data f)) eqn:Hd;
      [|intros H; injection H as ->; exact (check_items_not_no_data _ _ Hd)].
    destruct (is_empty _ && is_empty _)%bool eqn:He; [|discriminate].
    apply andb_prop in He as [Ha' Hd'].
    apply is_empty_nil in Ha', Hd'. by destruct Hne.
Qed.

End Validate.

Lemma validate_no_data_rule_witness :
  outcome_of (validate absent_method (AdoptionForm_init sample_client) quiet_world)
  = Raise (ValidationError (PyStr no_data_message))
  /\ outcome_of (validate absent_method
                   (sized_form (Some size_table) (PyStr "Large")) quiet_world)
     = Ok true.
Proof.
  split.
  - apply (validate_no_data_rule absent_method
             (AdoptionForm_init sample_client) quiet_world); reflexivity.
  - apply (validate_no_data_rule absent_method
             (sized_form (Some size_table) (PyStr "Large")) quiet_world).
    + right. discriminate.
    + intros k v Hin Hv. cbn in Hin.
      apply list_elem_of_singleton in Hin. injection Hin as -> ->.
      vm_compute. reflexivity.
Defined.

(** ** The form: field checks against the allowed-values table *)

Section FieldChecks.

Variable removed_method : forall A : Type, string -> list pyval -> M FurSightClient A.

Lemma check_field_violation t k v allowed :
  table_get t k = Some allowed -> allowed <> [] -> py_str v ∉ allowed ->
  check_field (Some t) k v
  = Raise (ValidationError (PyStr (violation_message k allowed v))).
Proof.
  intros Ht Hne Hnot. unfold check_field, violates. rewrite Ht. cbn.
  rewrite (bool_decide_eq_false_2 _ Hne), (bool_decide_eq_false_2 _ Hnot).
  reflexivity.
Qed.

Lemma check_field_pass t k v :
  violates t k v = false -> check_field (Some t) k v = Ok true.
Proof. intros H. unfold check_field. by rewrite H. Qed.

(** C8, as amended -- with an allowed-values table cached on the form, take
    the first field, adopter partition first and then dog partition, each in
    insertion order, that is non-null, whose name is in the table with a
    non-empty list of permitted values, and whose text [str(value)] is not in
    that list.  [validate()] fails right there with a [ValidationError]
    whose message names the field, a preview of the first 5 permitted values
    at most, an ellipsis exactly when more than 5 exist, and the received
    value; the fields after it play no part, and the form is unchanged.  A
    field whose name is absent from the table, or whose list of permitted
    values is empty, always passes. *)
Theorem validate_reports_first_violation f w t :
  _dropdown_values f = Some t ->
  (forall (pre post : dict) k v allowed,
      (_adopter_data f ++ _dog_data f)%list = (pre ++ (k, v) :: post)%list ->
      (forall k' v', (k', v') ∈ pre -> v' <> PyNone -> violates t k' v' = false) ->
      v <> PyNone -> table_get t k = Some allowed ->
      allowed <> [] -> py_str v ∉ allowed ->
      validate removed_method f w
      = (Raise (ValidationError
                  (PyStr ("Field '" ++ k ++ "' must be one of: "
                          ++ str_list (take 5 allowed)
                          ++ (if bool_decide (5 < length allowed)%nat then "..." else "")
                          ++ ". Received: '" ++ py_str v ++ "'"))), f, w)
        /\ (length (take 5 allowed) <= 5)%nat)
  /\ (forall k v, table_get t k = None ->
        validate_field removed_method k v f w = (Ok true, f, w))
  /\ (forall k v, table_get t k = Some [] ->
        validate_field removed_method k v f w = (Ok true, f, w)).
Proof.
  intros Hcache. split; [|split].
  - intros pre post k v allowed Hsplit Hpre Hv Ht Hne Hnot.
    split; [|rewrite length_take; lia].
    rewrite validate_run. f_equal. f_equal.
    unfold validate_result. rewrite Hcache.
    assert (Hfail : check_items (Some t) (_adopter_data f ++ _dog_data f)
                    = Raise (ValidationError (PyStr (violation_message k allowed v)))).
    { rewrite Hsplit. apply check_items_first_failure; [|exact Hv|].
      - intros k' v' Hin Hv'. apply check_field_pass. by apply Hpre.
      - by apply check_field_violation. }
    rewrite check_items_app in Hfail.
    assert (Hmsg : violation_message k allowed v
                   = "Field '" ++ k ++ "' must be one of: "
                     ++ str_list (take 5 allowed)
                     ++ (if bool_decide (5 < length allowed)%nat then "..." else "")
                     ++ ". Received: '" ++ py_str v ++ "'").
    { unfold violation_message. do 4 f_equal.
      destruct (5 <? length allowed)%nat eqn:Hl.
      - apply Nat.ltb_lt in Hl. by rewrite bool_decide_eq_true_2.
      - apply Nat.ltb_ge in Hl. rewrite bool_decide_eq_false_2; [done | lia]. }
    rewrite <- Hmsg.
    destruct (check_items (Some t) (_adopter_data f)) as [[]|e].
    + by rewrite Hfail.
    + by injection Hfail as ->.
  - intros k v Ht. rewrite validate_field_check, Hcache.
    unfold check_field, violates. by rewrite Ht.
  - intros k v Ht. rewrite validate_field_check, Hcache.
    unfold check_field, violates. by rewrite Ht.
Qed.

End FieldChecks.

Lemma validate_reports_first_violation_witness :
  validate absent_method (sized_form (Some size_table) (PyStr "Huge")) quiet_world
  = (Raise (ValidationError
              (PyStr "Field 'dog_size' must be one of: ['Small', 'Medium', 'Large']. Received: 'Huge'")),
     sized_form (Some size_table) (PyStr "Huge"), quiet_world).
Proof.
  refine (proj1 (proj1 (validate_reports_first_violation absent_method
                          (sized_form (Some size_table) (PyStr "Huge"))
                          quiet_world size_table eq_refl)
                   [] [] "dog_size" (PyStr "Huge") ["Small"; "Medium"; "Large"]
                   eq_refl _ _ eq_refl _ _)).
  - intros k' v' Hin. by apply elem_of_nil in Hin.
  - discriminate.
  - discriminate.
  - apply (bool_decide_unpack _). vm_compute. exact I.
Defined.

(** C8, the claim as stated, fails: a field named in the table with an empty
    list of permitted values has a value outside that list, yet it passes. *)
Lemma empty_permitted_list_passes :
  table_get [("dog_size", [])] "dog_size" = Some []
  /\ (("Huge" : string) ∉ @nil string)
  /\ validate absent_method (sized_form (Some [("dog_size", [])]) (PyStr "Huge"))
       quiet_world
     = (Ok true, sized_form (Some [("dog_size", [])]) (PyStr "Huge"), quiet_world).
Proof.
  split; [reflexivity|]. split; [apply not_elem_of_nil|]. reflexivity.
Qed.


(** ** The executor: pacing *)

Lemma Qltb_lt a b : Qltb a b = true <-> (a < b)%Q.
Proof.
  unfold Qltb. rewrite negb_true_iff, <- not_true_iff_false, Qle_bool_iff.
  split; [apply Qnot_le_lt | apply Qlt_not_le].
Qed.

Lemma pacing_sleep_not_negative a b :
  Qltb a b = true -> Qltb (b - a) 0 = false.
Proof.
  intros H%Qltb_lt. apply not_true_iff_false. intros H'%Qltb_lt. lra.
Qed.

(** The pacing step never fails; it sleeps at most once and then sets the
    marker, exactly once. *)
Lemma wait_for_rate_limit_run self w :
  _wait_for_rate_limit self w = (Ok tt, paced_client self w, paced_world self w).
Proof.
  unfold _wait_for_rate_limit, bind, get_self, time_time, set_last_request_time,
    paced_client, paced_world, pacing_events, pacing_sleep, paced_at.
  destruct (Qltb _ _) eqn:Hlt.
  - unfold time_sleep. rewrite (pacing_sleep_not_negative _ _ Hlt).
    unfold emit, advance. cbn. by rewrite <- app_assoc.
  - unfold ret, emit. cbn. reflexivity.
Qed.


Lemma pacing_dispatches self w : dispatches (pacing_events self w) = 0%nat.
Proof.
  unfold pacing_events, pacing_sleep, dispatches.
  by destruct (Qltb _ _).
Qed.

(** ** The executor: the retry loop *)

Lemma retry_after_of_run {S} response (s : S) w :
  retry_after_of response s w =
  match retry_after_hint response with
  | Some z => (Ok z, s, w)
  | None => (Raise (int_error response), s, w)
  end.
Proof.
  unfold retry_after_of, retry_after_hint, int_error.
  destruct (headers_get _ _) as [v|]; [|reflexivity].
  cbn. by destruct (int_of_text v).
Qed.

Lemma time_sleep_run {S} d (k : unit -> M S Response) (s : S) w :
  bind (time_sleep d) k s w =
  match backoff d with
  | Done r => (r, s, w)
  | Again d' => k tt s (after_sleep d' w)
  end.
Proof.
  unfold bind, time_sleep, backoff. by destruct (Qltb d 0).
Qed.

(** One iteration: the attempt is dispatched; the verdict on its fate
    either ends the call or hands over, after the sleep, to the rest of the
    loop. *)
Lemma attempt_body_run method url kw attempt continue self w :
  attempt_body method url kw attempt continue self w =
  match verdict_of self attempt (attempt_outcome w 0) with
  | Done r => (r, self, after_dispatch (request_of self method url kw) w)
  | Again d =>
      continue self (after_sleep d (after_dispatch (request_of self method url kw) w))
  end.
Proof.
  unfold attempt_body, attempt_outcome, verdict_of.
  rewrite Nat.add_0_r.
  unfold bind at 1. unfold get_self at 1. unfold bind at 1. unfold session_request.
  fold (request_of self method url kw). fold (after_dispatch (request_of self method url kw) w).
  destruct (ended (net w (sent w))) as [response| |msg].
  - destruct (status_code response =? 429).
    + unfold bind at 1. rewrite retry_after_of_run.
      destruct (retry_after_hint response) as [ra|]; [|reflexivity].
      destruct (attempt =? max_retries self - 1); [reflexivity|].
      rewrite time_sleep_run. by destruct (backoff _).
    + destruct (negb (ok response)); [|reflexivity].
      destruct (status_code response =? 400); [reflexivity|].
      destruct (status_code response =? 401); [reflexivity|].
      by destruct (status_code response =? 402).
  - destruct (attempt =? max_retries self - 1); [reflexivity|].
    rewrite time_sleep_run. by destruct (backoff _).
  - destruct (attempt =? max_retries self - 1); [reflexivity|].
    rewrite time_sleep_run. by destruct (backoff _).
Qed.

Lemma after_dispatch_log req w : log (after_dispatch req w) = (log w ++ [EvRequest req])%list.
Proof. reflexivity. Qed.

Lemma after_sleep_log d w : log (after_sleep d w) = (log w ++ [EvSleep d])%list.
Proof. reflexivity. Qed.

Lemma attempt_outcome_next req d w i :
  attempt_outcome (after_sleep d (after_dispatch req w)) i = attempt_outcome w (S i).
Proof. unfold attempt_outcome. cbn. by rewrite Nat.add_succ_r. Qed.

(** Whatever the network does, the loop leaves the client as it is, never
    touches the marker, dispatches at most [n] attempts, and every attempt
    carries the same request. *)
Lemma retry_loop_frame method url kw n :
  forall attempt self w,
  exists r w' evs,
    retry_loop method url kw n attempt self w = (r, self, w')
    /\ log w' = (log w ++ evs)%list
    /\ net w' = net w
    /\ sent w' = (sent w + dispatches evs)%nat
    /\ marker_updates evs = 0%nat
    /\ (dispatches evs <= n)%nat
    /\ Forall (fun ev => is_request ev = true ->
                         ev = EvRequest (request_of self method url kw)) evs.
Proof.
  induction n as [|n IH]; intros attempt self w.
  - exists (Raise (FurSightError (PyStr "Max retries exceeded"))), w, [].
    cbn. rewrite app_nil_r, Nat.add_0_r. split_and!; try done; try lia.
  - cbn [retry_loop]. rewrite attempt_body_run.
    set (req := request_of self method url kw).
    destruct (verdict_of self attempt (attempt_outcome w 0)) as [r|d].
    + exists r, (after_dispatch req w), [EvRequest req].
      split_and!; try done; try (cbn; lia).
      constructor; [done | constructor].
    + destruct (IH (attempt + 1) self (after_sleep d (after_dispatch req w)))
        as (r & w' & evs & Hrun & Hlog & Hnet & Hsent & Hmark & Hdisp & Hreq).
      exists r, w', (EvRequest req :: EvSleep d :: evs).
      rewrite Hrun, Hlog, Hnet, Hsent. cbn.
      rewrite <- !app_assoc. cbn.
      split_and!; try done.
      * unfold dispatches in *. cbn. lia.
      * constructor; [done|]. constructor; [done | exact Hreq].
Qed.

(** A run in which the first [k] attempts each sleep and retry, and the
    next one ends the call. *)
Lemma retry_loop_stops method url kw delay r k :
  forall n start attempt self w,
  (k < n)%nat ->
  (forall i, (i < k)%nat ->
     verdict_of self (attempt + Z.of_nat i) (attempt_outcome w i)
     = Again (delay (start + i)%nat)) ->
  verdict_of self (attempt + Z.of_nat k) (attempt_outcome w k) = Done r ->
  exists w',
    retry_loop method url kw n attempt self w = (r, self, w')
    /\ log w' = (log w ++ retry_trace (request_of self method url kw) delay start k)%list
    /\ sent w' = (sent w + S k)%nat
    /\ net w' = net w.
Proof.
  induction k as [|k IH]; intros n start attempt self w Hlt Hretry Hstop;
    (destruct n as [|n]; [lia|]); cbn [retry_loop]; rewrite attempt_body_run.
  - rewrite Z.add_0_r in Hstop. rewrite Hstop.
    eexists. split; [reflexivity|]. cbn. split_and!; try done; lia.
  - pose proof (Hretry 0%nat ltac:(lia)) as H0.
    rewrite Z.add_0_r, Nat.add_0_r in H0. rewrite H0.
    set (req := request_of self method url kw).
    destruct (IH n (S start) (attempt + 1) self
                (after_sleep (delay start) (after_dispatch req w)))
      as (w' & Hrun & Hlog & Hsent & Hnet).
    + lia.
    + intros i Hi. rewrite attempt_outcome_next.
      replace (attempt + 1 + Z.of_nat i) with (attempt + Z.of_nat (S i)) by lia.
      rewrite (Hretry (S i)) by lia. f_equal. f_equal. lia.
    + rewrite attempt_outcome_next.
      by replace (attempt + 1 + Z.of_nat k) with (attempt + Z.of_nat (S k)) by lia.
    + exists w'. rewrite Hrun, Hlog, Hsent, Hnet. cbn.
      rewrite <- !app_assoc. cbn. split_and!; try done; lia.
Qed.

(** [_make_request] is the pacing step followed by the loop. *)
Lemma make_request_run urljoin method endpoint kw self w :
  _make_request urljoin method endpoint kw self w
  = retry_loop method (urljoin (base_url self) endpoint) kw
      (Z.to_nat (max_retries self)) 0 (paced_client self w) (paced_world self w).
Proof.
  unfold _make_request, bind. rewrite wait_for_rate_limit_run. reflexivity.
Qed.

Lemma new_events_app w w' evs :
  log w' = (log w ++ evs)%list -> new_events w w' = evs.
Proof. unfold new_events. intros ->. by rewrite drop_app_length. Qed.

(** ** The executor: the pacing marker *)



(** ** The executor: classification of error statuses *)

Lemma paced_attempt_outcome self w i :
  attempt_outcome (paced_world self w) i = attempt_outcome w i.
Proof. reflexivity. Qed.

(** A run of [_make_request] in which the first [k] attempts sleep and
    retry and the next one ends the call. *)
Lemma make_request_stops urljoin method endpoint kw self w delay r k :
  (k < Z.to_nat (max_retries self))%nat ->
  (forall i, (i < k)%nat ->
     verdict_of self (Z.of_nat i) (attempt_outcome w i) = Again (delay i)) ->
  verdict_of self (Z.of_nat k) (attempt_outcome w k) = Done r ->
  outcome_of (_make_request urljoin method endpoint kw self w) = r
  /\ new_events w (world_of (_make_request urljoin method endpoint kw self w))
     = (pacing_events self w
        ++ retry_trace (request_of self method (urljoin (base_url self) endpoint) kw)
             delay 0 k)%list.
Proof.
  intros Hk Hretry Hstop. rewrite make_request_run.
  destruct (retry_loop_stops method (urljoin (base_url self) endpoint) kw delay r k
              (Z.to_nat (max_retries self)) 0%nat 0 (paced_client self w)
              (paced_world self w) Hk)
    as (w' & Hrun & Hlog & _ & _).
  - intros i Hi. rewrite Z.add_0_l, Nat.add_0_l. exact (Hretry i Hi).
  - rewrite Z.add_0_l. exact Hstop.
  - rewrite Hrun. split; [reflexivity|].
    apply new_events_app. cbn [world_of snd]. rewrite Hlog. cbn.
    by rewrite app_assoc.
Qed.




(** ** The executor: retries *)

Lemma backoff_not_negative z : 0 <= z -> backoff (inject_Z z) = Again (inject_Z z).
Proof.
  intros Hz. unfold backoff.
  destruct (Qltb (inject_Z z) 0) eqn:Hlt; [|reflexivity].
  apply Qltb_lt in Hlt. change 0%Q with (inject_Z 0) in Hlt.
  rewrite <- Zlt_Qlt in Hlt. lia.
Qed.

Lemma sleeps_retry_trace req delay k :
  forall start, sleeps (retry_trace req delay start k) = map delay (seq start k).
Proof.
  induction k as [|k IH]; intros start; [reflexivity|].
  cbn. unfold sleeps in IH. by rewrite IH.
Qed.

Lemma dispatches_retry_trace req delay k :
  forall start, dispatches (retry_trace req delay start k) = S k.
Proof.
  induction k as [|k IH]; intros start; [reflexivity|].
  unfold dispatches in *. cbn. by rewrite IH.
Qed.

Lemma dispatches_app evs evs' :
  dispatches (evs ++ evs') = (dispatches evs + dispatches evs')%nat.
Proof. unfold dispatches. by rewrite List.filter_app, length_app. Qed.

(** *** Sleeps that [time.sleep] takes *)

Lemma sleepable_seconds z : z <= max_sleep_seconds -> sleepable (inject_Z z) = true.
Proof.
  intros Hz. unfold sleepable. apply Qle_bool_iff.
  unfold Qle, max_sleep, max_sleep_seconds in *. cbn. lia.
Qed.

Lemma pow2_sleepable i : (i <= 33)%nat -> sleepable (inject_Z (2 ^ Z.of_nat i)) = true.
Proof.
  intros Hi. apply sleepable_seconds.
  transitivity (2 ^ 33); [apply Z.pow_le_mono_r; lia | by vm_compute].
Qed.

Lemma within_sleep_range_app evs evs' :
  within_sleep_range (evs ++ evs')
  = within_sleep_range evs && within_sleep_range evs'.
Proof. unfold within_sleep_range, sleeps. by rewrite omap_app, forallb_app. Qed.

Lemma within_sleep_range_trace req delay k :
  forall start,
  (forall i, (start <= i < start + k)%nat -> sleepable (delay i) = true) ->
  within_sleep_range (retry_trace req delay start k) = true.
Proof.
  induction k as [|k IH]; intros start Hall; [reflexivity|].
  cbn [retry_trace]. unfold within_sleep_range in *. cbn.
  rewrite Hall by lia. apply IH. intros i Hi. apply Hall. lia.
Qed.

(** With a budget of [n >= 1] attempts, all answered 429 with a usable
    [Retry-After] value: every attempt but the last sleeps that value and
    retries, the last one raises [RateLimitError] with the value in its
    message and nothing in its [retry_after] attribute.  A value is usable
    on the last attempt when [int] accepts the header or the header is
    absent, and on an attempt that sleeps when it is, moreover, a number of
    seconds [time.sleep] takes: not negative and not above
    [max_sleep_seconds]; the pacing wait before the first attempt is to be
    one [time.sleep] takes as well. *)
Lemma persistent_rate_limit urljoin method endpoint kw self w n (hint : nat -> Z) :
  max_retries self = Z.of_nat n -> (1 <= n)%nat ->
  within_sleep_range (pacing_events self w) = true ->
  (forall i, (i < n)%nat ->
     exists response,
       attempt_outcome w i = Responded response
       /\ status_code response = 429
       /\ match headers_get (headers response) "Retry-After" with
          | None => hint i = 60
          | Some v => int_of_text v = Some (hint i)
          end
       /\ ((S i < n)%nat -> 0 <= hint i <= max_sleep_seconds)) ->
  outcome_of (_make_request urljoin method endpoint kw self w)
  = Raise (RateLimitError
             (PyStr ("Rate limit exceeded. Retry after "
                     ++ string_of_Z (hint (n - 1)%nat) ++ " seconds."))
             None)
  /\ new_events w (world_of (_make_request urljoin method endpoint kw self w))
     = (pacing_events self w
        ++ retry_trace (request_of self method (urljoin (base_url self) endpoint) kw)
             (fun i => inject_Z (hint i)) 0 (n - 1))%list
  /\ within_sleep_range
       (new_events w (world_of (_make_request urljoin method endpoint kw self w))) = true.
Proof.
  intros Hmax Hn Hpace Hall.
  assert (Hhint : forall i, (i < n)%nat ->
            exists response,
              attempt_outcome w i = Responded response
              /\ status_code response = 429
              /\ retry_after_hint response = Some (hint i)
              /\ ((S i < n)%nat -> 0 <= hint i <= max_sleep_seconds)).
  { intros i Hi. destruct (Hall i Hi) as (response & Ho & Hs & Hh & Hpos).
    exists response. split_and!; try done. unfold retry_after_hint.
    destruct (headers_get _ _); [exact Hh | by rewrite Hh]. }
  destruct (make_request_stops urljoin method endpoint kw self w
              (fun i => inject_Z (hint i))
              (Raise (RateLimitError
                        (PyStr ("Rate limit exceeded. Retry after "
                                ++ string_of_Z (hint (n - 1)%nat) ++ " seconds."))
                        None))
              (n - 1)%nat) as [Hout Hev].
  - lia.
  - intros i Hi. destruct (Hhint i ltac:(lia)) as (response & -> & Hs & Hh & Hpos).
    unfold verdict_of. rewrite Hs, Hh, Z.eqb_refl.
    rewrite (proj2 (Z.eqb_neq _ _)) by lia.
    apply backoff_not_negative, Hpos. lia.
  - destruct (Hhint (n - 1)%nat ltac:(lia)) as (response & -> & Hs & Hh & _).
    unfold verdict_of. rewrite Hs, Hh, Z.eqb_refl.
    rewrite (proj2 (Z.eqb_eq _ _)) by lia. reflexivity.
  - split_and!; [exact Hout | exact Hev |].
    rewrite Hev, within_sleep_range_app, Hpace. apply within_sleep_range_trace.
    intros i Hi. destruct (Hhint i ltac:(lia)) as (_ & _ & _ & _ & Hpos).
    apply sleepable_seconds, Hpos. lia.
Qed.

(** C4 -- the executor at two inputs.  With every attempt answered 429 and
    [Retry-After: 5], the call sleeps 5 seconds after each of the first two
    attempts and then raises a [RateLimitError] whose [retry_after]
    attribute is [None]: the hint is in the message text only.  With
    [Retry-After] given as an HTTP date, the first attempt ends the call
    with a [ValueError]; nothing is slept, retried or classified. *)
Theorem rate_limit_hint_not_carried :
  outcome_of (_make_request join_plain "GET" "/health" no_kwargs
                sample_client (rate_limited "5"))
  = Raise (RateLimitError (PyStr "Rate limit exceeded. Retry after 5 seconds.") None)
  /\ exn_retry_after
       (RateLimitError (PyStr "Rate limit exceeded. Retry after 5 seconds.") None)
     = Some None
  /\ sleeps (new_events (rate_limited "5")
               (world_of (_make_request join_plain "GET" "/health" no_kwargs
                            sample_client (rate_limited "5"))))
     = [inject_Z 5; inject_Z 5]
  /\ outcome_of (_make_request join_plain "GET" "/health" no_kwargs
                   sample_client (rate_limited "Wed, 21 Oct 2015 07:28:00 GMT"))
     = Raise (Builtin ValueError
                "invalid literal for int() with base 10: 'Wed, 21 Oct 2015 07:28:00 GMT'")
  /\ dispatches (new_events (rate_limited "Wed, 21 Oct 2015 07:28:00 GMT")
                   (world_of (_make_request join_plain "GET" "/health" no_kwargs
                                sample_client
                                (rate_limited "Wed, 21 Oct 2015 07:28:00 GMT"))))
     = 1%nat.
Proof. split_and!; vm_compute; reflexivity. Qed.

Lemma sleeps_app evs evs' : sleeps (evs ++ evs') = (sleeps evs ++ sleeps evs')%list.
Proof. unfold sleeps. apply omap_app. Qed.

Lemma pow2_backoff i : backoff (inject_Z (2 ^ Z.of_nat i)) = Again (inject_Z (2 ^ Z.of_nat i)).
Proof. apply backoff_not_negative. apply Z.pow_nonneg. lia. Qed.

(** C5, as amended -- a call never dispatches more than [max_retries]
    attempts.  When every attempt of a call with a budget of [n] attempts,
    [1 <= n <= 35], ends in a timeout or a transport-level error, the
    executor sleeps [2^attempt] seconds after attempt 0, 1, ..., n-2,
    dispatches exactly [n] attempts, and then raises an error of the class
    [FurSightError] whose message reports the last failure.  Up to that
    budget every back-off is a wait [time.sleep] takes, the longest being
    [2^33] seconds; the pacing wait before the first attempt is to be one
    as well.  [FurSightError] is the base class of the SDK's errors: its
    handler catches every error the SDK defines. *)
Theorem transport_failures_back_off urljoin method endpoint kw self :
  (forall w,
      (dispatches (new_events w (world_of (_make_request urljoin method endpoint kw self w)))
       <= Z.to_nat (max_retries self))%nat)
  /\ (forall w n,
        max_retries self = Z.of_nat n -> (1 <= n <= 35)%nat ->
        within_sleep_range (pacing_events self w) = true ->
        (forall i, (i < n)%nat ->
           attempt_outcome w i = TimedOut
           \/ exists msg, attempt_outcome w i = Failed msg) ->
        exists e,
          outcome_of (_make_request urljoin method endpoint kw self w) = Raise e
          /\ e = FurSightError
                   (PyStr match attempt_outcome w (n - 1) with
                          | Failed msg => "Request failed: " ++ msg
                          | _ => "Request timeout after "
                                 ++ string_of_Z (timeout self) ++ " seconds"
                          end)
          /\ class_of e = cFurSightError
          /\ isinstance e cFurSightError = true
          /\ new_events w (world_of (_make_request urljoin method endpoint kw self w))
             = (pacing_events self w
                ++ retry_trace
                     (request_of self method (urljoin (base_url self) endpoint) kw)
                     (fun i => inject_Z (2 ^ Z.of_nat i)) 0 (n - 1))%list
          /\ sleeps (retry_trace
                       (request_of self method (urljoin (base_url self) endpoint) kw)
                       (fun i => inject_Z (2 ^ Z.of_nat i)) 0 (n - 1))
             = map (fun i => inject_Z (2 ^ Z.of_nat i)) (seq 0 (n - 1))
          /\ within_sleep_range
               (new_events w (world_of (_make_request urljoin method endpoint kw self w)))
             = true
          /\ dispatches
               (new_events w (world_of (_make_request urljoin method endpoint kw self w)))
             = n)
  /\ (forall e', (forall k, class_of e' <> cBuiltin k) ->
        isinstance e' cFurSightError = true).
Proof.
  split_and!.
  - intros w. rewrite make_request_run.
    destruct (retry_loop_frame method (urljoin (base_url self) endpoint) kw
                (Z.to_nat (max_retries self)) 0 (paced_client self w) (paced_world self w))
      as (r & w' & evs & Hrun & Hlog & _ & _ & _ & Hdisp & _).
    rewrite Hrun. cbn [world_of snd].
    rewrite (new_events_app w w' (pacing_events self w ++ evs)).
    + rewrite dispatches_app, pacing_dispatches. exact Hdisp.
    + rewrite Hlog. cbn. by rewrite app_assoc.
  - intros w n Hmax Hn Hpace Hall.
    set (e := FurSightError
                (PyStr match attempt_outcome w (n - 1) with
                       | Failed msg => "Request failed: " ++ msg
                       | _ => "Request timeout after "
                              ++ string_of_Z (timeout self) ++ " seconds"
                       end)).
    destruct (make_request_stops urljoin method endpoint kw self w
                (fun i => inject_Z (2 ^ Z.of_nat i)) (Raise e) (n - 1)%nat)
      as [Hr Hev].
    + lia.
    + intros i Hi. unfold verdict_of.
      rewrite (proj2 (Z.eqb_neq _ _)) by lia.
      destruct (Hall i ltac:(lia)) as [-> | [msg ->]]; apply pow2_backoff.
    + unfold verdict_of. rewrite (proj2 (Z.eqb_eq _ _)) by lia. subst e.
      destruct (Hall (n - 1)%nat ltac:(lia)) as [-> | [msg ->]]; reflexivity.
    + exists e. split_and!; try done.
      * apply sleeps_retry_trace.
      * rewrite Hev, within_sleep_range_app, Hpace. apply within_sleep_range_trace.
        intros i Hi. apply pow2_sleepable. lia.
      * rewrite Hev, dispatches_app, pacing_dispatches, dispatches_retry_trace. lia.
  - intros e' Hsdk. destruct e' as [| | | | | |k m]; try reflexivity.
    by destruct (Hsdk k).
Qed.

Lemma transport_failures_back_off_witness :
  outcome_of (_make_request join_plain "GET" "/health" no_kwargs sample_client dead_world)
  = Raise (FurSightError (PyStr "Request timeout after 30 seconds"))
  /\ sleeps (retry_trace sample_request (fun i => inject_Z (2 ^ Z.of_nat i)) 0 2)
     = [inject_Z 1; inject_Z 2]
  /\ dispatches (new_events dead_world
                   (world_of (_make_request join_plain "GET" "/health" no_kwargs
                                sample_client dead_world)))
     = 3%nat.
Proof.
  destruct (proj1 (proj2 (transport_failures_back_off join_plain "GET" "/health"
                            no_kwargs sample_client)) dead_world 3%nat)
    as (e & He & Hmsg & _ & _ & _ & Hsleeps & _ & Hdisp).
  - reflexivity.
  - lia.
  - reflexivity.
  - intros i Hi. left. reflexivity.
  - split_and!; [by rewrite He, Hmsg | exact Hsleeps | exact Hdisp].
Defined.

(** C5, the claim as stated, fails: the error that ends a call after
    transport failures is of no kind of its own.  Its class is the base
    class [FurSightError]: a call with no attempt to spend raises the same
    class without any transport failure, nothing having been dispatched,
    and a handler for that class also catches the [APIError] a 500 answer
    raises. *)
Lemma transport_failure_kind_not_distinct :
  outcome_of (_make_request join_plain "GET" "/health" no_kwargs sample_client dead_world)
  = Raise (FurSightError (PyStr "Request timeout after 30 seconds"))
  /\ outcome_of (_make_request join_plain "GET" "/health" no_kwargs spent_client
                   quiet_world)
     = Raise (FurSightError (PyStr "Max retries exceeded"))
  /\ dispatches (new_events quiet_world
                   (world_of (_make_request join_plain "GET" "/health" no_kwargs
                                spent_client quiet_world)))
     = 0%nat
  /\ class_of (FurSightError (PyStr "Max retries exceeded"))
     = class_of (FurSightError (PyStr "Request timeout after 30 seconds"))
  /\ outcome_of (_make_request join_plain "GET" "/health" no_kwargs sample_client
                   (answering 500))
     = Raise (APIError (PyStr "HTTP 500: ") None)
  /\ isinstance (APIError (PyStr "HTTP 500: ") None)
       (class_of (FurSightError (PyStr "Request timeout after 30 seconds")))
     = true.
Proof. split_and!; vm_compute; reflexivity. Qed.

(** ** Dictionaries and the merged record *)

Lemma to_map_lookup (d : dict) k : to_map d !! k = dict_get d k.
Proof.
  unfold to_map. induction d as [|[k' v] d IH]; [reflexivity|].
  cbn [list_to_map dict_get foldr]. cbn.
  rewrite lookup_insert. destruct (String.eqb_spec k k') as [->|Hne].
  - by rewrite decide_True.
  - rewrite decide_False by congruence. exact IH.
Qed.

Lemma dict_get_set (d : dict) k v k' :
  dict_get (dict_set d k v) k' = if String.eqb k' k then Some v else dict_get d k'.
Proof.
  induction d as [|[k0 v0] d IH]; cbn.
  - by destruct (String.eqb k' k).
  - destruct (String.eqb_spec k k0) as [->|Hne]; cbn.
    + by destruct (String.eqb k' k0).
    + rewrite IH. destruct (String.eqb_spec k' k0) as [->|Hne'].
      * by rewrite (proj2 (String.eqb_neq _ _)) by congruence.
      * reflexivity.
Qed.

Lemma dict_get_absent (d : dict) k : k ∉ d.*1 -> dict_get d k = None.
Proof.
  induction d as [|[k' v] d IH]; [reflexivity|].
  cbn. intros Hnot. apply not_elem_of_cons in Hnot as [Hne Hnot].
  rewrite (proj2 (String.eqb_neq _ _)) by exact Hne. by apply IH.
Qed.

(** [update] lets the later dictionary win on every key it holds. *)
Lemma dict_get_update (other : dict) :
  forall (d : dict) k,
  valid_dict other ->
  dict_get (dict_update d other) k
  = match dict_get other k with Some v => Some v | None => dict_get d k end.
Proof.
  unfold valid_dict, dict_update.
  induction other as [|[k1 v1] other IH]; intros d k Hvalid; [reflexivity|].
  cbn in Hvalid. apply NoDup_cons in Hvalid as [Hfresh Hvalid].
  cbn [fold_left fst snd dict_get].
  rewrite (IH _ _ Hvalid), dict_get_set.
  destruct (String.eqb_spec k k1) as [->|Hne]; [|reflexivity].
  by rewrite (dict_get_absent _ _ Hfresh).
Qed.

Lemma dict_get_merge (a b : dict) k :
  valid_dict a -> valid_dict b ->
  dict_get (dict_merge a b) k
  = match dict_get b k with Some v => Some v | None => dict_get a k end.
Proof.
  intros Ha Hb. unfold dict_merge.
  rewrite (dict_get_update b _ _ Hb), (dict_get_update a _ _ Ha).
  cbn. by destruct (dict_get a k).
Qed.

(** As a mapping, the merge is the union in which the second operand wins. *)
Lemma to_map_merge (a b : dict) :
  valid_dict a -> valid_dict b -> to_map (dict_merge a b) = to_map b ∪ to_map a.
Proof.
  intros Ha Hb. apply map_eq. intros k.
  rewrite lookup_union, !to_map_lookup, dict_get_merge by done.
  by destruct (dict_get b k), (dict_get a k).
Qed.

Lemma dict_get_model_dump fields value k :
  k ∈ fields -> dict_get (model_dump fields value) k = Some (value k).
Proof.
  unfold model_dump. induction fields as [|f fields IH]; intros Hin.
  - by apply elem_of_nil in Hin.
  - cbn. destruct (String.eqb_spec k f) as [->|Hne]; [reflexivity|].
    apply elem_of_cons in Hin as [->|Hin]; [done | by apply IH].
Qed.

Lemma model_dump_valid fields value : NoDup fields -> valid_dict (model_dump fields value).
Proof.
  unfold valid_dict, model_dump. intros H.
  rewrite <- list_fmap_compose. by rewrite list_fmap_id.
Qed.

(** C6 -- for well-formed adopter and dog field maps with no key in common,
    the merged record is the same mapping in either merge order and is the
    union of the two maps; and for every key of the dog map, hence for every
    key present in both maps, the merged record holds the dog-partition
    value.  The record is the one [predict_single] submits and [to_dict]
    returns. *)
Theorem merge_union_and_dog_wins (adopter dog : dict) :
  valid_dict adopter -> valid_dict dog ->
  ((forall k, dict_get adopter k = None \/ dict_get dog k = None) ->
   to_map (prediction_data (AdopterDict adopter) (DogDict dog))
   = to_map (dict_merge dog adopter)
   /\ to_map (prediction_data (AdopterDict adopter) (DogDict dog))
      = to_map adopter ∪ to_map dog)
  /\ (forall k v, dict_get dog k = Some v ->
        dict_get (prediction_data (AdopterDict adopter) (DogDict dog)) k = Some v)
  /\ (forall client sample cache w,
        outcome_of (to_dict {| client := client; _adopter_data := adopter;
                               _dog_data := dog; _dropdown_values := cache;
                               _sample_data := sample |} w)
        = Ok (prediction_data (AdopterDict adopter) (DogDict dog))).
Proof.
  intros Ha Hd. unfold prediction_data. cbn [adopter_as_dict dog_as_dict].
  split_and!.
  - intros Hdisjoint.
    assert (Hcomm : to_map dog ∪ to_map adopter = to_map adopter ∪ to_map dog).
    { apply map_union_comm, map_disjoint_spec. intros k x y Hx Hy.
      rewrite to_map_lookup in Hx, Hy. destruct (Hdisjoint k); congruence. }
    rewrite !to_map_merge by done. by rewrite Hcomm.
  - intros k v Hk. rewrite dict_get_merge by done. by rewrite Hk.
  - reflexivity.
Qed.

Lemma merge_union_and_dog_wins_witness :
  to_map (prediction_data (AdopterDict [("adopter_has_kids", PyStr "No")])
            (DogDict [("dog_size", PyStr "Small")]))
  = to_map (dict_merge [("dog_size", PyStr "Small")] [("adopter_has_kids", PyStr "No")])
  /\ dict_get (prediction_data (AdopterDict [("size", PyStr "Large")])
                 (DogDict [("size", PyStr "Small")])) "size"
     = Some (PyStr "Small").
Proof.
  split.
  - refine (proj1 (proj1 (merge_union_and_dog_wins
                            [("adopter_has_kids", PyStr "No")]
                            [("dog_size", PyStr "Small")] _ _) _)).
    + unfold valid_dict. cbn. apply NoDup_singleton.
    + unfold valid_dict. cbn. apply NoDup_singleton.
    + intros k. destruct (String.eqb_spec k "adopter_has_kids") as [->|Hne].
      * right. reflexivity.
      * left. cbn [dict_get]. by rewrite (proj2 (String.eqb_neq _ _) Hne).
  - refine (proj1 (proj2 (merge_union_and_dog_wins
                            [("size", PyStr "Large")] [("size", PyStr "Small")] _ _))
              "size" (PyStr "Small") eq_refl).
    + unfold valid_dict. cbn. apply NoDup_singleton.
    + unfold valid_dict. cbn. apply NoDup_singleton.
Defined.

(** ** The record [predict_single] submits *)

(** Every attempt of a call carries the request built from the call's
    arguments. *)
Lemma make_request_requests urljoin method endpoint kw self w req :
  EvRequest req ∈ new_events w (world_of (_make_request urljoin method endpoint kw self w)) ->
  req = request_of self method (urljoin (base_url self) endpoint) kw.
Proof.
  rewrite make_request_run.
  destruct (retry_loop_frame method (urljoin (base_url self) endpoint) kw
              (Z.to_nat (max_retries self)) 0 (paced_client self w) (paced_world self w))
    as (r & w' & evs & Hrun & Hlog & _ & _ & _ & _ & Hreq).
  rewrite Hrun. cbn [world_of snd].
  rewrite (new_events_app w w' (pacing_events self w ++ evs));
    [|rewrite Hlog; cbn; by rewrite app_assoc].
  intros [Hin|Hin]%elem_of_app.
  - unfold pacing_events, pacing_sleep in Hin. destruct (Qltb _ _); cbn in Hin.
    + apply elem_of_cons in Hin as [[=]|Hin].
      apply list_elem_of_singleton in Hin. discriminate.
    + apply list_elem_of_singleton in Hin. discriminate.
  - rewrite Forall_forall in Hreq. specialize (Hreq _ Hin eq_refl).
    by injection Hreq.
Qed.

Lemma predict_single_world urljoin PredictionResponse_init adopter_data dog_data include
    self w :
  world_of (predict_single urljoin PredictionResponse_init adopter_data dog_data include self w)
  = world_of (_make_request urljoin "POST" "/predict/single"
                {| kw_json := Some (prediction_data adopter_data dog_data);
                   kw_params := Some [("include_explanation", PyBool include)] |}
                self w).
Proof.
  unfold predict_single, bind.
  destruct (_make_request _ _ _ _ self w) as [[[response|e] self'] w']; [|reflexivity].
  unfold response_json. destruct (body_json response) as [result|]; [|reflexivity].
  unfold ret, PredictionResponse_of.
  destruct result as [| | | | | |fields]; try reflexivity.
  by destruct (PredictionResponse_init fields).
Qed.

(** C2, as amended -- the record sent by [predict_single] is the adopter
    map overlaid with the dog map, every entry as it was given: each attempt
    carries that record; a key absent from both maps is absent from it; a
    key given with the value [None] is sent with the value [None]; and a
    profile given as a model contributes every declared field, an unset one
    with the value [None]. *)
Theorem outgoing_record_keeps_entries urljoin PredictionResponse_init adopter_data dog_data :
  valid_dict (adopter_as_dict adopter_data) -> valid_dict (dog_as_dict dog_data) ->
  (forall include self w req,
      EvRequest req ∈ new_events w (world_of (predict_single urljoin PredictionResponse_init
                                                adopter_data dog_data include self w)) ->
      kw_json (req_kwargs req) = Some (prediction_data adopter_data dog_data))
  /\ (forall k,
        dict_get (prediction_data adopter_data dog_data) k
        = match dict_get (dog_as_dict dog_data) k with
          | Some v => Some v
          | None => dict_get (adopter_as_dict adopter_data) k
          end)
  /\ (forall k,
        dict_get (adopter_as_dict adopter_data) k = None ->
        dict_get (dog_as_dict dog_data) k = None ->
        dict_get (prediction_data adopter_data dog_data) k = None)
  /\ (forall k,
        dict_get (dog_as_dict dog_data) k = Some PyNone
        \/ (dict_get (dog_as_dict dog_data) k = None
            /\ dict_get (adopter_as_dict adopter_data) k = Some PyNone) ->
        dict_get (prediction_data adopter_data dog_data) k = Some PyNone)
  /\ (forall p k, adopter_data = AdopterModel p -> k ∈ AdopterProfile_fields ->
        dict_get (adopter_as_dict adopter_data) k = Some (adopter_field p k))
  /\ (forall p k, dog_data = DogModel p -> k ∈ DogProfile_fields ->
        dict_get (dog_as_dict dog_data) k = Some (dog_field p k)).
Proof.
  intros Ha Hd.
  assert (Hget : forall k,
             dict_get (prediction_data adopter_data dog_data) k
             = match dict_get (dog_as_dict dog_data) k with
               | Some v => Some v
               | None => dict_get (adopter_as_dict adopter_data) k
               end).
  { intros k. unfold prediction_data. by apply dict_get_merge. }
  split_and!.
  - intros include self w req Hin. rewrite predict_single_world in Hin.
    apply make_request_requests in Hin. by subst req.
  - exact Hget.
  - intros k Hka Hkd. by rewrite Hget, Hkd.
  - intros k [Hk|[Hkd Hka]]; rewrite Hget.
    + by rewrite Hk.
    + by rewrite Hkd.
  - intros p k -> Hin. by apply dict_get_model_dump.
  - intros p k -> Hin. by apply dict_get_model_dump.
Qed.

Lemma AdopterProfile_fields_distinct : NoDup AdopterProfile_fields.
Proof. apply (bool_decide_unpack _). vm_compute. exact I. Qed.

Lemma DogProfile_fields_distinct : NoDup DogProfile_fields.
Proof. apply (bool_decide_unpack _). vm_compute. exact I. Qed.

Lemma outgoing_record_keeps_entries_witness :
  dict_get (prediction_data (AdopterModel unset_adopter)
              (DogDict [("dog_size", PyStr "Small")])) "adopter_has_kids"
  = Some PyNone.
Proof.
  refine (proj1 (proj2 (proj2 (proj2
            (outgoing_record_keeps_entries join_plain sample_init (AdopterModel unset_adopter)
               (DogDict [("dog_size", PyStr "Small")]) _ _))))
            "adopter_has_kids" _).
  - apply model_dump_valid, AdopterProfile_fields_distinct.
  - unfold valid_dict. cbn. apply NoDup_singleton.
  - right. split; reflexivity.
Defined.

(** C2, the claim as stated, fails: a field given as [None] in a dictionary
    is sent with the value [None], and two profiles given as models with no
    field set are sent as a record of 122 keys, each mapped to [None]. *)
Lemma null_placeholders_are_sent :
  payloads (new_events quiet_world
              (world_of (predict_single join_plain sample_init
                           (AdopterDict [("adopter_has_kids", PyNone)])
                           (DogDict [("dog_size", PyStr "Small")])
                           true sample_client quiet_world)))
  = [Some [("adopter_has_kids", PyNone); ("dog_size", PyStr "Small")]]
  /\ length (prediction_data (AdopterModel unset_adopter) (DogModel unset_dog)) = 122%nat
  /\ forallb (fun kv => is_none (snd kv))
       (prediction_data (AdopterModel unset_adopter) (DogModel unset_dog)) = true.
Proof. split_and!; vm_compute; reflexivity. Qed.

(** ** The disabled endpoints *)

Section Disabled.

Variable urljoin : string -> string -> string.
Variable PredictionResponse_init : dict -> PredictionResponse + string.
Variable removed_method : forall A : Type, string -> list pyval -> M FurSightClient A.

Lemma keeps_ret {A} (a : A) : keeps_cache (ret a).
Proof. by intros f w. Qed.

Lemma keeps_raise {A} e : keeps_cache (@raise AdoptionForm A e).
Proof. by intros f w. Qed.

Lemma keeps_get_self : keeps_cache get_self.
Proof. by intros f w. Qed.

Lemma keeps_bind {A B} (c : M AdoptionForm A) (k : A -> M AdoptionForm B) :
  keeps_cache c -> (forall a, keeps_cache (k a)) -> keeps_cache (bind c k).
Proof.
  intros Hc Hk f w. unfold bind. specialize (Hc f w).
  destruct (c f w) as [[[a|e] f'] w']; cbn in Hc; [|exact Hc].
  by rewrite (Hk a f' w').
Qed.

Lemma keeps_on_client {A} (c : M FurSightClient A) : keeps_cache (on_client c).
Proof.
  intros f w. unfold on_client. by destruct (c (client f) w) as [[r c'] w'].
Qed.

Lemma keeps_modify (g : AdoptionForm -> AdoptionForm) :
  (forall f, _dropdown_values (g f) = _dropdown_values f) -> keeps_cache (modify g).
Proof. intros Hg f w. apply Hg. Qed.

Lemma keeps_split_by_prefix items : keeps_cache (split_by_prefix items).
Proof.
  induction items as [|[k v] rest IH]; [apply keeps_ret|].
  cbn [split_by_prefix]. apply keeps_bind; [|intros _; exact IH].
  destruct (String.prefix "adopter_" k); [by apply keeps_modify|].
  destruct (String.prefix "dog_" k); [by apply keeps_modify | apply keeps_ret].
Qed.

Lemma keeps_form_get_sample_data : keeps_cache (form_get_sample_data urljoin).
Proof.
  unfold form_get_sample_data. apply keeps_bind; [apply keeps_get_self|].
  intros self. destruct (unless_none (_sample_data self)); [apply keeps_ret|].
  apply keeps_bind; [apply keeps_on_client|]. intros v.
  apply keeps_bind; [by apply keeps_modify | intros _; apply keeps_ret].
Qed.

(** No method of the form changes the cached table. *)
Lemma invoke_keeps_cache i f w :
  _dropdown_values (fst (invoke urljoin PredictionResponse_init removed_method i f w))
  = _dropdown_values f.
Proof.
  destruct i; cbn [invoke ending fst].
  - rewrite get_dropdown_values_run.
    destruct (_dropdown_values f) eqn:E; cbn; exact E.
  - apply keeps_form_get_sample_data.
  - by apply keeps_modify.
  - by apply keeps_modify.
  - by apply keeps_modify.
  - by apply keeps_modify.
  - unfold load_sample_data.
    apply keeps_bind; [apply keeps_form_get_sample_data|].
    intros [|b|z|r|s|l|items]; try apply keeps_raise. apply keeps_split_by_prefix.
  - by rewrite validate_field_check.
  - by rewrite validate_run.
  - unfold submit. apply keeps_bind.
    + intros f' w'. by rewrite validate_run.
    + intros _. apply keeps_bind; [apply keeps_get_self|].
      intros self. apply keeps_on_client.
  - unfold generate_adopter_letter.
    apply keeps_bind; [apply keeps_get_self | intros self; apply keeps_on_client].
  - unfold generate_dog_profile.
    apply keeps_bind; [apply keeps_get_self | intros self; apply keeps_on_client].
  - by apply keeps_modify.
  - unfold to_dict. apply keeps_bind; [apply keeps_get_self | intros; apply keeps_ret].
  - unfold from_dict. apply keeps_bind; [by apply keeps_modify|].
    intros _. apply keeps_split_by_prefix.
Qed.

(** A form built through its methods never has a cached table. *)
Lemma reachable_without_table f :
  reachable urljoin PredictionResponse_init removed_method f -> _dropdown_values f = None.
Proof.
  induction 1 as [c|f i w _ IH]; [reflexivity|].
  by rewrite invoke_keeps_cache.
Qed.

(** On such a form, validation stops with [AttributeError] at the first
    field that holds a value. *)
Lemma reachable_validate_needs_table f w :
  reachable urljoin PredictionResponse_init removed_method f ->
  (exists k v, (k, v) ∈ (_adopter_data f ++ _dog_data f)%list /\ v <> PyNone) ->
  validate removed_method f w
  = (Raise (no_attribute "get_dropdown_values"), f, w).
Proof.
  intros Hreach (k & v & Hin & Hv).
  rewrite validate_run. f_equal. f_equal.
  unfold validate_result. rewrite (reachable_without_table f Hreach).
  assert (Hfail : forall items : dict, (exists k v, (k, v) ∈ items /\ v <> PyNone) ->
            check_items None items = Raise (no_attribute "get_dropdown_values")).
  { clear. induction items as [|[k v] rest IH]; intros (k' & v' & Hin & Hv).
    - by apply elem_of_nil in Hin.
    - cbn [check_items]. destruct (is_none v) eqn:Hn; [|reflexivity].
      apply IH. apply elem_of_cons in Hin as [[= -> ->]|Hin]; [|by eauto].
      by apply is_none_true in Hn. }
  assert (Hraise : forall (items : dict) e, check_items None items = Raise e ->
            e = no_attribute "get_dropdown_values").
  { clear. induction items as [|[k v] rest IH]; intros e; [discriminate|].
    cbn [check_items]. destruct (is_none v); [apply IH|]. by intros [= <-]. }
  apply elem_of_app in Hin as [Hin|Hin].
  - rewrite (Hfail (_adopter_data f)) by eauto. reflexivity.
  - rewrite (Hfail (_dog_data f)) by eauto.
    destruct (check_items None (_adopter_data f)) as [[]|e'] eqn:Ha; [reflexivity|].
    by rewrite (Hraise _ _ Ha).
Qed.

End Disabled.

(** C9 -- every call of a disabled-endpoint operation is rejected locally,
    before any network attempt.  On the client, looking up [predict_batch],
    [get_dropdown_values], [generate_adopter_letter] or
    [generate_dog_profile] raises the [AttributeError] that names the
    missing operation, whatever a method of that name would have done, and
    leaves client and world as they were, so nothing is dispatched.  On a
    form, [generate_adopter_letter] and [generate_dog_profile] end the same
    way on every form, and so does [get_dropdown_values] on every form
    built through the form's methods; form and world are unchanged. *)
Theorem disabled_operations_rejected urljoin PredictionResponse_init removed_method :
  (forall name A (found : M FurSightClient A) self w,
      name ∈ disabled_operations ->
      FurSightClient_getattr name found self w = (Raise (no_attribute name), self, w)
      /\ dispatches (new_events w (world_of (FurSightClient_getattr name found self w)))
         = 0%nat)
  /\ (forall f w,
        reachable urljoin PredictionResponse_init removed_method f ->
        get_dropdown_values removed_method f w
        = (Raise (no_attribute "get_dropdown_values"), f, w))
  /\ (forall f w,
        generate_adopter_letter removed_method f w
        = (Raise (no_attribute "generate_adopter_letter"), f, w))
  /\ (forall f w,
        generate_dog_profile removed_method f w
        = (Raise (no_attribute "generate_dog_profile"), f, w)).
Proof.
  split_and!.
  - intros name A found self w Hin.
    rewrite (getattr_undefined name found self w (disabled_not_defined name Hin)).
    split; [reflexivity|]. unfold new_events. cbn [world_of snd].
    by rewrite drop_all.
  - intros f w Hreach. rewrite get_dropdown_values_run.
    by rewrite (reachable_without_table urljoin PredictionResponse_init removed_method f Hreach).
  - intros f w. unfold generate_adopter_letter, bind, get_self.
    apply on_client_pure, getattr_undefined, disabled_not_defined.
    unfold disabled_operations. set_solver.
  - intros f w. unfold generate_dog_profile, bind, get_self.
    apply on_client_pure, getattr_undefined, disabled_not_defined.
    unfold disabled_operations. set_solver.
Qed.

Lemma disabled_operations_rejected_witness :
  FurSightClient_getattr "predict_batch" (ret PyNone) sample_client quiet_world
  = (Raise (Builtin AttributeError
              "'FurSightClient' object has no attribute 'predict_batch'"),
     sample_client, quiet_world)
  /\ get_dropdown_values absent_method
       (fst (invoke join_plain sample_init absent_method
               (call_set_dog_field "dog_size" (PyStr "Small"))
               (AdoptionForm_init sample_client) quiet_world))
       quiet_world
     = (Raise (Builtin AttributeError
                 "'FurSightClient' object has no attribute 'get_dropdown_values'"),
        fst (invoke join_plain sample_init absent_method
               (call_set_dog_field "dog_size" (PyStr "Small"))
               (AdoptionForm_init sample_client) quiet_world),
        quiet_world).
Proof.
  destruct (disabled_operations_rejected join_plain sample_init absent_method)
    as (Hclient & Hform & _).
  split.
  - apply (Hclient "predict_batch" pyval (ret PyNone) sample_client quiet_world).
    unfold disabled_operations. apply elem_of_cons. left. reflexivity.
  - apply Hform. apply reachable_call, reachable_init.
Defined.

(** ** The base-class failure is the transport failure *)

Lemma backoff_done d r : backoff d = Done r -> r = Raise sleep_error.
Proof. unfold backoff. destruct (Qltb d 0); [by intros [= <-] | discriminate]. Qed.

(** The last attempt of the budget always ends the call. *)
Lemma last_attempt_decides self attempt o :
  attempt = max_retries self - 1 -> exists r, verdict_of self attempt o = Done r.
Proof.
  intros ->. unfold verdict_of. rewrite Z.eqb_refl.
  destruct o as [response| |msg]; [|by eexists..].
  destruct (status_code response =? 429).
  - destruct (retry_after_hint response); by eexists.
  - destruct (negb (ok response)); [|by eexists].
    destruct (status_code response =? 400); [by eexists|].
    destruct (status_code response =? 401); [by eexists|].
    destruct (status_code response =? 402); by eexists.
Qed.

(** An attempt's verdict is a [FurSightError] of the base class only for a
    timeout or a transport error on the last attempt of the budget. *)
Lemma verdict_base_class self attempt o e :
  verdict_of self attempt o = Done (Raise e) -> class_of e = cFurSightError ->
  attempt = max_retries self - 1 /\ (o = TimedOut \/ exists msg, o = Failed msg).
Proof.
  unfold verdict_of. intros Hv Hc.
  destruct o as [response| |msg].
  - destruct (status_code response =? 429).
    + destruct (retry_after_hint response); [|injection Hv as <-; discriminate].
      destruct (attempt =? _); [injection Hv as <-; discriminate|].
      apply backoff_done in Hv. injection Hv as ->. discriminate.
    + destruct (negb (ok response)); [|discriminate].
      destruct (status_code response =? 400); [injection Hv as <-; discriminate|].
      destruct (status_code response =? 401); [injection Hv as <-; discriminate|].
      destruct (status_code response =? 402); injection Hv as <-; discriminate.
  - destruct (attempt =? max_retries self - 1) eqn:Hlast.
    + apply Z.eqb_eq in Hlast. eauto.
    + apply backoff_done in Hv. injection Hv as ->. discriminate.
  - destruct (attempt =? max_retries self - 1) eqn:Hlast.
    + apply Z.eqb_eq in Hlast. eauto.
    + apply backoff_done in Hv. injection Hv as ->. discriminate.
Qed.

Lemma retry_loop_base_class method url kw n :
  forall attempt self w e,
  attempt + Z.of_nat n = max_retries self -> (1 <= n)%nat ->
  outcome_of (retry_loop method url kw n attempt self w) = Raise e ->
  class_of e = cFurSightError ->
  exists k, (k < n)%nat
    /\ attempt + Z.of_nat k = max_retries self - 1
    /\ (attempt_outcome w k = TimedOut \/ exists msg, attempt_outcome w k = Failed msg).
Proof.
  induction n as [|n IH]; intros attempt self w e Hmax Hn Hrun Hc; [lia|].
  cbn [retry_loop] in Hrun. rewrite attempt_body_run in Hrun.
  destruct (verdict_of self attempt (attempt_outcome w 0)) as [r|d] eqn:Hv.
  - cbn in Hrun. subst r.
    destruct (verdict_base_class _ _ _ _ Hv Hc) as [Hlast Hkind].
    exists 0%nat. split_and!; [lia | lia | exact Hkind].
  - destruct n as [|n].
    + destruct (last_attempt_decides self attempt (attempt_outcome w 0)) as [r Hr];
        [lia | congruence].
    + destruct (IH (attempt + 1) self _ e ltac:(lia) ltac:(lia) Hrun Hc)
        as (k & Hk & Hlast & Hkind).
      rewrite attempt_outcome_next in Hkind.
      exists (S k). split_and!; [lia | lia | exact Hkind].
Qed.

(** With a budget of at least one attempt, a call that raises an error of
    class [FurSightError] itself has used up its budget on a timeout or a
    transport error: no other failure of the executor has that class. *)
Lemma base_class_only_for_transport urljoin method endpoint kw self w e :
  1 <= max_retries self ->
  outcome_of (_make_request urljoin method endpoint kw self w) = Raise e ->
  class_of e = cFurSightError ->
  attempt_outcome w (Z.to_nat (max_retries self) - 1) = TimedOut
  \/ exists msg, attempt_outcome w (Z.to_nat (max_retries self) - 1) = Failed msg.
Proof.
  intros Hmax Hrun Hc. rewrite make_request_run in Hrun.
  destruct (retry_loop_base_class method (urljoin (base_url self) endpoint) kw
              (Z.to_nat (max_retries self)) 0 (paced_client self w) (paced_world self w) e)
    as (k & Hk & Hlast & Hkind); try done; cbn; try lia.
  replace (Z.to_nat (max_retries self) - 1)%nat with k by (cbn in Hlast; lia).
  exact Hkind.
Qed.

(** * Further properties of the executor *)

(** ** Pacing *)



(** ** How a call ends *)

(** A run of the loop ends with the verdict of one of its attempts, all
    earlier attempts having slept and retried, or runs out of iterations. *)
Lemma retry_loop_ends method url kw n :
  forall attempt self w,
  (exists k, (k < n)%nat
     /\ verdict_of self (attempt + Z.of_nat k) (attempt_outcome w k)
        = Done (outcome_of (retry_loop method url kw n attempt self w))
     /\ sent (world_of (retry_loop method url kw n attempt self w)) = (sent w + S k)%nat)
  \/ (outcome_of (retry_loop method url kw n attempt self w)
      = Raise (FurSightError (PyStr "Max retries exceeded"))
      /\ sent (world_of (retry_loop method url kw n attempt self w)) = (sent w + n)%nat
      /\ forall i, (i < n)%nat ->
           exists d, verdict_of self (attempt + Z.of_nat i) (attempt_outcome w i) = Again d).
Proof.
  induction n as [|n IH]; intros attempt self w.
  - right. cbn. split_and!; [done | lia | intros i Hi; lia].
  - cbn [retry_loop]. rewrite attempt_body_run.
    destruct (verdict_of self attempt (attempt_outcome w 0)) as [r|d] eqn:Hv.
    + left. exists 0%nat. rewrite Z.add_0_r. split_and!; [lia | exact Hv | cbn; lia].
    + set (w1 := after_sleep d (after_dispatch (request_of self method url kw) w)).
      destruct (IH (attempt + 1) self w1) as [(k & Hk & Hdone & Hsent)|(Hout & Hsent & Hall)].
      * left. exists (S k). subst w1. rewrite attempt_outcome_next in Hdone.
        replace (attempt + Z.of_nat (S k)) with (attempt + 1 + Z.of_nat k) by lia.
        split_and!; [lia | exact Hdone |]. rewrite Hsent. cbn. lia.
      * right. split_and!; [exact Hout | rewrite Hsent; cbn; lia |].
        intros [|i] Hi.
        -- exists d. by rewrite Z.add_0_r.
        -- destruct (Hall i ltac:(lia)) as [d' Hd']. exists d'. subst w1.
           rewrite attempt_outcome_next in Hd'.
           by replace (attempt + Z.of_nat (S i)) with (attempt + 1 + Z.of_nat i) by lia.
Qed.


Lemma verdict_returns self attempt o response :
  verdict_of self attempt o = Done (Ok response) ->
  o = Responded response /\ status_code response <> 429 /\ ok response = true.
Proof.
  unfold verdict_of. intros Hv. destruct o as [r| |msg].
  - destruct (status_code r =? 429) eqn:H429.
    + destruct (retry_after_hint r); [|discriminate].
      destruct (attempt =? _); [discriminate|].
      apply backoff_done in Hv. discriminate.
    + destruct (ok r) eqn:Hok; cbn [negb] in Hv.
      * injection Hv as ->. apply Z.eqb_neq in H429. by split_and!.
      * destruct (status_code r =? 400); [discriminate|].
        destruct (status_code r =? 401); [discriminate|].
        destruct (status_code r =? 402); discriminate.
  - destruct (attempt =? _); [discriminate|].
    apply backoff_done in Hv. discriminate.
  - destruct (attempt =? _); [discriminate|].
    apply backoff_done in Hv. discriminate.
Qed.


(** The log of a call is the pacing step's log followed by the log of the
    loop, whose attempts are counted by [sent]. *)
Lemma make_request_log urljoin method endpoint kw self w :
  exists evs,
    new_events w (world_of (_make_request urljoin method endpoint kw self w))
    = (pacing_events self w ++ evs)%list
    /\ sent (world_of (_make_request urljoin method endpoint kw self w))
       = (sent w + dispatches evs)%nat
    /\ dispatches (new_events w (world_of (_make_request urljoin method endpoint kw self w)))
       = dispatches evs.
Proof.
  rewrite make_request_run.
  destruct (retry_loop_frame method (urljoin (base_url self) endpoint) kw
              (Z.to_nat (max_retries self)) 0 (paced_client self w) (paced_world self w))
    as (r & w' & evs & Hrun & Hlog & _ & Hsent & _ & _ & _).
  rewrite Hrun. cbn [world_of snd]. exists evs.
  assert (Hnew : new_events w w' = (pacing_events self w ++ evs)%list).
  { apply new_events_app. rewrite Hlog. cbn. by rewrite app_assoc. }
  rewrite Hnew, dispatches_app, pacing_dispatches. by split_and!.
Qed.

(** A call that returns a response returns the answer to the last attempt
    it dispatched, and that answer is neither a 429 nor a 400..599 status:
    no rate-limit or error answer is ever handed to the caller. *)
Theorem returned_response_is_ok urljoin method endpoint kw self w response :
  outcome_of (_make_request urljoin method endpoint kw self w) = Ok response ->
  status_code response <> 429
  /\ ~ (400 <= status_code response < 600)
  /\ exists k, (k < Z.to_nat (max_retries self))%nat
       /\ attempt_outcome w k = Responded response
       /\ dispatches (new_events w (world_of (_make_request urljoin method endpoint
                                                kw self w))) = S k.
Proof.
  intros Hok.
  destruct (make_request_log urljoin method endpoint kw self w)
    as (evs & _ & Hsent & Hdisp).
  rewrite Hdisp. clear Hdisp. rewrite make_request_run in Hok, Hsent.
  destruct (retry_loop_ends method (urljoin (base_url self) endpoint) kw
              (Z.to_nat (max_retries self)) 0 (paced_client self w) (paced_world self w))
    as [(k & Hk & Hdone & Hsent')|(Hout & _)]; [|congruence].
  rewrite Hok, Z.add_0_l in Hdone.
  apply verdict_returns in Hdone as (Hresp & H429 & Hokr).
  split_and!; [exact H429 | |].
  - unfold ok in Hokr. apply negb_true_iff, andb_false_iff in Hokr.
    intros [Hlo Hhi]. destruct Hokr as [H|H]; [apply Z.leb_gt in H | apply Z.ltb_ge in H]; lia.
  - exists k. split_and!; [exact Hk | exact Hresp |].
    rewrite Hsent' in Hsent. cbn in Hsent. lia.
Qed.

Lemma returned_response_is_ok_witness :
  attempt_outcome flaky_world 2
  = Responded {| status_code := 200; headers := []; body_json := None; text := "" |}
  /\ dispatches (new_events flaky_world
                   (world_of (_make_request join_plain "GET" "/health" no_kwargs
                                sample_client flaky_world))) = 3%nat.
Proof.
  destruct (returned_response_is_ok join_plain "GET" "/health" no_kwargs sample_client
              flaky_world
              {| status_code := 200; headers := []; body_json := None; text := "" |})
    as (_ & _ & k & Hk & Hresp & Hdisp).
  - vm_compute. reflexivity.
  - split; [reflexivity|].
    assert (k = 2%nat) as ->; [|exact Hdisp].
    change (Z.to_nat (max_retries sample_client)) with 3%nat in Hk.
    destruct k as [|[|[|k]]]; [discriminate Hresp | discriminate Hresp | reflexivity | lia].
Defined.





(** Transient trouble, then an answer.  When each of the first [k] attempts
    is either answered 429 with a [Retry-After] that is absent or an
    integer from 0 to [max_sleep_seconds], or ends in a timeout or
    transport error, and attempt [k], still within the budget, is answered
    with a status that is neither 429 nor in 400..599, the call returns
    that answer after exactly [k + 1] attempts, having slept the
    [Retry-After] value after each 429 and [2^i] seconds after each failed
    attempt [i].  The waits are to be ones [time.sleep] takes: the pacing
    wait, the [Retry-After] values by their bound, and the back-offs by
    coming after an attempt up to the 33rd. *)
Theorem transient_failures_then_answer urljoin method endpoint kw self w k delay response :
  (k < Z.to_nat (max_retries self))%nat ->
  within_sleep_range (pacing_events self w) = true ->
  (forall i, (i < k)%nat ->
     (exists r z, attempt_outcome w i = Responded r /\ status_code r = 429
                  /\ retry_after_hint r = Some z /\ 0 <= z <= max_sleep_seconds
                  /\ delay i = inject_Z z)
     \/ ((attempt_outcome w i = TimedOut \/ exists msg, attempt_outcome w i = Failed msg)
         /\ (i <= 33)%nat
         /\ delay i = inject_Z (2 ^ Z.of_nat i))) ->
  attempt_outcome w k = Responded response ->
  status_code response <> 429 ->
  ~ (400 <= status_code response < 600) ->
  outcome_of (_make_request urljoin method endpoint kw self w) = Ok response
  /\ sleeps (new_events w (world_of (_make_request urljoin method endpoint kw self w)))
     = (sleeps (pacing_events self w) ++ map delay (seq 0 k))%list
  /\ within_sleep_range
       (new_events w (world_of (_make_request urljoin method endpoint kw self w))) = true
  /\ dispatches (new_events w (world_of (_make_request urljoin method endpoint kw self w)))
     = S k.
Proof.
  intros Hk Hpace Hretry Hresp H429 Hrange.
  destruct (make_request_stops urljoin method endpoint kw self w delay (Ok response) k Hk)
    as [Hout Hev].
  - intros i Hi. unfold verdict_of.
    rewrite (proj2 (Z.eqb_neq _ _)) by lia.
    destruct (Hretry i Hi) as [(r & z & -> & Hs & Hh & Hz & ->)|[[-> | [msg ->]] [_ ->]]].
    + rewrite Hs, Hh. cbn. apply backoff_not_negative. lia.
    + apply pow2_backoff.
    + apply pow2_backoff.
  - rewrite Hresp. unfold verdict_of. rewrite (proj2 (Z.eqb_neq _ _) H429).
    assert (ok response = true) as ->; [|reflexivity].
    unfold ok. apply negb_true_iff, andb_false_iff.
    destruct (400 <=? status_code response) eqn:Hlo; [right | by left].
    apply Z.leb_le in Hlo. apply Z.ltb_ge. lia.
  - rewrite Hout, Hev. split_and!; [reflexivity | | |].
    + by rewrite sleeps_app, sleeps_retry_trace.
    + rewrite within_sleep_range_app, Hpace. apply within_sleep_range_trace.
      intros i Hi.
      destruct (Hretry i ltac:(lia)) as [(r & z & _ & _ & _ & Hz & ->)|[_ [Hi' ->]]].
      * apply sleepable_seconds. lia.
      * by apply pow2_sleepable.
    + by rewrite dispatches_app, pacing_dispatches, dispatches_retry_trace.
Qed.

Lemma transient_failures_then_answer_witness :
  outcome_of (_make_request join_plain "GET" "/health" no_kwargs sample_client
                throttled_world)
  = Ok {| status_code := 200; headers := []; body_json := None; text := "" |}
  /\ sleeps (new_events throttled_world
               (world_of (_make_request join_plain "GET" "/health" no_kwargs
                            sample_client throttled_world)))
     = (sleeps (pacing_events sample_client throttled_world)
        ++ map (fun _ => inject_Z 5) (seq 0 2))%list.
Proof.
  destruct (transient_failures_then_answer join_plain "GET" "/health" no_kwargs
              sample_client throttled_world 2%nat (fun _ => inject_Z 5)
              {| status_code := 200; headers := []; body_json := None; text := "" |})
    as (Hout & Hsleeps & _).
  - vm_compute. lia.
  - reflexivity.
  - intros i Hi. left.
    exists {| status_code := 429; headers := [("Retry-After", "5")];
              body_json := None; text := "" |}, 5.
    destruct i as [|[|i]]; [| |lia]; split_and!; try reflexivity; by vm_compute.
  - reflexivity.
  - discriminate.
  - cbn. lia.
  - split; [exact Hout | exact Hsleeps].
Defined.

Lemma persistent_rate_limit_witness :
  outcome_of (_make_request join_plain "GET" "/health" no_kwargs sample_client
                (rate_limited "5"))
  = Raise (RateLimitError (PyStr "Rate limit exceeded. Retry after 5 seconds.") None).
Proof.
  refine (proj1 (persistent_rate_limit join_plain "GET" "/health" no_kwargs sample_client
                   (rate_limited "5") 3%nat (fun _ => 5) eq_refl _ _ _)).
  - lia.
  - reflexivity.
  - intros i Hi.
    exists {| status_code := 429; headers := [("Retry-After", "5")];
              body_json := None; text := "" |}.
    split_and!; try reflexivity. intros _. by vm_compute.
Defined.

Lemma base_class_only_for_transport_witness :
  attempt_outcome dead_world (Z.to_nat (max_retries sample_client) - 1) = TimedOut
  \/ exists msg,
       attempt_outcome dead_world (Z.to_nat (max_retries sample_client) - 1) = Failed msg.
Proof.
  apply (base_class_only_for_transport join_plain "GET" "/health" no_kwargs sample_client
           dead_world (FurSightError (PyStr "Request timeout after 30 seconds"))).
  - change (1 <= 3). lia.
  - vm_compute. reflexivity.
  - reflexivity.
Defined.

(** ** The constructor and the requests it leads to *)

Lemma rstrip_slash_unchanged s :
  last_char s <> Some "/"%char -> rstrip_slash s = s.
Proof.
  induction s as [|c s IH]; [reflexivity|].
  cbn [rstrip_slash last_char]. destruct s as [|c' s'].
  - cbn. intros Hc. destruct (Ascii.eqb_spec c "/"); congruence.
  - intros Hlast. rewrite (IH Hlast). reflexivity.
Qed.

(** The constructor stores the base URL without its trailing slashes:
    the stored text followed by some number of slashes is the argument, the
    stored text does not end in a slash, and stripping is idempotent. *)
Theorem base_url_loses_trailing_slashes api_key url timeout retries :
  (exists n,
      url = base_url (FurSightClient_init api_key url timeout retries) ++ slashes n)
  /\ last_char (base_url (FurSightClient_init api_key url timeout retries))
     <> Some "/"%char
  /\ base_url (FurSightClient_init api_key
                 (base_url (FurSightClient_init api_key url timeout retries))
                 timeout retries)
     = base_url (FurSightClient_init api_key url timeout retries).
Proof.
  cbn [base_url FurSightClient_init].
  assert (Hlast : forall s, last_char (rstrip_slash s) <> Some "/"%char).
  { induction s as [|c s IH]; [discriminate|].
    cbn [rstrip_slash]. destruct (rstrip_slash s) as [|c' t] eqn:Hr.
    - destruct (Ascii.eqb_spec c "/"); cbn; congruence.
    - exact IH. }
  split_and!.
  - induction url as [|c s [n IH]]; [by exists 0%nat|].
    cbn [rstrip_slash]. destruct (rstrip_slash s) as [|c' t] eqn:Hr.
    + destruct (Ascii.eqb_spec c "/") as [->|Hne].
      * exists (S n). cbn. by rewrite IH at 1.
      * exists n. cbn. by rewrite IH at 1.
    + exists n. cbn. by rewrite IH at 1.
  - apply Hlast.
  - apply rstrip_slash_unchanged, Hlast.
Qed.

(** Every attempt of a call made with a freshly constructed client sends
    the same request: the method and keyword arguments of the call, the URL
    joined from the stripped base URL and the endpoint, the client's
    timeout, and the bearer credential and JSON content type the
    constructor put on the session. *)
Theorem every_attempt_sends_the_same_request
    urljoin api_key url timeout retries method endpoint kw w req :
  EvRequest req ∈ new_events w
    (world_of (_make_request urljoin method endpoint kw
                 (FurSightClient_init api_key url timeout retries) w)) ->
  req_method req = method
  /\ req_url req = urljoin (rstrip_slash url) endpoint
  /\ req_timeout req = timeout
  /\ headers_get (req_headers req) "authorization" = Some ("Bearer " ++ api_key)
  /\ headers_get (req_headers req) "content-type" = Some "application/json"
  /\ req_kwargs req = kw.
Proof.
  intros Hin. apply make_request_requests in Hin. subst req.
  by split_and!.
Qed.

Lemma every_attempt_sends_the_same_request_witness :
  req_url sample_request = "https://api.fursight.ai/health"
  /\ headers_get (req_headers sample_request) "authorization" = Some "Bearer key".
Proof.
  destruct (every_attempt_sends_the_same_request join_plain "key" default_base_url
              default_timeout default_max_retries "GET" "/health" no_kwargs
              quiet_world sample_request)
    as (_ & Hurl & _ & Hauth & _).
  - replace (new_events quiet_world
               (world_of (_make_request join_plain "GET" "/health" no_kwargs
                            (FurSightClient_init "key" default_base_url default_timeout
                               default_max_retries) quiet_world)))
      with [EvMarker 5; EvRequest sample_request] by (vm_compute; reflexivity).
    apply list_elem_of_further, list_elem_of_here.
  - split; [exact Hurl | exact Hauth].
Defined.

(** * Further properties of the form *)

(** ** Dictionaries *)

Lemma dict_set_keys (d : dict) k v :
  (dict_set d k v).*1 = if bool_decide (k ∈ d.*1) then d.*1 else (d.*1 ++ [k])%list.
Proof.
  induction d as [|[k' v'] d IH]; [reflexivity|].
  cbn [dict_set]. destruct (String.eqb_spec k k') as [->|Hne].
  - cbn. rewrite bool_decide_eq_true_2; [reflexivity | by left].
  - cbn. rewrite IH. destruct (bool_decide (k ∈ d.*1)) eqn:Hin.
    + apply bool_decide_eq_true in Hin.
      rewrite bool_decide_eq_true_2; [reflexivity | by right].
    + apply bool_decide_eq_false in Hin.
      rewrite bool_decide_eq_false_2; [reflexivity|].
      intros [?|?]%elem_of_cons; congruence.
Qed.

Lemma dict_set_valid (d : dict) k v : valid_dict d -> valid_dict (dict_set d k v).
Proof.
  unfold valid_dict. rewrite dict_set_keys. intros Hd.
  destruct (bool_decide (k ∈ d.*1)) eqn:Hin; [exact Hd|].
  apply bool_decide_eq_false in Hin.
  apply NoDup_app. split_and!; [exact Hd | | apply NoDup_singleton].
  intros x Hx ->%list_elem_of_singleton. contradiction.
Qed.

Lemma dict_update_valid (other d : dict) : valid_dict d -> valid_dict (dict_update d other).
Proof.
  unfold dict_update. revert d.
  induction other as [|[k v] other IH]; intros d Hd; [exact Hd|].
  cbn. apply IH. by apply dict_set_valid.
Qed.

Lemma dict_update_cons (d other : dict) k v :
  dict_update d ((k, v) :: other) = dict_update (dict_set d k v) other.
Proof. reflexivity. Qed.

Lemma filter_keys_sub (p : string * pyval -> bool) (d : dict) :
  forall k, k ∈ (List.filter p d).*1 -> k ∈ d.*1.
Proof.
  induction d as [|[k' v'] d IH]; intros k; [done|].
  cbn. destruct (p (k', v')); cbn; rewrite ?elem_of_cons; intros H.
  - destruct H as [->|H]; [by left | right; by apply IH].
  - right. by apply IH.
Qed.

Lemma filter_valid (p : string * pyval -> bool) (d : dict) :
  valid_dict d -> valid_dict (List.filter p d).
Proof.
  unfold valid_dict. induction d as [|[k v] d IH]; [done|].
  cbn. intros [Hk Hd]%NoDup_cons. destruct (p (k, v)); [|by apply IH].
  cbn. apply NoDup_cons. split; [|by apply IH].
  intros Hin. by apply filter_keys_sub in Hin.
Qed.

(** Lookup in the entries a key predicate selects. *)
Lemma dict_get_filter (p : string -> bool) (d : dict) k :
  dict_get (List.filter (fun kv => p (fst kv)) d) k
  = if p k then dict_get d k else None.
Proof.
  induction d as [|[k' v'] d IH]; [by destruct (p k)|].
  cbn. destruct (p k') eqn:Hp; cbn.
  - destruct (String.eqb_spec k k') as [->|Hne]; [by rewrite Hp | exact IH].
  - rewrite IH. destruct (String.eqb_spec k k') as [->|Hne]; [by rewrite Hp | reflexivity].
Qed.

Lemma prefixes_exclusive k :
  String.prefix "adopter_" k = true -> String.prefix "dog_" k = false.
Proof.
  destruct k as [|c k]; [discriminate|].
  change (String.prefix "adopter_" (String c k))
    with (if Ascii.ascii_dec "a" c then String.prefix "dopter_" k else false).
  change (String.prefix "dog_" (String c k))
    with (if Ascii.ascii_dec "d" c then String.prefix "og_" k else false).
  destruct (Ascii.ascii_dec "a" c) as [<-|Ha]; [intros _|discriminate].
  destruct (Ascii.ascii_dec "d" "a") as [E|_]; [discriminate E | reflexivity].
Qed.

(** ** Setting fields *)

(** [set_adopter_field] and [set_dog_field] never fail, do no validation
    and touch no network; afterwards the field reads back the value, every
    other field of the partition reads as before, an existing field keeps
    its place while a new one goes last, and the other partition, the
    caches and the client are unchanged.  A well-formed partition stays
    well-formed. *)
Theorem set_field_stores_value k v f w :
  set_adopter_field k v f w
  = (Ok tt, with_adopter_data f (dict_set (_adopter_data f) k v), w)
  /\ set_dog_field k v f w = (Ok tt, with_dog_data f (dict_set (_dog_data f) k v), w)
  /\ (forall (d : dict) k',
        dict_get (dict_set d k v) k' = if String.eqb k' k then Some v else dict_get d k')
  /\ (forall d : dict,
        (dict_set d k v).*1
        = if bool_decide (k ∈ d.*1) then d.*1 else (d.*1 ++ [k])%list)
  /\ (forall d : dict, valid_dict d -> valid_dict (dict_set d k v)).
Proof.
  split_and!; [reflexivity | reflexivity | | |].
  - intros d k'. apply dict_get_set.
  - intros d. apply dict_set_keys.
  - intros d. apply dict_set_valid.
Qed.

Lemma set_field_stores_value_witness :
  valid_dict (dict_set [("dog_size", PyStr "Small")] "dog_size" (PyStr "Large")).
Proof.
  refine (proj2 (proj2 (proj2 (proj2
            (set_field_stores_value "dog_size" (PyStr "Large")
               (AdoptionForm_init sample_client) quiet_world))))
            [("dog_size", PyStr "Small")] _).
  unfold valid_dict. cbn. apply NoDup_singleton.
Defined.

(** ** Loading from a flat record *)

(** The loop of [load_sample_data] and [from_dict] never fails and touches
    no network; it updates the adopter partition with the entries named
    [adopter_...], in order, and the dog partition with those named
    [dog_...]. *)
Lemma split_by_prefix_run items :
  forall f w,
  split_by_prefix items f w
  = (Ok tt,
     with_dog_data
       (with_adopter_data f (dict_update (_adopter_data f) (adopter_entries items)))
       (dict_update (_dog_data f) (dog_entries items)),
     w).
Proof.
  induction items as [|[k v] rest IH]; intros f w.
  - destruct f; reflexivity.
  - cbn [split_by_prefix]. unfold bind at 1.
    unfold adopter_entries, dog_entries, has_adopter_prefix, has_dog_prefix in *.
    cbn [List.filter fst].
    destruct (String.prefix "adopter_" k) eqn:Ha.
    + cbn [set_adopter_field modify negb andb]. rewrite IH. reflexivity.
    + destruct (String.prefix "dog_" k) eqn:Hd.
      * cbn [set_dog_field modify negb andb]. rewrite IH. reflexivity.
      * cbn [ret negb andb]. apply IH.
Qed.

Lemma dict_get_adopter_entries (items : dict) k :
  dict_get (adopter_entries items) k
  = if String.prefix "adopter_" k then dict_get items k else None.
Proof. apply (dict_get_filter (String.prefix "adopter_")). Qed.

Lemma dict_get_dog_entries (items : dict) k :
  dict_get (dog_entries items) k
  = if String.prefix "dog_" k then dict_get items k else None.
Proof.
  unfold dog_entries, has_adopter_prefix, has_dog_prefix.
  rewrite (dict_get_filter
             (fun k => negb (String.prefix "adopter_" k) && String.prefix "dog_" k)).
  destruct (String.prefix "adopter_" k) eqn:Ha; [|reflexivity].
  by rewrite (prefixes_exclusive k Ha).
Qed.

(** [from_dict] replaces the form's data by the record's entries, split by
    name: the adopter partition holds exactly the entries named
    [adopter_...], the dog partition exactly those named [dog_...], and every
    other entry is dropped; what the form held before is gone.  It never
    fails, touches no network, and leaves the caches and the client alone. *)
Theorem from_dict_splits_by_prefix (data : dict) f w :
  valid_dict data ->
  outcome_of (from_dict data f w) = Ok tt
  /\ world_of (from_dict data f w) = w
  /\ (forall k, dict_get (_adopter_data (self_of (from_dict data f w))) k
                = if String.prefix "adopter_" k then dict_get data k else None)
  /\ (forall k, dict_get (_dog_data (self_of (from_dict data f w))) k
                = if String.prefix "dog_" k then dict_get data k else None)
  /\ valid_dict (_adopter_data (self_of (from_dict data f w)))
  /\ valid_dict (_dog_data (self_of (from_dict data f w)))
  /\ client (self_of (from_dict data f w)) = client f
  /\ _dropdown_values (self_of (from_dict data f w)) = _dropdown_values f
  /\ _sample_data (self_of (from_dict data f w)) = _sample_data f.
Proof.
  intros Hvalid. unfold from_dict, bind, clear, modify.
  rewrite split_by_prefix_run. cbn.
  split_and!; try reflexivity.
  - intros k. rewrite dict_get_update by by apply filter_valid.
    rewrite dict_get_adopter_entries. by destruct (String.prefix _ k), (dict_get data k).
  - intros k. rewrite dict_get_update by by apply filter_valid.
    rewrite dict_get_dog_entries. by destruct (String.prefix _ k), (dict_get data k).
  - apply dict_update_valid. apply NoDup_nil_2.
  - apply dict_update_valid. apply NoDup_nil_2.
Qed.

Lemma from_dict_splits_by_prefix_witness :
  dict_get (_adopter_data (self_of (from_dict sample_record
                                      (sized_form None (PyStr "Small")) quiet_world)))
    "adopter_x" = Some (PyInt 1)
  /\ dict_get (_dog_data (self_of (from_dict sample_record
                                     (sized_form None (PyStr "Small")) quiet_world)))
       "dog_size" = None
  /\ dict_get (_dog_data (self_of (from_dict sample_record
                                     (sized_form None (PyStr "Small")) quiet_world)))
       "other_z" = None.
Proof.
  destruct (from_dict_splits_by_prefix sample_record (sized_form None (PyStr "Small"))
              quiet_world) as (_ & _ & Ha & Hd & _).
  - apply (bool_decide_unpack _). vm_compute. exact I.
  - split_and!; [apply (Ha "adopter_x") | apply (Hd "dog_size") | apply (Hd "other_z")].
Defined.

(** ** Merging without collisions, and round trips *)

Lemma dict_set_fresh (d : dict) k v : k ∉ d.*1 -> dict_set d k v = (d ++ [(k, v)])%list.
Proof.
  induction d as [|[k' v'] d IH]; [reflexivity|].
  cbn. intros [Hne Hnot]%not_elem_of_cons.
  rewrite (proj2 (String.eqb_neq _ _) Hne). by rewrite IH.
Qed.

Lemma dict_update_fresh (other : dict) :
  forall d : dict, NoDup ((d ++ other)%list).*1 -> dict_update d other = (d ++ other)%list.
Proof.
  induction other as [|[k v] other IH]; intros d Hnd.
  - unfold dict_update. cbn. by rewrite app_nil_r.
  - rewrite dict_update_cons.
    assert (Hfresh : k ∉ d.*1).
    { rewrite fmap_app in Hnd. apply NoDup_app in Hnd as (_ & Hdis & _).
      intros Hin. apply (Hdis k Hin). cbn. by left. }
    rewrite (dict_set_fresh d k v Hfresh).
    rewrite IH; [by rewrite <- app_assoc|]. by rewrite <- app_assoc.
Qed.

Lemma dict_merge_disjoint (a b : dict) :
  valid_dict a -> valid_dict b -> (forall k, k ∈ a.*1 -> k ∉ b.*1) ->
  dict_merge a b = (a ++ b)%list.
Proof.
  unfold valid_dict, dict_merge. intros Ha Hb Hdis.
  rewrite (dict_update_fresh a []) by exact Ha. cbn.
  apply dict_update_fresh. rewrite fmap_app. apply NoDup_app. by split_and!.
Qed.

(** When the two maps share no key, the merged record is the adopter map's
    entries followed by the dog map's entries, each in its own order: this
    is the order in which the record's keys are serialised. *)
Theorem disjoint_merge_is_concatenation (adopter dog : dict) :
  valid_dict adopter -> valid_dict dog ->
  (forall k, k ∈ adopter.*1 -> k ∉ dog.*1) ->
  prediction_data (AdopterDict adopter) (DogDict dog) = (adopter ++ dog)%list
  /\ valid_dict (prediction_data (AdopterDict adopter) (DogDict dog)).
Proof.
  intros Ha Hd Hdis. unfold prediction_data. cbn [adopter_as_dict dog_as_dict].
  rewrite (dict_merge_disjoint _ _ Ha Hd Hdis). split; [reflexivity|].
  unfold valid_dict in *. rewrite fmap_app. apply NoDup_app. by split_and!.
Qed.

Lemma disjoint_merge_is_concatenation_witness :
  prediction_data (AdopterDict [("adopter_has_kids", PyStr "No")])
    (DogDict [("dog_size", PyStr "Small")])
  = [("adopter_has_kids", PyStr "No"); ("dog_size", PyStr "Small")].
Proof.
  refine (proj1 (disjoint_merge_is_concatenation [("adopter_has_kids", PyStr "No")]
                   [("dog_size", PyStr "Small")] _ _ _)).
  - unfold valid_dict. cbn. apply NoDup_singleton.
  - unfold valid_dict. cbn. apply NoDup_singleton.
  - intros k Hk Hk'. cbn in Hk, Hk'.
    apply list_elem_of_singleton in Hk, Hk'. congruence.
Defined.

Lemma model_fields_distinct : NoDup (AdopterProfile_fields ++ DogProfile_fields).
Proof. apply (bool_decide_unpack _). vm_compute. exact I. Qed.

Lemma model_dump_keys fields value : (model_dump fields value).*1 = fields.
Proof.
  unfold model_dump. rewrite <- list_fmap_compose. apply list_fmap_id.
Qed.

(** Two profiles given as models never collide: the record sent is the dump
    of the adopter model followed by the dump of the dog model, that is, the
    122 declared fields in declaration order, each with the value its model
    holds. *)
Theorem model_record_has_every_field p q :
  prediction_data (AdopterModel p) (DogModel q)
  = (AdopterProfile_model_dump p ++ DogProfile_model_dump q)%list
  /\ (prediction_data (AdopterModel p) (DogModel q)).*1
     = (AdopterProfile_fields ++ DogProfile_fields)%list
  /\ length (prediction_data (AdopterModel p) (DogModel q)) = 122%nat
  /\ (forall k, k ∈ AdopterProfile_fields ->
        dict_get (prediction_data (AdopterModel p) (DogModel q)) k
        = Some (adopter_field p k))
  /\ (forall k, k ∈ DogProfile_fields ->
        dict_get (prediction_data (AdopterModel p) (DogModel q)) k
        = Some (dog_field q k)).
Proof.
  pose proof model_fields_distinct as Hnd.
  apply NoDup_app in Hnd as (HA & Hdis & HD).
  assert (Hva : valid_dict (AdopterProfile_model_dump p)) by by apply model_dump_valid.
  assert (Hvd : valid_dict (DogProfile_model_dump q)) by by apply model_dump_valid.
  assert (Hcat : prediction_data (AdopterModel p) (DogModel q)
                 = (AdopterProfile_model_dump p ++ DogProfile_model_dump q)%list).
  { unfold prediction_data. cbn [adopter_as_dict dog_as_dict].
    apply dict_merge_disjoint; [done | done |].
    unfold AdopterProfile_model_dump, DogProfile_model_dump.
    rewrite !model_dump_keys. exact Hdis. }
  split_and!.
  - exact Hcat.
  - rewrite Hcat, fmap_app.
    unfold AdopterProfile_model_dump, DogProfile_model_dump.
    by rewrite !model_dump_keys.
  - rewrite Hcat, length_app.
    unfold AdopterProfile_model_dump, DogProfile_model_dump, model_dump.
    rewrite !length_map. reflexivity.
  - intros k Hk. unfold prediction_data. rewrite dict_get_merge by done.
    cbn [adopter_as_dict dog_as_dict].
    rewrite (dict_get_absent (DogProfile_model_dump q) k).
    + by apply dict_get_model_dump.
    + unfold DogProfile_model_dump. rewrite model_dump_keys. by apply Hdis.
  - intros k Hk. unfold prediction_data. rewrite dict_get_merge by done.
    cbn [adopter_as_dict dog_as_dict].
    unfold DogProfile_model_dump. by rewrite (dict_get_model_dump _ _ _ Hk).
Qed.

Lemma model_record_has_every_field_witness :
  dict_get (prediction_data (AdopterModel unset_adopter) (DogModel unset_dog)) "dog_breed"
  = Some PyNone.
Proof.
  refine (proj2 (proj2 (proj2 (proj2
            (model_record_has_every_field unset_adopter unset_dog)))) "dog_breed" _).
  apply (bool_decide_unpack _). vm_compute. exact I.
Defined.

Lemma filter_all (p : string * pyval -> bool) (d : dict) :
  Forall (fun kv => p kv = true) d -> List.filter p d = d.
Proof.
  induction 1 as [|kv d Hkv _ IH]; [reflexivity|]. cbn. by rewrite Hkv, IH.
Qed.

Lemma filter_none (p : string * pyval -> bool) (d : dict) :
  Forall (fun kv => p kv = false) d -> List.filter p d = [].
Proof.
  induction 1 as [|kv d Hkv _ IH]; [reflexivity|]. cbn. by rewrite Hkv, IH.
Qed.

(** A form whose adopter fields are all named [adopter_...] and whose dog
    fields are all named [dog_...] survives the round trip through its flat
    record: [from_dict(to_dict())] ends with the very same form, with no
    error and no network access. *)
Theorem from_dict_restores_prefixed_form f w :
  valid_dict (_adopter_data f) -> valid_dict (_dog_data f) ->
  Forall (fun kv => has_adopter_prefix kv = true) (_adopter_data f) ->
  Forall (fun kv => has_dog_prefix kv = true) (_dog_data f) ->
  bind to_dict from_dict f w = (Ok tt, f, w).
Proof.
  intros Ha Hd Hpa Hpd.
  assert (Hnot : Forall (fun kv => has_adopter_prefix kv = false) (_dog_data f)).
  { eapply Forall_impl; [exact Hpd|]. intros [k v]. unfold has_adopter_prefix, has_dog_prefix.
    cbn. destruct (String.prefix "adopter_" k) eqn:E; [|done].
    by rewrite (prefixes_exclusive k E). }
  assert (Hmerge : dict_merge (_adopter_data f) (_dog_data f)
                   = (_adopter_data f ++ _dog_data f)%list).
  { apply dict_merge_disjoint; [done | done |].
    intros k Hk Hk'.
    apply list_elem_of_fmap in Hk as ([k1 v1] & -> & Hin1).
    apply list_elem_of_fmap in Hk' as ([k2 v2] & Heq & Hin2). cbn in Heq. subst k2.
    rewrite Forall_forall in Hpa, Hnot.
    specialize (Hpa _ Hin1). specialize (Hnot _ Hin2).
    unfold has_adopter_prefix in *. cbn in *. congruence. }
  rewrite (bind_ok to_dict from_dict f w
             (dict_merge (_adopter_data f) (_dog_data f)) f w eq_refl).
  unfold from_dict.
  rewrite (bind_ok clear _ f w tt (with_dog_data (with_adopter_data f []) []) w eq_refl).
  rewrite split_by_prefix_run, Hmerge.
  unfold adopter_entries, dog_entries. rewrite !List.filter_app.
  rewrite (filter_all has_adopter_prefix (_adopter_data f) Hpa).
  rewrite (filter_none has_adopter_prefix (_dog_data f) Hnot).
  rewrite (filter_none _ (_adopter_data f)).
  2:{ eapply Forall_impl; [exact Hpa|]. by intros kv ->. }
  rewrite (filter_all _ (_dog_data f)).
  2:{ rewrite Forall_forall in Hpd, Hnot. apply Forall_forall. intros kv Hin.
      by rewrite (Hnot kv Hin), (Hpd kv Hin). }
  rewrite app_nil_r. cbn [app _adopter_data _dog_data with_dog_data with_adopter_data].
  rewrite (dict_update_fresh (_adopter_data f) []) by exact Ha.
  rewrite (dict_update_fresh (_dog_data f) []) by exact Hd.
  cbn. by destruct f.
Qed.

Lemma from_dict_restores_prefixed_form_witness :
  bind to_dict from_dict (sized_form None (PyStr "Small")) quiet_world
  = (Ok tt, sized_form None (PyStr "Small"), quiet_world).
Proof.
  apply from_dict_restores_prefixed_form.
  - apply NoDup_nil_2.
  - unfold valid_dict. cbn. apply NoDup_singleton.
  - constructor.
  - repeat constructor.
Defined.

(** Loading a record and reading the form back keeps exactly the record's
    entries named [adopter_...] or [dog_...], with their values. *)
Theorem to_dict_after_from_dict (data : dict) f w :
  valid_dict data ->
  exists record,
    outcome_of (bind (from_dict data) (fun _ => to_dict) f w) = Ok record
    /\ forall k,
         dict_get record k
         = if (String.prefix "adopter_" k || String.prefix "dog_" k)%bool
           then dict_get data k else None.
Proof.
  intros Hvalid. unfold from_dict.
  unfold bind at 1.
  rewrite (bind_ok clear _ f w tt (with_dog_data (with_adopter_data f []) []) w eq_refl).
  rewrite split_by_prefix_run. unfold to_dict, bind, get_self, ret.
  cbn [outcome_of fst _adopter_data _dog_data with_dog_data with_adopter_data].
  eexists. split; [reflexivity|].
  intros k.
  rewrite dict_get_merge by (apply dict_update_valid, NoDup_nil_2).
  rewrite !dict_get_update by by apply filter_valid.
  rewrite dict_get_adopter_entries, dict_get_dog_entries. cbn.
  destruct (String.prefix "adopter_" k) eqn:Ha.
  - rewrite (prefixes_exclusive k Ha). cbn. by destruct (dict_get data k).
  - cbn. by destruct (String.prefix "dog_" k), (dict_get data k).
Qed.

Lemma to_dict_after_from_dict_witness :
  exists record,
    outcome_of (bind (from_dict sample_record) (fun _ => to_dict)
                  (AdoptionForm_init sample_client) quiet_world) = Ok record
    /\ dict_get record "other_z" = None
    /\ dict_get record "dog_y" = Some (PyInt 2).
Proof.
  destruct (to_dict_after_from_dict sample_record (AdoptionForm_init sample_client)
              quiet_world) as (record & Hrun & Hget).
  - apply (bool_decide_unpack _). vm_compute. exact I.
  - exists record. split_and!; [exact Hrun | apply (Hget "other_z") | apply (Hget "dog_y")].
Defined.

(** ** The cached sample data *)

Section SampleData.

Variable urljoin : string -> string -> string.

Lemma form_get_sample_data_run f w :
  form_get_sample_data urljoin f w =
  match unless_none (_sample_data f) with
  | Some v => (Ok v, f, w)
  | None =>
      match get_sample_data urljoin (client f) w with
      | (Ok v, c', w') => (Ok v, with_sample_data (with_client f c') (Some v), w')
      | (Raise e, c', w') => (Raise e, with_client f c', w')
      end
  end.
Proof.
  unfold form_get_sample_data, bind, get_self.
  destruct (unless_none (_sample_data f)) as [v|]; [reflexivity|].
  rewrite getattr_defined by (apply (bool_decide_unpack _); vm_compute; exact I).
  unfold on_client.
  by destruct (get_sample_data urljoin (client f) w) as [[[v|e] c'] w'].
Qed.

Lemma unless_none_some v : v <> PyNone -> unless_none (Some v) = Some v.
Proof. intros Hv. by destruct v. Qed.

(** The form fetches the sample data until it holds some.  With a sample
    other than [None] stored, the getter returns it without touching client
    or network.  With nothing or [None] stored, the getter asks the client:
    a successful fetch stores what it returns, and every later call is
    answered from the store unless the client returned [None], in which
    case the next call asks the client again; a failed fetch leaves the
    store as it was.  The partitions and the cached table are never
    touched. *)
Theorem sample_data_fetched_once f w :
  (forall v, _sample_data f = Some v -> v <> PyNone ->
     form_get_sample_data urljoin f w = (Ok v, f, w))
  /\ (forall v, unless_none (_sample_data f) = None ->
        outcome_of (form_get_sample_data urljoin f w) = Ok v ->
        _sample_data (self_of (form_get_sample_data urljoin f w)) = Some v
        /\ (v <> PyNone ->
            forall w2,
              form_get_sample_data urljoin (self_of (form_get_sample_data urljoin f w)) w2
              = (Ok v, self_of (form_get_sample_data urljoin f w), w2))
        /\ (v = PyNone ->
            forall w2,
              let f' := self_of (form_get_sample_data urljoin f w) in
              outcome_of (form_get_sample_data urljoin f' w2)
              = outcome_of (get_sample_data urljoin (client f') w2)
              /\ world_of (form_get_sample_data urljoin f' w2)
                 = world_of (get_sample_data urljoin (client f') w2)))
  /\ (forall e, unless_none (_sample_data f) = None ->
        outcome_of (form_get_sample_data urljoin f w) = Raise e ->
        _sample_data (self_of (form_get_sample_data urljoin f w)) = _sample_data f)
  /\ _adopter_data (self_of (form_get_sample_data urljoin f w)) = _adopter_data f
  /\ _dog_data (self_of (form_get_sample_data urljoin f w)) = _dog_data f
  /\ _dropdown_values (self_of (form_get_sample_data urljoin f w)) = _dropdown_values f.
Proof.
  split_and!.
  - intros v Hc Hv. by rewrite form_get_sample_data_run, Hc, unless_none_some.
  - intros v Hc. rewrite form_get_sample_data_run, Hc.
    destruct (get_sample_data urljoin (client f) w) as [[[v'|e] c'] w']; [|discriminate].
    cbn [outcome_of self_of fst snd]. intros [= ->]. split_and!; [reflexivity| |].
    + intros Hv w2. rewrite form_get_sample_data_run. cbn [_sample_data with_sample_data].
      by rewrite unless_none_some.
    + intros -> w2. cbn zeta. rewrite form_get_sample_data_run.
      cbn [_sample_data with_sample_data unless_none is_none client with_client].
      by destruct (get_sample_data urljoin c' w2) as [[[v'|e'] c''] w''].
  - intros e Hc. rewrite form_get_sample_data_run, Hc.
    destruct (get_sample_data urljoin (client f) w) as [[[v'|e'] c'] w']; [discriminate|].
    reflexivity.
  - rewrite form_get_sample_data_run.
    destruct (unless_none (_sample_data f)); [reflexivity|].
    by destruct (get_sample_data urljoin (client f) w) as [[[v'|e'] c'] w'].
  - rewrite form_get_sample_data_run.
    destruct (unless_none (_sample_data f)); [reflexivity|].
    by destruct (get_sample_data urljoin (client f) w) as [[[v'|e'] c'] w'].
  - rewrite form_get_sample_data_run.
    destruct (unless_none (_sample_data f)); [reflexivity|].
    by destruct (get_sample_data urljoin (client f) w) as [[[v'|e'] c'] w'].
Qed.

(** [load_sample_data] lays the sample's [adopter_...] and [dog_...] entries
    over what the form holds: with a dictionary stored as the sample it
    needs no network, a field named in the sample takes the sample's value,
    and a field the sample does not name keeps its value.  A stored sample
    that is neither [None] nor a dictionary raises the [AttributeError] that
    names its type and changes nothing. *)
Theorem load_sample_data_overlays f w :
  (forall items,
      _sample_data f = Some (PyDict items) -> valid_dict items ->
      outcome_of (load_sample_data urljoin f w) = Ok tt
      /\ world_of (load_sample_data urljoin f w) = w
      /\ (forall k,
            dict_get (_adopter_data (self_of (load_sample_data urljoin f w))) k
            = match (if String.prefix "adopter_" k then dict_get items k else None) with
              | Some v => Some v
              | None => dict_get (_adopter_data f) k
              end)
      /\ (forall k,
            dict_get (_dog_data (self_of (load_sample_data urljoin f w))) k
            = match (if String.prefix "dog_" k then dict_get items k else None) with
              | Some v => Some v
              | None => dict_get (_dog_data f) k
              end))
  /\ (forall v,
        _sample_data f = Some v -> v <> PyNone -> (forall items, v <> PyDict items) ->
        load_sample_data urljoin f w
        = (Raise (Builtin AttributeError
                    ("'" ++ type_name v ++ "' object has no attribute 'items'")), f, w)).
Proof.
  split.
  - intros items Hc Hvalid. unfold load_sample_data, bind.
    rewrite form_get_sample_data_run, Hc. cbn [unless_none is_none].
    rewrite split_by_prefix_run. cbn.
    split_and!; try reflexivity.
    + intros k. rewrite dict_get_update by by apply filter_valid.
      by rewrite dict_get_adopter_entries.
    + intros k. rewrite dict_get_update by by apply filter_valid.
      by rewrite dict_get_dog_entries.
  - intros v Hc Hv Hnot. unfold load_sample_data, bind.
    rewrite form_get_sample_data_run, Hc, unless_none_some by done.
    destruct v; try reflexivity. by destruct (Hnot d).
Qed.

End SampleData.

Lemma sample_data_fetched_once_witness :
  _sample_data (self_of (form_get_sample_data join_plain
                           (AdoptionForm_init sample_client) sample_world))
  = Some (PyDict sample_record).
Proof.
  refine (proj1 (proj1 (proj2 (sample_data_fetched_once join_plain
                                 (AdoptionForm_init sample_client) sample_world))
                   (PyDict sample_record) eq_refl _)).
  vm_compute. reflexivity.
Defined.

Lemma load_sample_data_overlays_witness :
  dict_get (_dog_data (self_of (load_sample_data join_plain
                                  (with_sample_data (sized_form None (PyStr "Small"))
                                     (Some (PyDict sample_record))) quiet_world)))
    "dog_size"
  = Some (PyStr "Small").
Proof.
  destruct (proj1 (load_sample_data_overlays join_plain
                     (with_sample_data (sized_form None (PyStr "Small"))
                        (Some (PyDict sample_record))) quiet_world)
              sample_record eq_refl) as (_ & _ & _ & Hd).
  - apply (bool_decide_unpack _). vm_compute. exact I.
  - apply (Hd "dog_size").
Defined.

(** ** Submission *)

Section Submit.

Variable urljoin : string -> string -> string.
Variable PredictionResponse_init : dict -> PredictionResponse + string.
Variable removed_method : forall A : Type, string -> list pyval -> M FurSightClient A.

Lemma submit_run include f w :
  submit urljoin PredictionResponse_init removed_method include f w =
  match validate_result f with
  | Raise e => (Raise e, f, w)
  | Ok _ =>
      on_client (predict_single urljoin PredictionResponse_init
                   (AdopterDict (_adopter_data f)) (DogDict (_dog_data f)) include) f w
  end.
Proof.
  unfold submit. unfold bind at 1. rewrite validate_run.
  destruct (validate_result f); [|reflexivity].
  unfold bind, get_self.
  by rewrite getattr_defined by (apply (bool_decide_unpack _); vm_compute; exact I).
Qed.

Lemma on_client_world {A} (c : M FurSightClient A) f w :
  world_of (on_client c f w) = world_of (c (client f) w)
  /\ outcome_of (on_client c f w) = outcome_of (c (client f) w).
Proof. unfold on_client. by destruct (c (client f) w) as [[r c'] w']. Qed.

(** [submit] validates first.  When [validate] raises, [submit] raises the
    same error and nothing else happens: no attempt is dispatched and the
    form is unchanged.  When [validate] passes, [submit] is the client's
    [predict_single] on the two partitions: every attempt is a POST whose
    JSON body is the adopter partition overlaid with the dog partition and
    whose query carries the [include_explanation] flag; the partitions and
    the caches are not changed by submitting. *)
Theorem submit_validates_first include f w :
  (forall e, outcome_of (validate removed_method f w) = Raise e ->
     submit urljoin PredictionResponse_init removed_method include f w = (Raise e, f, w))
  /\ (outcome_of (validate removed_method f w) = Ok true ->
      outcome_of (submit urljoin PredictionResponse_init removed_method include f w)
      = outcome_of (predict_single urljoin PredictionResponse_init
                      (AdopterDict (_adopter_data f))
                      (DogDict (_dog_data f)) include (client f) w)
      /\ forall req,
           EvRequest req ∈ new_events w (world_of (submit urljoin PredictionResponse_init
                                                     removed_method include f w)) ->
           req_method req = "POST"
           /\ kw_json (req_kwargs req)
              = Some (dict_merge (_adopter_data f) (_dog_data f))
           /\ kw_params (req_kwargs req)
              = Some [("include_explanation", PyBool include)])
  /\ _adopter_data (self_of (submit urljoin PredictionResponse_init removed_method
                               include f w))
     = _adopter_data f
  /\ _dog_data (self_of (submit urljoin PredictionResponse_init removed_method
                           include f w))
     = _dog_data f
  /\ _dropdown_values (self_of (submit urljoin PredictionResponse_init removed_method
                                  include f w))
     = _dropdown_values f
  /\ _sample_data (self_of (submit urljoin PredictionResponse_init removed_method
                              include f w))
     = _sample_data f.
Proof.
  rewrite submit_run, validate_run. cbn [outcome_of fst].
  split_and!.
  - by intros e ->.
  - intros ->.
    destruct (on_client_world (predict_single urljoin PredictionResponse_init
                                 (AdopterDict (_adopter_data f))
                                 (DogDict (_dog_data f)) include) f w) as [Hw Ho].
    split; [exact Ho|]. intros req. rewrite Hw, predict_single_world.
    intros Hin%make_request_requests. by subst req.
  - destruct (validate_result f); [|reflexivity].
    unfold on_client. by destruct (predict_single _ _ _ _ _ _ _) as [[r c'] w'].
  - destruct (validate_result f); [|reflexivity].
    unfold on_client. by destruct (predict_single _ _ _ _ _ _ _) as [[r c'] w'].
  - destruct (validate_result f); [|reflexivity].
    unfold on_client. by destruct (predict_single _ _ _ _ _ _ _) as [[r c'] w'].
  - destruct (validate_result f); [|reflexivity].
    unfold on_client. by destruct (predict_single _ _ _ _ _ _ _) as [[r c'] w'].
Qed.

Lemma check_items_without_table (items : dict) :
  (check_items None items = Ok tt /\ Forall (fun kv => snd kv = PyNone) items)
  \/ check_items None items = Raise (no_attribute "get_dropdown_values").
Proof.
  induction items as [|[k v] rest IH]; [left; by split|].
  cbn [check_items]. destruct (is_none v) eqn:Hn; [|by right].
  apply is_none_true in Hn. subst v.
  destruct IH as [[Hok Hall]|Hraise]; [left | by right].
  split; [exact Hok | by constructor].
Qed.

(** On a form built through its methods, [submit] reaches the network only
    when no field holds a value: if it dispatches an attempt, then some
    partition is non-empty and every field of both partitions is [None].
    In every other case it raises before any attempt. *)
Theorem reachable_submit_sends_only_null_fields include f w :
  reachable urljoin PredictionResponse_init removed_method f ->
  (1 <= dispatches (new_events w (world_of (submit urljoin PredictionResponse_init
                                              removed_method include f w))))%nat ->
  (_adopter_data f <> [] \/ _dog_data f <> [])
  /\ Forall (fun kv => snd kv = PyNone) (_adopter_data f ++ _dog_data f)%list.
Proof.
  intros Hreach. rewrite submit_run. unfold validate_result.
  rewrite (reachable_without_table urljoin PredictionResponse_init removed_method f Hreach).
  assert (Hidle : dispatches (new_events w w) = 0%nat).
  { unfold new_events. by rewrite drop_all. }
  destruct (check_items_without_table (_adopter_data f)) as [[-> Ha]| ->];
    [|cbn [world_of snd]; rewrite Hidle; lia].
  destruct (check_items_without_table (_dog_data f)) as [[-> Hd]| ->];
    [|cbn [world_of snd]; rewrite Hidle; lia].
  destruct (is_empty (_adopter_data f) && is_empty (_dog_data f))%bool eqn:He;
    [cbn [world_of snd]; rewrite Hidle; lia|].
  intros _. split; [|by apply Forall_app].
  apply andb_false_iff in He as [He|He]; [left | right]; intros Hnil;
    by rewrite Hnil in He.
Qed.

End Submit.

Lemma submit_validates_first_witness :
  submit join_plain sample_init absent_method true (AdoptionForm_init sample_client) quiet_world
  = (Raise (ValidationError (PyStr no_data_message)),
     AdoptionForm_init sample_client, quiet_world).
Proof.
  apply (submit_validates_first join_plain sample_init absent_method true
           (AdoptionForm_init sample_client) quiet_world).
  reflexivity.
Defined.

Lemma reachable_submit_sends_only_null_fields_witness :
  Forall (fun kv => snd kv = PyNone)
    (_adopter_data (fst (invoke join_plain sample_init absent_method
                           (call_set_dog_field "dog_size" PyNone)
                           (AdoptionForm_init sample_client) quiet_world))
     ++ _dog_data (fst (invoke join_plain sample_init absent_method
                          (call_set_dog_field "dog_size" PyNone)
                          (AdoptionForm_init sample_client) quiet_world)))%list.
Proof.
  refine (proj2 (reachable_submit_sends_only_null_fields join_plain sample_init
                   absent_method true
                   (fst (invoke join_plain sample_init absent_method
                           (call_set_dog_field "dog_size" PyNone)
                           (AdoptionForm_init sample_client) quiet_world))
                   quiet_world _ _)).
  - apply reachable_call, reachable_init.
  - vm_compute. lia.
Defined.

Lemma reachable_validate_needs_table_witness :
  validate absent_method
    (fst (invoke join_plain sample_init absent_method
            (call_set_dog_field "dog_size" (PyStr "Small"))
            (AdoptionForm_init sample_client) quiet_world))
    quiet_world
  = (Raise (no_attribute "get_dropdown_values"),
     fst (invoke join_plain sample_init absent_method
            (call_set_dog_field "dog_size" (PyStr "Small"))
            (AdoptionForm_init sample_client) quiet_world),
     quiet_world).
Proof.
  apply (reachable_validate_needs_table join_plain sample_init).
  - apply reachable_call, reachable_init.
  - exists "dog_size", (PyStr "Small"). split; [|discriminate].
    cbn. apply list_elem_of_here.
Defined.

(** ** Field listings *)

Lemma str_le_total : Total str_le.
Proof. intros a b. apply String.leb_total. Qed.

Lemma sorted_union_spec xs ys :
  Sorted str_le (sorted_union xs ys)
  /\ NoDup (sorted_union xs ys)
  /\ forall k, k ∈ sorted_union xs ys <-> k ∈ xs \/ k ∈ ys.
Proof.
  unfold sorted_union. split_and!.
  - apply (@Sorted_merge_sort _ str_le _ str_le_total).
  - rewrite merge_sort_Permutation. apply NoDup_remove_dups.
  - intros k. rewrite merge_sort_Permutation, elem_of_remove_dups. apply elem_of_app.
Qed.

Lemma elem_of_filter_prefix p (l : list string) k :
  k ∈ List.filter (String.prefix p) l <-> String.prefix p k = true /\ k ∈ l.
Proof. rewrite !list_elem_of_In, List.filter_In. tauto. Qed.

Section ListingFacts.

Variable urljoin : string -> string -> string.
Variable removed_method : forall A : Type, string -> list pyval -> M FurSightClient A.

Lemma get_all_fields_run f w :
  get_all_fields urljoin removed_method f w =
  match _dropdown_values f with
  | None => (Raise (no_attribute "get_dropdown_values"), f, w)
  | Some t =>
      match form_get_sample_data urljoin f w with
      | (Ok (PyDict d), f', w') => (Ok (sorted_union t.*1 d.*1), f', w')
      | (Ok v, f', w') =>
          (Raise (Builtin AttributeError
                    ("'" ++ type_name v ++ "' object has no attribute 'keys'")), f', w')
      | (Raise e, f', w') => (Raise e, f', w')
      end
  end.
Proof.
  unfold get_all_fields. unfold bind at 1. rewrite get_dropdown_values_run.
  destruct (_dropdown_values f) as [t|]; [|reflexivity].
  unfold bind. destruct (form_get_sample_data urljoin f w) as [[[v|e] f'] w'];
    [|reflexivity].
  by destruct v.
Qed.

(** The field listings.  On a form without a cached table, and so on every
    form built through the form's methods, [get_all_fields],
    [get_adopter_fields] and [get_dog_fields] raise [AttributeError] before
    anything is fetched.  With a table and dictionary sample data cached,
    they need no network: [get_all_fields] returns the names of the table
    and of the sample, each once, in ascending order; [get_adopter_fields]
    and [get_dog_fields] return those of them named [adopter_...] and
    [dog_...], and no name is in both. *)
Theorem field_listings f w :
  (_dropdown_values f = None ->
   get_all_fields urljoin removed_method f w
   = (Raise (no_attribute "get_dropdown_values"), f, w)
   /\ get_adopter_fields urljoin removed_method f w
      = (Raise (no_attribute "get_dropdown_values"), f, w)
   /\ get_dog_fields urljoin removed_method f w
      = (Raise (no_attribute "get_dropdown_values"), f, w))
  /\ (forall (t : table) (d : dict),
        _dropdown_values f = Some t -> _sample_data f = Some (PyDict d) ->
        exists all adopters dogs,
          get_all_fields urljoin removed_method f w = (Ok all, f, w)
          /\ get_adopter_fields urljoin removed_method f w = (Ok adopters, f, w)
          /\ get_dog_fields urljoin removed_method f w = (Ok dogs, f, w)
          /\ Sorted str_le all /\ NoDup all
          /\ (forall k, k ∈ all <-> k ∈ t.*1 \/ k ∈ d.*1)
          /\ (forall k, k ∈ adopters <-> String.prefix "adopter_" k = true /\ k ∈ all)
          /\ (forall k, k ∈ dogs <-> String.prefix "dog_" k = true /\ k ∈ all)
          /\ (forall k, k ∈ adopters -> k ∉ dogs)).
Proof.
  split.
  - intros Hc. unfold get_adopter_fields, get_dog_fields, bind.
    rewrite get_all_fields_run, Hc. by split_and!.
  - intros t d Hc Hs.
    assert (Hall : get_all_fields urljoin removed_method f w
                   = (Ok (sorted_union t.*1 d.*1), f, w)).
    { by rewrite get_all_fields_run, Hc, form_get_sample_data_run, Hs. }
    destruct (sorted_union_spec t.*1 d.*1) as (Hsorted & Hnd & Hin).
    exists (sorted_union t.*1 d.*1),
           (List.filter (String.prefix "adopter_") (sorted_union t.*1 d.*1)),
           (List.filter (String.prefix "dog_") (sorted_union t.*1 d.*1)).
    unfold get_adopter_fields, get_dog_fields, bind. rewrite Hall.
    split_and!; try done.
    + intros k. apply elem_of_filter_prefix.
    + intros k. apply elem_of_filter_prefix.
    + intros k [Ha _]%elem_of_filter_prefix [Hd _]%elem_of_filter_prefix.
      rewrite (prefixes_exclusive k Ha) in Hd. discriminate.
Qed.

End ListingFacts.

Lemma field_listings_witness :
  get_all_fields join_plain absent_method stocked_form quiet_world
  = (Ok ["adopter_x"; "dog_size"; "dog_y"; "other_z"], stocked_form, quiet_world)
  /\ get_dog_fields join_plain absent_method (AdoptionForm_init sample_client) quiet_world
     = (Raise (no_attribute "get_dropdown_values"), AdoptionForm_init sample_client,
        quiet_world).
Proof.
  split.
  - destruct (proj2 (field_listings join_plain absent_method stocked_form quiet_world)
                size_table sample_record eq_refl eq_refl)
      as (all & adopters & dogs & Hall & _).
    rewrite Hall. f_equal. f_equal.
    assert (Hrun : get_all_fields join_plain absent_method stocked_form quiet_world
                   = (Ok ["adopter_x"; "dog_size"; "dog_y"; "other_z"], stocked_form,
                      quiet_world)) by (vm_compute; reflexivity).
    rewrite Hrun in Hall. by injection Hall as <-.
  - apply (proj1 (field_listings join_plain absent_method
                    (AdoptionForm_init sample_client) quiet_world)). reflexivity.
Defined.

(** * Further properties of the errors *)

(** ** The class hierarchy *)

(** [issubclass] is a partial order on the exception classes.  Every class
    of the SDK is a subclass of [FurSightError], so [except FurSightError]
    catches every SDK error; [except APIError] catches the rate-limit,
    authentication and credit errors and no validation error.  The SDK's
    classes and the others are apart: no error of Python or a library is
    caught by a handler for an SDK class, and no SDK error by a handler for
    one of those classes; among those, [except ValueError] also catches
    [JSONDecodeError] and pydantic's [ValidationError]. *)
Theorem exception_hierarchy :
  (forall c, issubclass c c = true)
  /\ (forall a b c, issubclass a b = true -> issubclass b c = true ->
        issubclass a c = true)
  /\ (forall a b, issubclass a b = true -> issubclass b a = true -> a = b)
  /\ (forall c, (forall k, c <> cBuiltin k) -> issubclass c cFurSightError = true)
  /\ (forall c, issubclass c cAPIError = true <->
        c = cAPIError \/ c = cRateLimitError \/ c = cAuthenticationError
        \/ c = cInsufficientCreditsError)
  /\ (forall k c, issubclass (cBuiltin k) c = true <->
        c = cBuiltin k
        \/ ((k = JSONDecodeError \/ k = PydanticValidationError)
            /\ c = cBuiltin ValueError))
  /\ (forall c k, issubclass c (cBuiltin k) = true -> exists k', c = cBuiltin k').
Proof.
  split_and!.
  - intros c. unfold issubclass. by rewrite bool_decide_eq_true_2.
  - intros [| | | | | |[]] [| | | | | |[]] [| | | | | |[]]; vm_compute; congruence.
  - intros [| | | | | |[]] [| | | | | |[]]; vm_compute; congruence.
  - intros [| | | | | |k] Hc; try reflexivity. by destruct (Hc k).
  - intros [| | | | | |[]]; vm_compute; split; intros H;
      repeat (destruct H as [H|H]); try congruence; tauto.
  - intros [] [| | | | | |[]]; vm_compute; split; intros H;
      try congruence; try tauto;
      destruct H as [H|[[H|H] H']]; congruence.
  - intros [| | | | | |k'] k; try (vm_compute; congruence). by exists k'.
Qed.

Lemma exception_hierarchy_witness :
  issubclass cRateLimitError cFurSightError = true.
Proof.
  refine (proj1 (proj2 exception_hierarchy) cRateLimitError cAPIError cFurSightError _ _);
    reflexivity.
Defined.

(** ** What the executor's errors hold *)

(** The shape of every exception the executor constructs. *)
Lemma verdict_raise_shape self attempt o e :
  verdict_of self attempt o = Done (Raise e) ->
  match e with
  | AuthenticationError _ | InsufficientCreditsError _ => False
  | APIError _ sc => sc = None
  | RateLimitError _ ra => ra = None
  | Builtin k _ => k = ValueError
  | _ => True
  end.
Proof.
  unfold verdict_of. intros Hv. destruct o as [r| |msg].
  - destruct (status_code r =? 429).
    + destruct (retry_after_hint r); [|by injection Hv as <-].
      destruct (attempt =? _); [by injection Hv as <-|].
      apply backoff_done in Hv. by injection Hv as ->.
    + destruct (negb (ok r)); [|discriminate].
      destruct (status_code r =? 400); [by injection Hv as <-|].
      destruct (status_code r =? 401); [by injection Hv as <-|].
      destruct (status_code r =? 402); by injection Hv as <-.
  - destruct (attempt =? _); [by injection Hv as <-|].
    apply backoff_done in Hv. by injection Hv as ->.
  - destruct (attempt =? _); [by injection Hv as <-|].
    apply backoff_done in Hv. by injection Hv as ->.
Qed.

Lemma make_request_raise_shape urljoin method endpoint kw self w e :
  outcome_of (_make_request urljoin method endpoint kw self w) = Raise e ->
  match e with
  | AuthenticationError _ | InsufficientCreditsError _ => False
  | APIError _ sc => sc = None
  | RateLimitError _ ra => ra = None
  | Builtin k _ => k = ValueError
  | _ => True
  end.
Proof.
  intros Hraise. rewrite make_request_run in Hraise.
  destruct (retry_loop_ends method (urljoin (base_url self) endpoint) kw
              (Z.to_nat (max_retries self)) 0 (paced_client self w) (paced_world self w))
    as [(k & _ & Hdone & _)|(Hout & _)].
  - rewrite Hraise in Hdone. exact (verdict_raise_shape _ _ _ _ Hdone).
  - rewrite Hraise in Hout. by injection Hout as ->.
Qed.

(** Whatever the network does, the executor never raises an
    [AuthenticationError] or an [InsufficientCreditsError], the [APIError]s
    it raises have no [status_code], and the [RateLimitError]s it raises
    have no [retry_after], their [status_code] being the class's 429. *)
Theorem executor_errors_hold_no_attributes urljoin method endpoint kw self w e :
  outcome_of (_make_request urljoin method endpoint kw self w) = Raise e ->
  class_of e <> cAuthenticationError
  /\ class_of e <> cInsufficientCreditsError
  /\ (class_of e = cAPIError -> exn_status_code e = Some None)
  /\ (class_of e = cRateLimitError ->
      exn_retry_after e = Some None /\ exn_status_code e = Some (Some 429)).
Proof.
  intros Hshape%make_request_raise_shape.
  destruct e; cbn in *; split_and!; try done; try (by intros _; subst); intros [=].
Qed.

Lemma executor_errors_hold_no_attributes_witness :
  exn_status_code (APIError (PyStr "Invalid API key") None) = Some None.
Proof.
  refine (proj1 (proj2 (proj2 (executor_errors_hold_no_attributes join_plain "GET"
                                 "/health" no_kwargs sample_client (answering 401)
                                 (APIError (PyStr "Invalid API key") None) _))) eq_refl).
  vm_compute. reflexivity.
Defined.

(** ** What the client's methods let out *)

Lemma response_json_run {S} response (s : S) w :
  response_json response s w
  = (match body_json response with
     | Some v => Ok v
     | None => Raise (Builtin JSONDecodeError "Expecting value")
     end, s, w).
Proof. unfold response_json. by destruct (body_json response). Qed.

(** A method that parses the body of its answer: what it raises. *)
Lemma parsed_request_raises urljoin method endpoint kw self w e :
  outcome_of (bind (_make_request urljoin method endpoint kw) response_json self w)
  = Raise e ->
  isinstance e cFurSightError = true \/ isinstance e (cBuiltin ValueError) = true.
Proof.
  unfold bind.
  destruct (_make_request urljoin method endpoint kw self w) as [[[response|e'] s'] w']
    eqn:Hrun.
  - rewrite response_json_run. destruct (body_json response); [discriminate|].
    intros [= <-]. by right.
  - intros [= <-].
    assert (Hraise : outcome_of (_make_request urljoin method endpoint kw self w)
                     = Raise e') by by rewrite Hrun.
    apply make_request_raise_shape in Hraise.
    destruct e' as [| | | | | |k m]; try done; try by left.
    subst k. by right.
Qed.

(** What runs after the body is parsed adds to what a method raises. *)
Lemma parsed_then_raises {A} urljoin method endpoint kw (k : pyval -> M FurSightClient A)
    (allowed : exn -> Prop) self w e :
  (forall v s' w' e', outcome_of (k v s' w') = Raise e' -> allowed e') ->
  outcome_of (bind (_make_request urljoin method endpoint kw)
                (fun response => bind (response_json response) k) self w) = Raise e ->
  isinstance e cFurSightError = true \/ isinstance e (cBuiltin ValueError) = true
  \/ allowed e.
Proof.
  intros Hk H.
  destruct (outcome_of (bind (_make_request urljoin method endpoint kw)
                          response_json self w)) as [v|e'] eqn:Hparsed.
  - right; right. revert H Hparsed. unfold bind at 1. unfold bind at 2.
    destruct (_make_request urljoin method endpoint kw self w)
      as [[[response|e''] s'] w']; [|discriminate].
    unfold bind. rewrite response_json_run.
    destruct (body_json response) as [body|]; [|discriminate].
    intros H _. exact (Hk _ _ _ _ H).
  - assert (e' = e) as ->.
    { revert H Hparsed. unfold bind at 1. unfold bind at 2.
      destruct (_make_request urljoin method endpoint kw self w)
        as [[[response|e''] s'] w']; [|by intros [= <-] [= <-]].
      unfold bind. rewrite response_json_run.
      destruct (body_json response); [discriminate | by intros [= <-] [= <-]]. }
    destruct (parsed_request_raises _ _ _ _ _ _ _ Hparsed); tauto.
Qed.

(** The exceptions the client's methods let out.  [get_health],
    [get_model_info] and [get_prediction_bands] let out what the executor
    lets out, the SDK's own errors, [ValueError] and [OverflowError], and
    the [JSONDecodeError], a [ValueError] too, of an accepted answer without
    JSON body.  [predict_single] lets out, besides these, the [TypeError]
    of a body that is no JSON object, and pydantic's [ValidationError],
    again a [ValueError], of a body that is no prediction.
    [get_sample_data] lets out, besides the first ones, [KeyError] and
    [TypeError] when the body lacks the [sample_data] entry.  None of the
    kinds from outside the SDK is an instance of [FurSightError]. *)
Theorem client_methods_let_out urljoin PredictionResponse_init :
  (forall a d include,
      lets_out (predict_single urljoin PredictionResponse_init a d include)
        (fun e => isinstance e cFurSightError = true
                  \/ isinstance e (cBuiltin ValueError) = true
                  \/ class_of e = cBuiltin OverflowError
                  \/ class_of e = cBuiltin TypeError))
  /\ (forall m, m ∈ [get_health urljoin; get_model_info urljoin;
                     get_prediction_bands urljoin] ->
        lets_out m (fun e => isinstance e cFurSightError = true
                             \/ isinstance e (cBuiltin ValueError) = true
                             \/ class_of e = cBuiltin OverflowError))
  /\ lets_out (get_sample_data urljoin)
       (fun e => isinstance e cFurSightError = true
                 \/ isinstance e (cBuiltin ValueError) = true
                 \/ class_of e = cBuiltin OverflowError
                 \/ class_of e = cBuiltin KeyError
                 \/ class_of e = cBuiltin TypeError)
  /\ (forall e k, isinstance e (cBuiltin k) = true -> isinstance e cFurSightError = false).
Proof.
  split_and!.
  - intros a d include self w e H. unfold predict_single in H.
    apply (parsed_then_raises _ _ _ _ _
             (fun e => isinstance e (cBuiltin ValueError) = true
                       \/ class_of e = cBuiltin TypeError)) in H; [tauto|].
    intros v s' w' e'. unfold PredictionResponse_of.
    destruct v as [| | | | | |fields]; try (intros [= <-]; by right).
    destruct (PredictionResponse_init fields); [discriminate|].
    intros [= <-]. by left.
  - intros m Hm self w e H.
    repeat (apply elem_of_cons in Hm as [->|Hm]);
      [| | | by apply elem_of_nil in Hm];
      destruct (parsed_request_raises _ _ _ _ _ _ _ H); tauto.
  - intros self w e H. unfold get_sample_data in H.
    apply (parsed_then_raises _ _ _ _ _
             (fun e => class_of e = cBuiltin KeyError
                       \/ class_of e = cBuiltin TypeError)) in H; [tauto|].
    intros v s' w' e'.
    destruct v as [| | | | | |items]; try (intros [= <-]; by right).
    destruct (dict_get items "sample_data"); [discriminate|].
    intros [= <-]. by left.
  - intros e k. destruct e as [| | | | | |k' m]; try (vm_compute; congruence).
    intros _. by destruct k'.
Qed.

(** At an answer whose body is a JSON list. *)
Lemma client_methods_let_out_witness :
  outcome_of (predict_single join_plain sample_init (AdopterDict []) (DogDict []) true
                sample_client listing_world)
  = Raise (Builtin TypeError
             "fursight.models.PredictionResponse() argument after ** must be a mapping, not list")
  /\ isinstance
       (Builtin TypeError
          "fursight.models.PredictionResponse() argument after ** must be a mapping, not list")
       cFurSightError = false.
Proof.
  split; [vm_compute; reflexivity|].
  apply (proj2 (proj2 (proj2 (client_methods_let_out join_plain sample_init))) _ TypeError).
  vm_compute. reflexivity.
Defined.

(** * The form builder *)

Section Builder.

Variable urljoin : string -> string -> string.
Variable removed_method : forall A : Type, string -> list pyval -> M FurSightClient A.

(** What holds of a form a builder returned without using the network. *)
Lemma preset_form_facts c w (r : result AdoptionForm * World) form :
  r = (Ok form, w) ->
  client form = c -> _dropdown_values form = None ->
  bool_decide (Forall (fun k => k ∈ AdopterProfile_fields) (_adopter_data form).*1) = true ->
  bool_decide (Forall (fun k => k ∈ DogProfile_fields) (_dog_data form).*1) = true ->
  check_items None (_adopter_data form) = Raise (no_attribute "get_dropdown_values") ->
  exists form,
    r = (Ok form, w)
    /\ client form = c
    /\ Forall (fun k => k ∈ AdopterProfile_fields) (_adopter_data form).*1
    /\ Forall (fun k => k ∈ DogProfile_fields) (_dog_data form).*1
    /\ forall w', validate removed_method form w'
                  = (Raise (no_attribute "get_dropdown_values"), form, w').
Proof.
  intros -> Hc Hcache Ha Hd Hcheck. exists form.
  split_and!; [done | done | by apply bool_decide_eq_true in Ha
               | by apply bool_decide_eq_true in Hd |].
  intros w'. rewrite validate_run. unfold validate_result. by rewrite Hcache, Hcheck.
Qed.

(** [create_basic_form] and the three named templates build their form
    without any network access, from presets that are all declared fields
    of the profile models; and every form they return fails [validate()]
    with [AttributeError], because its fields hold values and no
    allowed-values table can be fetched.  Any other template name falls back
    to [load_sample_data]. *)
Theorem builder_forms_cannot_be_validated c w :
  (exists form,
      create_basic_form c w = (Ok form, w)
      /\ client form = c
      /\ Forall (fun k => k ∈ AdopterProfile_fields) (_adopter_data form).*1
      /\ Forall (fun k => k ∈ DogProfile_fields) (_dog_data form).*1
      /\ forall w', validate removed_method form w'
                    = (Raise (no_attribute "get_dropdown_values"), form, w'))
  /\ (forall name, name ∈ template_names ->
        exists form,
          create_from_template urljoin c name w = (Ok form, w)
          /\ client form = c
          /\ Forall (fun k => k ∈ AdopterProfile_fields) (_adopter_data form).*1
          /\ Forall (fun k => k ∈ DogProfile_fields) (_dog_data form).*1
          /\ forall w', validate removed_method form w'
                        = (Raise (no_attribute "get_dropdown_values"), form, w'))
  /\ (forall name, name ∉ template_names ->
        create_from_template urljoin c name w = build c (load_sample_data urljoin) w).
Proof.
  split_and!.
  - eapply preset_form_facts; [reflexivity | reflexivity | reflexivity | | | reflexivity];
      vm_compute; reflexivity.
  - intros name Hin. unfold template_names in Hin.
    repeat (apply elem_of_cons in Hin as [->|Hin]); [| | |by apply elem_of_nil in Hin];
      (eapply preset_form_facts;
       [reflexivity | reflexivity | reflexivity | | | reflexivity]);
      vm_compute; reflexivity.
  - intros name Hnot. unfold template_names in Hnot.
    apply not_elem_of_cons in Hnot as [H1 Hnot].
    apply not_elem_of_cons in Hnot as [H2 Hnot].
    apply not_elem_of_cons in Hnot as [H3 _].
    unfold create_from_template.
    by rewrite !(proj2 (String.eqb_neq _ _)).
Qed.

End Builder.

Lemma builder_forms_cannot_be_validated_witness :
  exists form,
    create_from_template join_plain sample_client "senior_adopter" quiet_world
    = (Ok form, quiet_world)
    /\ validate absent_method form quiet_world
       = (Raise (no_attribute "get_dropdown_values"), form, quiet_world).
Proof.
  destruct (proj1 (proj2 (builder_forms_cannot_be_validated join_plain absent_method
                            sample_client quiet_world)) "senior_adopter")
    as (form & Hbuild & _ & _ & _ & Hvalidate).
  - apply (bool_decide_unpack _). vm_compute. exact I.
  - exists form. split; [exact Hbuild | apply Hvalidate].
Defined.

(** * Field information *)

Section FieldInfoFacts.

Variable removed_method : forall A : Type, string -> list pyval -> M FurSightClient A.

(** [get_field_info] needs the allowed-values table: without a cached one
    it raises [AttributeError].  With one, it changes nothing and reports
    whether the table names the field and with which values; as current
    value it reports the adopter partition's value when that value is truthy
    and otherwise whatever the dog partition holds, so that an adopter value
    of [0], [False], the empty string or [None] is never reported when the
    dog partition has a value under the same name; and the category follows
    the prefix of the name. *)
Theorem field_info_reports k f w :
  (_dropdown_values f = None ->
   get_field_info removed_method k f w
   = (Raise (no_attribute "get_dropdown_values"), f, w))
  /\ (forall t, _dropdown_values f = Some t ->
        exists info,
          get_field_info removed_method k f w = (Ok info, f, w)
          /\ info_field_name info = k
          /\ (info_is_dropdown info = true <-> k ∈ t.*1)
          /\ info_allowed_values info = default [] (table_get t k)
          /\ (forall v, dict_get (_adopter_data f) k = Some v -> py_truthy v = true ->
                info_current_value info = v)
          /\ ((dict_get (_adopter_data f) k = None
               \/ exists v, dict_get (_adopter_data f) k = Some v /\ py_truthy v = false) ->
              info_current_value info = dict_get_or_none (_dog_data f) k)
          /\ (String.prefix "adopter_" k = true -> info_category info = "adopter")
          /\ (String.prefix "dog_" k = true -> info_category info = "dog")
          /\ (String.prefix "adopter_" k = false -> String.prefix "dog_" k = false ->
              info_category info = "unknown")).
Proof.
  split.
  - intros Hc. unfold get_field_info. unfold bind at 1.
    by rewrite get_dropdown_values_run, Hc.
  - intros t Hc. unfold get_field_info. unfold bind at 1.
    rewrite get_dropdown_values_run, Hc. unfold bind, get_self, ret.
    eexists. split; [reflexivity|]. cbn [info_field_name info_is_dropdown
      info_allowed_values info_current_value info_category].
    assert (Hkey : forall t' : table, is_Some (table_get t' k) <-> k ∈ t'.*1).
    { induction t' as [|[k' l] t' IH]; cbn.
      - split; [by intros [? ?] | by intros ?%elem_of_nil].
      - destruct (String.eqb_spec k k') as [->|Hne].
        + split; [intros _; by left | by eexists].
        + rewrite IH. split; [by right | intros [?|?]%elem_of_cons; congruence]. }
    split_and!.
    + reflexivity.
    + rewrite <- Hkey.
      destruct (table_get t k); split; first [done | by eexists | by intros [? ?]].
    + by destruct (table_get t k).
    + intros v Hv Ht. unfold dict_get_or_none. by rewrite Hv, Ht.
    + intros [Hn|(v & Hv & Ht)]; unfold dict_get_or_none.
      * by rewrite Hn.
      * by rewrite Hv, Ht.
    + by intros ->.
    + intros Hd. destruct (String.prefix "adopter_" k) eqn:Ha; [|by rewrite Hd].
      by rewrite (prefixes_exclusive k Ha) in Hd.
    + by intros -> ->.
Qed.

End FieldInfoFacts.

Lemma field_info_reports_witness :
  exists info,
    get_field_info absent_method "count" masked_form quiet_world
    = (Ok info, masked_form, quiet_world)
    /\ info_current_value info = PyInt 7
    /\ info_category info = "unknown".
Proof.
  destruct (proj2 (field_info_reports absent_method "count" masked_form quiet_world)
              size_table eq_refl)
    as (info & Hrun & _ & _ & _ & _ & Hmask & _ & _ & Hcat).
  exists info. split_and!; [exact Hrun | | by apply Hcat].
  apply Hmask. right. exists (PyInt 0). by split.
Defined.
